(** * psub: format detection and fan-out rehosting of subscription links

    A shallow embedding of the edge function of the repository, in its
    two variants with a content store ([src/unnamed/part_000], which
    forwards requests with a [target] to the backend, and
    [src/unnamed/part_001], which decodes segments that are neither URLs
    nor node links), and the properties of its specification.

    JavaScript strings are sequences of UTF-16 code units; they are
    modelled as lists of [N].  Platform functions ([String.prototype.trim],
    [atob], [btoa], [String.prototype.replace], ...) follow ECMA-262 and
    the WHATWG forgiving-base64 algorithm. *)

From Stdlib Require Import ZArith NArith List String Ascii Bool Lia.
From stdpp Require Import base option list gmap.
Import ListNotations.

Local Open Scope N_scope.
Local Open Scope list_scope.

(** ** Strings *)

Abbreviation jsstring := (list N).

(** A literal of the source, as code units. *)
Definition str (s : string) : jsstring :=
  map N_of_ascii (list_ascii_of_string s).

Fixpoint jsstring_eqb (a b : jsstring) : bool :=
  match a, b with
  | [], [] => true
  | x :: a', y :: b' => N.eqb x y && jsstring_eqb a' b'
  | _, _ => false
  end.

(** [s.startsWith(p)] *)
Fixpoint startsWith (s p : jsstring) {struct p} : bool :=
  match p with
  | [] => true
  | c :: p' =>
      match s with
      | [] => false
      | d :: s' => N.eqb c d && startsWith s' p'
      end
  end.

(** [s.includes(p)] *)
Fixpoint includes (s p : jsstring) : bool :=
  startsWith s p ||
  match s with
  | [] => false
  | _ :: s' => includes s' p
  end.

(** WhiteSpace and LineTerminator of ECMA-262: what [trim] strips and
    what [\s] matches. *)
Definition is_js_space (c : N) : bool :=
  (9 <=? c) && (c <=? 13)
  || N.eqb c 32 || N.eqb c 160 || N.eqb c 5760
  || (8192 <=? c) && (c <=? 8202)
  || N.eqb c 8232 || N.eqb c 8233 || N.eqb c 8239 || N.eqb c 8287
  || N.eqb c 12288 || N.eqb c 65279.

Fixpoint trimStart (s : jsstring) : jsstring :=
  match s with
  | c :: s' => if is_js_space c then trimStart s' else s
  | [] => []
  end.

Definition trimEnd (s : jsstring) : jsstring := rev (trimStart (rev s)).

(** [s.trim()] *)
Definition trim (s : jsstring) : jsstring := trimEnd (trimStart s).

(** [s.replace(/\s/g, '')] *)
Definition remove_spaces (s : jsstring) : jsstring :=
  filter (fun c => is_js_space c = false) s.

(** ** Exceptions *)

Inductive exn : Type :=
| InvalidCharacterError
| TypeError
| RangeError
| SyntaxError
| FetchError (msg : jsstring).

(** [e.message]; the texts of the platform's own errors are those of a
    common runtime and no property depends on them. *)
Definition message (e : exn) : jsstring :=
  match e with
  | InvalidCharacterError => str "Invalid character"
  | TypeError => str "Type error"
  | RangeError => str "Range error"
  | SyntaxError => str "Unexpected token"
  | FetchError msg => msg
  end.

Inductive Exc (A : Type) : Type :=
| Return (a : A)
| Throw (e : exn).
Arguments Return {A} a.
Arguments Throw {A} e.

Definition exc_bind {A B} (m : Exc A) (k : A -> Exc B) : Exc B :=
  match m with
  | Return a => k a
  | Throw e => Throw e
  end.

(** [try { m } catch (e) { h e }] *)
Definition try_catch {A} (m : Exc A) (h : exn -> Exc A) : Exc A :=
  match m with
  | Return a => Return a
  | Throw e => h e
  end.


(** ** Base64: [atob] and [btoa] *)

Definition is_upper (c : N) : bool := (65 <=? c) && (c <=? 90).
Definition is_lower (c : N) : bool := (97 <=? c) && (c <=? 122).
Definition is_digit (c : N) : bool := (48 <=? c) && (c <=? 57).

(** Value of a code unit in the base64 table. *)
Definition b64_value (c : N) : option N :=
  if is_upper c then Some (c - 65)
  else if is_lower c then Some (c - 97 + 26)
  else if is_digit c then Some (c - 48 + 52)
  else if N.eqb c 43 then Some 62
  else if N.eqb c 47 then Some 63
  else None.

(** ASCII whitespace of the Infra standard: TAB, LF, FF, CR, SPACE. *)
Definition is_ascii_whitespace (c : N) : bool :=
  N.eqb c 9 || N.eqb c 10 || N.eqb c 12 || N.eqb c 13 || N.eqb c 32.

Fixpoint b64_values (s : jsstring) : option (list N) :=
  match s with
  | [] => Some []
  | c :: s' =>
      match b64_value c, b64_values s' with
      | Some v, Some vs => Some (v :: vs)
      | _, _ => None
      end
  end.

(** Groups of four sextets give three bytes; a final group of two gives
    one byte and of three gives two, the spare bits being discarded. *)
Fixpoint b64_bytes (fuel : nat) (vs : list N) : list N :=
  match fuel with
  | O => []
  | S fuel' =>
      match vs with
      | a :: b :: c :: d :: rest =>
          let n := N.lor (N.lor (N.lor (N.shiftl a 18) (N.shiftl b 12))
                                (N.shiftl c 6)) d in
          N.land (N.shiftr n 16) 255 :: N.land (N.shiftr n 8) 255
            :: N.land n 255 :: b64_bytes fuel' rest
      | [a; b; c] =>
          let n := N.lor (N.lor (N.shiftl a 12) (N.shiftl b 6)) c in
          [N.land (N.shiftr n 10) 255; N.land (N.shiftr n 2) 255]
      | [a; b] =>
          let n := N.lor (N.shiftl a 6) b in
          [N.land (N.shiftr n 4) 255]
      | _ => []
      end
  end.

(** Step 2 of forgiving-base64 decode: with a length divisible by four,
    one or two trailing [=] are removed. *)
Definition strip_padding (s : jsstring) : jsstring :=
  if Nat.eqb (length s mod 4)%nat 0 then
    match rev s with
    | x :: r =>
        if N.eqb x 61 then
          match r with
          | y :: r' => if N.eqb y 61 then rev r' else rev r
          | [] => rev r
          end
        else s
    | [] => s
    end
  else s.

(** [atob(s)]: throws [InvalidCharacterError] on failure. *)
Definition atob (s : jsstring) : Exc jsstring :=
  let s1 := filter (fun c => is_ascii_whitespace c = false) s in
  let s2 := strip_padding s1 in
  if Nat.eqb (length s2 mod 4)%nat 1 then Throw InvalidCharacterError
  else
    match b64_values s2 with
    | Some vs => Return (b64_bytes (length vs) vs)
    | None => Throw InvalidCharacterError
    end.

Definition b64_char (v : N) : N :=
  if v <? 26 then v + 65
  else if v <? 52 then v - 26 + 97
  else if v <? 62 then v - 52 + 48
  else if N.eqb v 62 then 43 else 47.

Fixpoint b64_encode (fuel : nat) (bs : list N) : jsstring :=
  match fuel with
  | O => []
  | S fuel' =>
      match bs with
      | a :: b :: c :: rest =>
          let n := N.lor (N.lor (N.shiftl a 16) (N.shiftl b 8)) c in
          b64_char (N.land (N.shiftr n 18) 63)
            :: b64_char (N.land (N.shiftr n 12) 63)
            :: b64_char (N.land (N.shiftr n 6) 63)
            :: b64_char (N.land n 63) :: b64_encode fuel' rest
      | [a; b] =>
          let n := N.lor (N.shiftl a 16) (N.shiftl b 8) in
          [b64_char (N.land (N.shiftr n 18) 63);
           b64_char (N.land (N.shiftr n 12) 63);
           b64_char (N.land (N.shiftr n 6) 63); 61]
      | [a] =>
          let n := N.shiftl a 16 in
          [b64_char (N.land (N.shiftr n 18) 63);
           b64_char (N.land (N.shiftr n 12) 63); 61; 61]
      | [] => []
      end
  end.

(** [btoa(s)]: throws when a code unit is above 255. *)
Definition btoa (s : jsstring) : Exc jsstring :=
  if forallb (fun c => c <=? 255) s then Return (b64_encode (length s) s)
  else Throw InvalidCharacterError.

(** ** The format classifier: [parseData] *)

(** The values [parseData] can be handed: a string, or one of the
    primitives, on which [data.trim()] raises a [TypeError]. *)
Inductive jsval : Type :=
| JStr (s : jsstring)
| JNull
| JUndefined
| JNum (z : Z)
| JBool (b : bool).

Inductive format : Type := base64 | yaml | direct | unknown.

Record payload : Type := Payload { fmt : format; data : jsval }.

(** [data.trim()] *)
Definition call_trim (v : jsval) : Exc jsstring :=
  match v with
  | JStr s => Return (trim s)
  | _ => Throw TypeError
  end.

(** The class [[A-Za-z0-9+/=\s]] *)
Definition base64_class (c : N) : bool :=
  is_upper c || is_lower c || is_digit c
  || N.eqb c 43 || N.eqb c 47 || N.eqb c 61 || is_js_space c.

(** [/^[A-Za-z0-9+/=\s]+$/.test(s)] *)
Definition base64Pattern_test (s : jsstring) : bool :=
  match s with
  | [] => false
  | _ => forallb base64_class s
  end.

(** The alternatives of [(ssr?|vmess1?|trojan|vless|hysteria|hysteria2|tg)]. *)
Definition node_schemes : list jsstring :=
  [str "ss"; str "ssr"; str "vmess"; str "vmess1"; str "trojan";
   str "vless"; str "hysteria"; str "hysteria2"; str "tg"].

(** [/^(ssr?|vmess1?|trojan|vless|hysteria|hysteria2|tg):\/\//.test(s)] *)
Definition nodeLink_test (s : jsstring) : bool :=
  existsb (fun scheme => startsWith s (scheme ++ str "://")) node_schemes.

(** The three checks after the base64 attempt. *)
Definition classify_rest (trimmed : jsstring) : payload :=
  if includes trimmed (str "proxies:") || includes trimmed (str "Proxy:")
  then Payload yaml (JStr trimmed)
  else if nodeLink_test trimmed then Payload direct (JStr trimmed)
  else Payload unknown (JStr trimmed).

(** The inner [try]: [Some p] when it returns [p], [None] when control
    leaves the [if] without returning. *)
Definition try_base64 (trimmed : jsstring) : Exc (option payload) :=
  if base64Pattern_test trimmed && (20 <? length trimmed)%nat then
    try_catch
      (exc_bind (atob (remove_spaces trimmed)) (fun decoded =>
         if includes decoded (str "://")
         then Return (Some (Payload base64 (JStr decoded)))
         else Return None))
      (fun _ => Return None)
  else Return None.

Definition parseData (v : jsval) : Exc payload :=
  try_catch
    (exc_bind (call_trim v) (fun trimmed =>
     exc_bind (try_base64 trimmed) (fun returned =>
       match returned with
       | Some p => Return p
       | None => Return (classify_rest trimmed)
       end)))
    (fun _ => Return (Payload unknown v)).

(** ** Objects, the content store and the world *)

(** A plain object with string values, in insertion order. *)
Definition object := list (jsstring * jsstring).

Fixpoint obj_get (o : object) (k : jsstring) : option jsstring :=
  match o with
  | [] => None
  | (k', v) :: o' => if jsstring_eqb k' k then Some v else obj_get o' k
  end.

(** [o[k] = v]: an existing property keeps its place. *)
Fixpoint obj_set (o : object) (k v : jsstring) : object :=
  match o with
  | [] => [(k, v)]
  | (k', v') :: o' =>
      if jsstring_eqb k' k then (k, v) :: o' else (k', v') :: obj_set o' k v
  end.

(** [Object.fromEntries(entries)] *)
Definition Object_fromEntries (entries : list (jsstring * jsstring)) : object :=
  fold_left (fun o kv => obj_set o (fst kv) (snd kv)) entries [].

(** A string held by the program: its code units, or the output of
    [JSON.stringify] on an object, which is kept symbolic.  Such a text
    is never empty and [JSON.parse] gives the object back. *)
Inductive text : Type :=
| Lit (s : jsstring)
| Stringified (o : object).

(** [!t] *)
Definition falsy (t : text) : bool :=
  match t with
  | Lit [] => true
  | _ => false
  end.

Record response : Type := Response {
  resp_status : Z;
  resp_headers : list (jsstring * jsstring);
  (** [response.text()], or the decoded [response.arrayBuffer()] *)
  resp_text : Exc jsstring
}.

(** [response.ok] *)
Definition resp_ok (r : response) : bool :=
  ((200 <=? resp_status r) && (resp_status r <=? 299))%Z.

Inductive event : Type :=
| ESet (k : jsstring) (v : text)       (* memoryCache.set(k, v) *)
| EGet (k : jsstring)                  (* memoryCache.get(k) *)
| EPush (uri : jsstring)               (* replacedURIs.push(uri) *)
| EFetch (url : jsstring) (headers : object).

(** The process and its environment.  [Math_random n] is the value of
    [Math.floor(Math.random() * 36)] at the [n]-th draw and
    [network n url headers] the outcome of the [n]-th [fetch];
    [replacedURIs] is the array of the running [processSubscription];
    [trace] lists the effects, the latest first. *)
Record world : Type := World {
  memoryCache : gmap jsstring text;
  replacedURIs : list jsstring;
  draws : nat;
  fetches : nat;
  trace : list event;
  Math_random : nat -> nat;
  network : nat -> jsstring -> object -> Exc response
}.

(** ** The monad of effects: state and exceptions *)

Definition M (A : Type) : Type := world -> Exc A * world.

Definition ret {A} (a : A) : M A := fun w => (Return a, w).

Definition bind {A B} (m : M A) (k : A -> M B) : M B :=
  fun w =>
    match m w with
    | (Return a, w') => k a w'
    | (Throw e, w') => (Throw e, w')
    end.

Definition lift {A} (m : Exc A) : M A := fun w => (m, w).

(** [try { m } catch (e) { h e }]: the effects of [m] stay. *)
Definition catch {A} (m : M A) (h : exn -> M A) : M A :=
  fun w =>
    match m w with
    | (Return a, w') => (Return a, w')
    | (Throw e, w') => h e w'
    end.

Notation "x <- m ;; k" := (bind m (fun x => k))
  (at level 100, m at next level, right associativity).
Notation "m ;; k" := (bind m (fun _ => k))
  (at level 100, right associativity).

(** [for (const x of l) { body x }] *)
Fixpoint for_of {A} (l : list A) (body : A -> M unit) : M unit :=
  match l with
  | [] => ret tt
  | x :: l' => body x ;; for_of l' body
  end.

Definition cache_set (k : jsstring) (v : text) : M unit :=
  fun w => (Return tt,
            World (<[k := v]> (memoryCache w)) (replacedURIs w) (draws w)
                  (fetches w) (ESet k v :: trace w)
                  (Math_random w) (network w)).

Definition cache_get (k : jsstring) : M (option text) :=
  fun w => (Return (memoryCache w !! k),
            World (memoryCache w) (replacedURIs w) (draws w)
                  (fetches w) (EGet k :: trace w)
                  (Math_random w) (network w)).

(** [const replacedURIs = []] *)
Definition new_replacedURIs : M unit :=
  fun w => (Return tt,
            World (memoryCache w) [] (draws w) (fetches w) (trace w)
                  (Math_random w) (network w)).

Definition push (uri : jsstring) : M unit :=
  fun w => (Return tt,
            World (memoryCache w) (replacedURIs w ++ [uri]) (draws w)
                  (fetches w) (EPush uri :: trace w)
                  (Math_random w) (network w)).

Definition read_replacedURIs : M (list jsstring) :=
  fun w => (Return (replacedURIs w), w).

(** [Math.floor(Math.random() * chars.length)] with 36 characters. *)
Definition random_index : M nat :=
  fun w => (Return (Math_random w (draws w) mod 36)%nat,
            World (memoryCache w) (replacedURIs w) (S (draws w))
                  (fetches w) (trace w) (Math_random w) (network w)).

Definition fetch (url : jsstring) (headers : object) : M response :=
  fun w => (network w (fetches w) url headers,
            World (memoryCache w) (replacedURIs w) (draws w)
                  (S (fetches w)) (EFetch url headers :: trace w)
                  (Math_random w) (network w)).

(** ** The key generator *)

Definition chars : jsstring := str "abcdefghijklmnopqrstuvwxyz0123456789".

(** [s.charAt(i)] *)
Definition charAt (s : jsstring) (i : nat) : jsstring :=
  match nth_error s i with
  | Some c => [c]
  | None => []
  end.

Fixpoint generateRandomStr_from (len : nat) (result : jsstring) : M jsstring :=
  match len with
  | O => ret result
  | S len' =>
      i <- random_index ;;
      generateRandomStr_from len' (result ++ charAt chars i)
  end.

Definition generateRandomStr (len : nat) : M jsstring :=
  generateRandomStr_from len [].

(** ** Requests and replies *)

(** The result of [new URL(request.url)]. *)
Record URL : Type := Url {
  url_protocol : jsstring;
  url_host : jsstring;
  url_pathname : jsstring;
  url_search : jsstring;
  url_searchParams : list (jsstring * jsstring)
}.

Record request : Type := Request {
  req_url : URL;
  (** [request.headers.get('User-Agent')] *)
  req_user_agent : option jsstring
}.

(** [new Response(body, { status, headers })] *)
Record reply : Type := Reply {
  status : Z;
  body : text;
  headers : object
}.

(** [url.searchParams.get(name)] *)
Definition searchParams_get (url : URL) (name : jsstring) : option jsstring :=
  obj_get (url_searchParams url) name.

(** [a || b] on a possibly null string *)
Definition or_else (a : option jsstring) (b : jsstring) : jsstring :=
  match a with
  | Some (c :: s) => c :: s
  | _ => b
  end.

Definition getHost (request : request) : jsstring :=
  url_protocol (req_url request) ++ str "//" ++ url_host (req_url request).

(** [s.split(sep)] for a separator of one code unit *)
Fixpoint split_on (sep : N) (s : jsstring) : list jsstring :=
  match s with
  | [] => [[]]
  | c :: s' =>
      if N.eqb c sep then [] :: split_on sep s'
      else match split_on sep s' with
           | cur :: rest => (c :: cur) :: rest
           | [] => [[c]]
           end
  end.

(** [s.split(/\r?\n/)] *)
Fixpoint split_lines (s : jsstring) : list jsstring :=
  match s with
  | [] => [[]]
  | c :: s' =>
      let keep :=
        match split_lines s' with
        | cur :: rest => (c :: cur) :: rest
        | [] => [[c]]
        end in
      if N.eqb c 10 then [] :: split_lines s'
      else if N.eqb c 13 then
        match s' with
        | d :: s'' => if N.eqb d 10 then [] :: split_lines s'' else keep
        | [] => keep
        end
      else keep
  end.

(** [l.join(sep)] *)
Fixpoint join (l : list jsstring) (sep : jsstring) : jsstring :=
  match l with
  | [] => []
  | [x] => x
  | x :: l' => x ++ sep ++ join l' sep
  end.

(** [s.replace(pat, rep)] for a string pattern and a replacement without
    [$]: the first occurrence only. *)
Fixpoint replace_first (s pat rep : jsstring) : jsstring :=
  if startsWith s pat then rep ++ skipn (length pat) s
  else match s with
       | [] => []
       | c :: s' => c :: replace_first s' pat rep
       end.

Definition subDir : jsstring := str "subscription".

(** [`${host}/${subDir}/${key}`] *)
Definition uri_of (host key : jsstring) : jsstring :=
  host ++ str "/" ++ subDir ++ str "/" ++ key.

Definition default_user_agent : jsstring :=
  str "Mozilla/5.0 (Windows NT 10.0; Win64; x64) AppleWebKit/537.36".

Definition content_type : jsstring := str "Content-Type".
Definition text_plain : object := [(content_type, str "text/plain")].
Definition text_plain_utf8 : object :=
  [(content_type, str "text/plain;charset=UTF-8")].
Definition allow_origin : jsstring := str "Access-Control-Allow-Origin".
Definition headers_suffix : jsstring := str "_headers".

(** [!content || content.trim().length === 0] *)
Definition blank (content : jsstring) : bool :=
  match content with
  | [] => true
  | _ => Nat.eqb (length (trim content)) 0
  end.

(** The loop over the decoded lines, the same text in both places:
<<
  const links = parsed.data.split(/\r?\n/).filter(link => link.trim() !== '');
  for (const link of links) {
    const nodeKey = generateRandomStr(16);
    memoryCache.set(nodeKey, link);
    memoryCache.set(nodeKey + '_headers', JSON.stringify({ 'Content-Type': 'text/plain' }));
    replacedURIs.push(`${host}/${subDir}/${nodeKey}`);
  }
>> *)
Definition store_links (host : jsstring) (parsed_data : jsval) : M unit :=
  match parsed_data with
  | JStr d =>
      let links := filter (fun link => trim link <> []) (split_lines d) in
      for_of links (fun link =>
        nodeKey <- generateRandomStr 16 ;;
        cache_set nodeKey (Lit link) ;;
        cache_set (nodeKey ++ headers_suffix) (Stringified text_plain) ;;
        push (uri_of host nodeKey))
  | _ => lift (Throw TypeError)
  end.

(** The headers of the [fetch] of a subscription URL. *)
Definition subscription_fetch_headers (request : request) : object :=
  [(str "User-Agent", or_else (req_user_agent request) default_user_agent);
   (str "Accept",
    str "text/html,application/xhtml+xml,application/xml;q=0.9,*/*;q=0.8")].

(** [memoryCache.set(key, content); memoryCache.set(key + '_headers', ...);
    replacedURIs.push(...)] *)
Definition store_one (host key content : jsstring) (hdrs : object) : M unit :=
  cache_set key (Lit content) ;;
  cache_set (key ++ headers_suffix) (Stringified hdrs) ;;
  push (uri_of host key).

Definition all_invalid : reply :=
  Reply 400
    (Lit (str "Error: All subscription links are invalid or returned empty content."))
    text_plain.

(** The end of [processSubscription], after the loop. *)
Definition finish : M reply :=
  uris <- read_replacedURIs ;;
  if Nat.eqb (length uris) 0 then ret all_invalid
  else
    result <- lift (btoa (join uris (str (String "013" (String "010" ""))))) ;;
    ret (Reply 200 (Lit result)
           [(content_type, str "text/plain"); (allow_origin, str "*")]).

(** [targetUrl.split('|').filter(part => part.trim() !== '')] *)
Definition urlParts_of (targetUrl : jsstring) : list jsstring :=
  filter (fun part => trim part <> []) (split_on 124 targetUrl).

(** ** The fan-out resolver of [src/unnamed/part_001] *)

Module Part001.

(** The branch of a segment that starts with [https://] or [http://]. *)
Definition url_segment (request : request) (host key urlPart : jsstring)
  : M unit :=
  catch
    (response <- fetch urlPart (subscription_fetch_headers request) ;;
     if negb (resp_ok response) then ret tt
     else
       content <- lift (resp_text response) ;;
       if blank content then ret tt
       else
         parsed <- lift (parseData (JStr content)) ;;
         let headers := Object_fromEntries (resp_headers response) in
         cache_set (key ++ headers_suffix) (Stringified headers) ;;
         match fmt parsed with
         | base64 => store_links host (data parsed)
         | yaml => store_one host key content text_plain_utf8
         | _ => store_one host key content text_plain_utf8
         end)
    (fun e => ret tt).

(** The branch of a segment that is neither a URL nor a node link. *)
Definition other_segment (host key urlPart : jsstring) : M unit :=
  catch
    (decoded <- lift (atob (remove_spaces urlPart)) ;;
     parsed <- lift (parseData (JStr decoded)) ;;
     match fmt parsed with
     | base64 => store_links host (data parsed)
     | _ => ret tt
     end)
    (fun e => store_one host key urlPart text_plain).

(** The body of [for (const urlPart of urlParts)]. *)
Definition segment (request : request) (host urlPart : jsstring) : M unit :=
  key <- generateRandomStr 16 ;;
  if startsWith urlPart (str "https://") || startsWith urlPart (str "http://")
  then url_segment request host key urlPart
  else if nodeLink_test urlPart then store_one host key urlPart text_plain
  else other_segment host key urlPart.

Definition processSubscription (request : request) (url : URL)
    (backend : jsstring) : M reply :=
  let host := getHost request in
  match searchParams_get url (str "url") with
  | None | Some [] => ret (Reply 400 (Lit (str "Missing url parameter")) [])
  | Some targetUrl =>
      new_replacedURIs ;;
      let urlParts := urlParts_of targetUrl in
      if Nat.eqb (length urlParts) 0
      then ret (Reply 400 (Lit (str "There are no valid links")) [])
      else for_of urlParts (segment request host) ;; finish
  end.

End Part001.

(** ** The route dispatcher *)

Section Handler.

(** [JSON.parse] on a text that is not known to come from
    [JSON.stringify]. *)
Variable JSON_parse_units : jsstring -> Exc object.
(** The root page and the [/version] route, which differ between the
    variants and touch neither the store nor the resolver. *)
Variables rootEndpoint versionEndpoint : request -> M reply.
Variable BACKEND : jsstring.
Variable processSubscription : request -> URL -> jsstring -> M reply.

Definition JSON_parse (t : text) : Exc object :=
  match t with
  | Stringified o => Return o
  | Lit s => JSON_parse_units s
  end.

(** The branch [url.pathname.startsWith('/subscription/')]. *)
Definition subscriptionEndpoint (url : URL) : M reply :=
  let key := replace_first (url_pathname url) (str "/subscription/") [] in
  if bool_decide (key = []) || includes key (str "/") || includes key (str "..")
  then ret (Reply 400 (Lit (str "Invalid key")) [])
  else
    content <- cache_get key ;;
    headersStr <- cache_get (key ++ headers_suffix) ;;
    match content with
    | None => ret (Reply 404 (Lit (str "Not Found")) [])
    | Some c =>
        if falsy c then ret (Reply 404 (Lit (str "Not Found")) [])
        else
          hdrs <- match headersStr with
                  | None => ret text_plain_utf8
                  | Some h => if falsy h then ret text_plain_utf8
                              else lift (JSON_parse h)
                  end ;;
          ret (Reply 200 c (obj_set hdrs allow_origin (str "*")))
    end.

Definition handler (request : request) : M reply :=
  let url := req_url request in
  if bool_decide (url_pathname url = str "/")
     || bool_decide (url_pathname url = [])
  then rootEndpoint request
  else if bool_decide (url_pathname url = str "/version")
  then versionEndpoint request
  else if startsWith (url_pathname url) (str "/subscription/")
  then subscriptionEndpoint url
  else if bool_decide (url_pathname url = str "/sub")
          || startsWith (url_pathname url) (str "/sub")
  then processSubscription request url BACKEND
  else ret (Reply 404 (Lit (str "Not found")) []).

End Handler.

(** ** The backend forwarder of [src/unnamed/part_000] *)

(** The replacement text of [String.prototype.replace] for a pattern
    without capture groups (GetSubstitution of ECMA-262): [$$], [$&],
    [$`] and [$'] are expanded, any other [$] stays. *)
Fixpoint GetSubstitution (matched before after rep : jsstring) : jsstring :=
  match rep with
  | [] => []
  | c :: rest =>
      if N.eqb c 36 then
        match rest with
        | d :: rest' =>
            if N.eqb d 36 then 36 :: GetSubstitution matched before after rest'
            else if N.eqb d 38
            then matched ++ GetSubstitution matched before after rest'
            else if N.eqb d 96
            then before ++ GetSubstitution matched before after rest'
            else if N.eqb d 39
            then after ++ GetSubstitution matched before after rest'
            else 36 :: GetSubstitution matched before after rest
        | [] => [36]
        end
      else c :: GetSubstitution matched before after rest
  end.

(** [s.replace(/pat/g, rep)] for a pattern of literal code units, at
    least one: [seen] is the text already passed, reversed, and [skip]
    the number of code units of the current match still to pass. *)
Fixpoint replace_all_from (pat rep seen : jsstring) (skip : nat)
    (s : jsstring) : jsstring :=
  match s with
  | [] => []
  | c :: s' =>
      match skip with
      | S k => replace_all_from pat rep (c :: seen) k s'
      | O =>
          if startsWith s pat
          then GetSubstitution pat (rev seen) (skipn (length pat) s) rep
               ++ replace_all_from pat rep (c :: seen) (length pat - 1) s'
          else c :: replace_all_from pat rep (c :: seen) 0 s'
      end
  end.

Definition replace_all (s pat rep : jsstring) : jsstring :=
  replace_all_from pat rep [] 0 s.

(** ASCII lower case, for header names. *)
Definition to_lower (c : N) : N := if is_upper c then c + 32 else c.

(** [headers.get(name)] on the headers of a response *)
Fixpoint Headers_get (hs : list (jsstring * jsstring)) (name : jsstring)
  : option jsstring :=
  match hs with
  | [] => None
  | (k, v) :: hs' =>
      if jsstring_eqb (map to_lower k) (map to_lower name) then Some v
      else Headers_get hs' name
  end.

Fixpoint digits_of (fuel : nat) (n : N) (acc : jsstring) : jsstring :=
  match fuel with
  | O => acc
  | S fuel' =>
      let acc' := (48 + n mod 10) :: acc in
      if n <? 10 then acc' else digits_of fuel' (n / 10) acc'
  end.

(** [`${n}`] for an integer *)
Definition number_toString (z : Z) : jsstring :=
  let n := Z.abs_N z in
  let ds := digits_of (S (N.to_nat (N.log2 n))) n [] in
  if (z <? 0)%Z then 45 :: ds else ds.

(** [new Response(body, { status })] where the status is not a constant
    of the source: a status outside 200..599 is a [RangeError] and a
    body with a null-body status a [TypeError]. *)
Definition new_Response (b : text) (st : Z) (hs : object) : Exc reply :=
  if ((st <? 200) || (599 <? st))%Z then Throw RangeError
  else if ((st =? 204) || (st =? 205) || (st =? 304))%Z then Throw TypeError
  else Return (Reply st b hs).

Definition placeholder_friendly : jsstring := str "bulianglin2023.dev".
Definition placeholder_backend : jsstring := str "api.v1.mk".

(** The four [content.replace(..., ...)] of [forwardToBackend]. *)
Definition rewrite_domains (host currentHost content : jsstring) : jsstring :=
  let content := replace_all content (str "https://" ++ placeholder_friendly) host in
  let content := replace_all content placeholder_friendly currentHost in
  let content := replace_all content (str "https://" ++ placeholder_backend) host in
  replace_all content placeholder_backend currentHost.

Module Part000.

Definition forwardToBackend (request : request) (url : URL)
    (backend host subDir : jsstring) : M reply :=
  catch
    (let backendUrl := backend ++ url_pathname url ++ url_search url in
     response <- fetch backendUrl
       [(str "User-Agent", or_else (req_user_agent request) default_user_agent);
        (str "Accept", str "text/plain,*/*")] ;;
     if negb (resp_ok response)
     then lift (new_Response
                  (Lit (str "Backend error: "
                        ++ number_toString (resp_status response)))
                  (resp_status response) [])
     else
       content <- lift (resp_text response) ;;
       let currentHost := url_host url in
       let content := rewrite_domains host currentHost content in
       ret (Reply 200 (Lit content)
              [(content_type,
                or_else (Headers_get (resp_headers response) content_type)
                        (str "text/plain"));
               (allow_origin, str "*")]))
    (fun e => ret (Reply 500
                     (Lit (str "Error forwarding to backend: " ++ message e))
                     [])).

Definition url_segment (request : request) (host key urlPart : jsstring)
  : M unit :=
  catch
    (response <- fetch urlPart (subscription_fetch_headers request) ;;
     if negb (resp_ok response) then ret tt
     else
       content <- lift (resp_text response) ;;
       if blank content then ret tt
       else
         parsed <- lift (parseData (JStr content)) ;;
         let headers := Object_fromEntries (resp_headers response) in
         cache_set (key ++ headers_suffix) (Stringified headers) ;;
         match fmt parsed with
         | base64 => store_links host (data parsed)
         | _ => store_one host key content text_plain_utf8
         end)
    (fun e => ret tt).

Definition segment (request : request) (host urlPart : jsstring) : M unit :=
  key <- generateRandomStr 16 ;;
  if startsWith urlPart (str "https://") || startsWith urlPart (str "http://")
  then url_segment request host key urlPart
  else if nodeLink_test urlPart then store_one host key urlPart text_plain
  else ret tt.

Definition processSubscription (request : request) (url : URL)
    (backend : jsstring) : M reply :=
  let host := getHost request in
  let target := searchParams_get url (str "target") in
  match searchParams_get url (str "url") with
  | None | Some [] => ret (Reply 400 (Lit (str "Missing url parameter")) [])
  | Some targetUrl =>
      match target with
      | Some (_ :: _) => forwardToBackend request url backend host subDir
      | _ =>
          new_replacedURIs ;;
          let urlParts := urlParts_of targetUrl in
          if Nat.eqb (length urlParts) 0
          then ret (Reply 400 (Lit (str "There are no valid links")) [])
          else for_of urlParts (segment request host) ;; finish
      end
  end.

End Part000.


(** * Specification-side definitions *)

(** Step 1 of the classifier succeeds on the trimmed text [t] with the
    decoded text [d]. *)
Definition decodes_to_links (t d : jsstring) : Prop :=
  base64Pattern_test t = true /\ (20 < length t)%nat
  /\ atob (remove_spaces t) = Return d /\ includes d (str "://") = true.

(** The base64 attempt on the trimmed text [t] raises [e] in [atob]. *)
Definition decoding_raises (t : jsstring) (e : exn) : Prop :=
  base64Pattern_test t = true /\ (20 < length t)%nat
  /\ atob (remove_spaces t) = Throw e.

(** The check of step 2. *)
Definition yaml_check (t : jsstring) : bool :=
  includes t (str "proxies:") || includes t (str "Proxy:").

(** The path of [GET /subscription/{key}]. *)
Definition subscription_path (key : jsstring) : jsstring :=
  str "/subscription/" ++ key.

(** The key rejected by the dispatcher. *)
Definition invalid_key (key : jsstring) : Prop :=
  key = [] \/ includes key (str "/") = true \/ includes key (str "..") = true.

Definition get_subscription (host key : jsstring) : request :=
  Request (Url (str "https:") host (subscription_path key) [] []) None.

(** Routes and a [JSON.parse] for the examples: the out-of-scope routes
    answer with an empty page. *)
Definition parse_nothing : jsstring -> Exc object := fun _ => Throw SyntaxError.
Definition empty_page : request -> M reply :=
  fun _ => ret (Reply 200 (Lit []) []).
Definition default_backend : jsstring := str "https://api.v1.mk".

(** A fresh process: an empty store, the [n]-th draw is [n], and every
    [fetch] fails. *)
Definition offline : world :=
  World ∅ [] 0 0 [] (fun n => n) (fun _ _ _ => Throw (FetchError (str "fetch failed"))).

(** The key that [generateRandomStr_from len result] builds from the
    draws [start], [start + 1], ... of the source [rnd]. *)
Fixpoint random_key_from (rnd : nat -> nat) (start len : nat)
    (result : jsstring) : jsstring :=
  match len with
  | O => result
  | S len' =>
      random_key_from rnd (S start) len'
        (result ++ charAt chars (rnd start mod 36)%nat)
  end.

(** The key generated next in the world [w]. *)
Definition next_key (w : world) : jsstring :=
  random_key_from (Math_random w) (draws w) 16 [].

(** The world after [n] more draws. *)
Definition drawn (n : nat) (w : world) : world :=
  World (memoryCache w) (replacedURIs w) (draws w + n) (fetches w)
        (trace w) (Math_random w) (network w).

(** The world after [memoryCache.set(key, content)],
    [memoryCache.set(key + '_headers', JSON.stringify(hdrs))] and
    [replacedURIs.push(uri)]. *)
Definition stored (host key content : jsstring) (hdrs : object) (w : world)
  : world :=
  World (<[key ++ headers_suffix := Stringified hdrs]>
           (<[key := Lit content]> (memoryCache w)))
        (replacedURIs w ++ [uri_of host key]) (draws w) (fetches w)
        (EPush (uri_of host key)
           :: ESet (key ++ headers_suffix) (Stringified hdrs)
           :: ESet key (Lit content) :: trace w)
        (Math_random w) (network w).

(** The world after a [fetch] of [url]. *)
Definition fetched (url : jsstring) (hdrs : object) (w : world) : world :=
  World (memoryCache w) (replacedURIs w) (draws w) (S (fetches w))
        (EFetch url hdrs :: trace w) (Math_random w) (network w).

(** A key of the generator: 16 code units of [chars]. *)
Definition generated_key (k : jsstring) : Prop :=
  length k = 16%nat /\ Forall (fun c => In c chars) k.

(** The fetch of the URL segment [u] in [w] fails: the [fetch] throws,
    the status is not 2xx, the body cannot be read or it is blank. *)
Definition fetch_fails (request : request) (u : jsstring) (w : world) : Prop :=
  match network w (fetches w) u (subscription_fetch_headers request) with
  | Throw _ => True
  | Return r =>
      resp_ok r = false
      \/ match resp_text r with
         | Throw _ => True
         | Return content => blank content = true
         end
  end.

Definition is_url (u : jsstring) : bool :=
  startsWith u (str "https://") || startsWith u (str "http://").

(** [GET https://example.com/sub?url=...] with the segments [target_url]. *)
Definition sub_request (target_url : jsstring) : request :=
  Request (Url (str "https:") (str "example.com") (str "/sub")
             (str "?url=" ++ target_url) [(str "url", target_url)])
          None.

(** [btoa("vmess://abc")]: a node link, base64-encoded once. *)
Definition encoded_link : jsstring := str "dm1lc3M6Ly9hYmM=".

(** The world after [const replacedURIs = []]. *)
Definition fresh_list (w : world) : world :=
  World (memoryCache w) [] (draws w) (fetches w) (trace w)
        (Math_random w) (network w).

(** A process whose random source always draws 0: every key is
    [aaaaaaaaaaaaaaaa]. *)
Definition colliding : world :=
  World ∅ [] 0 0 [] (fun _ => 0%nat)
        (fun _ _ _ => Throw (FetchError (str "fetch failed"))).

Definition two_links : jsstring := str "vmess://abc|vless://xyz".

(** The headers served with an entry stored with [hdrs]. *)
Definition served_headers (hdrs : object) : object :=
  obj_set hdrs allow_origin (str "*").

(** A provider that answers every [fetch] with a Clash configuration and
    headers of its own. *)
Definition provider_response : response :=
  Response 200
    [(str "content-type", str "text/yaml");
     (str "subscription-userinfo", str "upload=0; download=0; total=1")]
    (Return (str "proxies: []")).

Definition online : world :=
  World ∅ [] 0 0 [] (fun n => n) (fun _ _ _ => Return provider_response).

Definition provider_url : jsstring := str "https://provider.example/sub".

(** [parsed.data.split(/\r?\n/).filter(link => link.trim() !== '')] *)
Definition links_of (d : jsstring) : list jsstring :=
  filter (fun link => trim link <> []) (split_lines d).

(** The world after the loop over the links: each one stored under the
    key generated next. *)
Fixpoint stored_links (host : jsstring) (links : list jsstring) (w : world)
  : world :=
  match links with
  | [] => w
  | link :: links' =>
      stored_links host links'
        (stored host (next_key w) link text_plain (drawn 16 w))
  end.

(** The URI points at an entry of the store: a generated key that holds
    a non-empty content and a headers entry. *)
Definition resolvable (host : jsstring) (w : world) (uri : jsstring) : Prop :=
  exists key content hdrs,
    uri = uri_of host key /\ generated_key key /\ content <> []
    /\ memoryCache w !! key = Some (Lit content)
    /\ memoryCache w !! (key ++ headers_suffix) = Some (Stringified hdrs).

(** In a trace (latest event first), every [push] of a URI comes after
    the two writes of its entry. *)
Fixpoint backed (host : jsstring) (delta : list event) : Prop :=
  match delta with
  | [] => True
  | e :: earlier =>
      backed host earlier
      /\ match e with
         | EPush uri =>
             exists key content hdrs,
               uri = uri_of host key /\ generated_key key /\ content <> []
               /\ In (ESet key (Lit content)) earlier
               /\ In (ESet (key ++ headers_suffix) (Stringified hdrs)) earlier
         | _ => True
         end
  end.

(** The invariant of the loop of [processSubscription], for a run that
    began with the trace [t0]. *)
Definition fanout_invariant (host : jsstring) (t0 : list event) (w : world)
  : Prop :=
  (exists delta, trace w = delta ++ t0 /\ backed host delta)
  /\ Forall (resolvable host w) (replacedURIs w).

Definition crlf : jsstring := str (String "013" (String "010" "")).

(** With the dispatcher [h], the URI is answered with the content of its
    entry. *)
Definition resolves (h : request -> M reply) (host : jsstring) (w : world)
    (uri : jsstring) : Prop :=
  exists key content hdrs,
    uri = uri_of host key /\ generated_key key /\ content <> []
    /\ forall rq : request,
         url_pathname (req_url rq) = subscription_path key ->
         fst (h rq w) = Return (Reply 200 (Lit content) (served_headers hdrs)).

(** [GET https://example.com/sub?url=vmess://abc&target=...] *)
Definition target_request (target : jsstring) : request :=
  Request (Url (str "https:") (str "example.com") (str "/sub")
             (str "?url=vmess://abc&target=" ++ target)
             [(str "url", str "vmess://abc"); (str "target", target)])
          None.

(** The headers of the [fetch] of [forwardToBackend]. *)
Definition backend_fetch_headers (request : request) : object :=
  [(str "User-Agent", or_else (req_user_agent request) default_user_agent);
   (str "Accept", str "text/plain,*/*")].

(** [`${backend}${url.pathname}${url.search}`] *)
Definition backendUrl_of (backend : jsstring) (url : URL) : jsstring :=
  backend ++ url_pathname url ++ url_search url.

(** ** The rewriting of the backend domains, as the specification has it *)

Definition full_friendly : jsstring := str "https://" ++ placeholder_friendly.
Definition full_backend : jsstring := str "https://" ++ placeholder_backend.

(** One pass over the body, from left to right: at each position an
    occurrence of [https://{domain}] gives way to the origin of the
    request and an occurrence of the bare [{domain}] to its host, for
    either placeholder domain; [skip] counts the code units of the
    occurrence that are still to pass. *)
Fixpoint rewrite_once (origin host : jsstring) (skip : nat) (s : jsstring)
  : jsstring :=
  match s with
  | [] => []
  | c :: s' =>
      match skip with
      | S k => rewrite_once origin host k s'
      | O =>
          if startsWith s full_friendly
          then origin ++ rewrite_once origin host (length full_friendly - 1) s'
          else if startsWith s full_backend
          then origin ++ rewrite_once origin host (length full_backend - 1) s'
          else if startsWith s placeholder_friendly
          then host ++ rewrite_once origin host (length placeholder_friendly - 1) s'
          else if startsWith s placeholder_backend
          then host ++ rewrite_once origin host (length placeholder_backend - 1) s'
          else c :: rewrite_once origin host 0 s'
      end
  end.

(** No occurrence of [p] can begin inside [r], whatever follows [r]:
    no suffix of [r] begins with [p] or is the beginning of [p]. *)
Fixpoint no_start (r p : jsstring) : bool :=
  match r with
  | [] => true
  | _ :: r' => negb (startsWith r p) && negb (startsWith p r) && no_start r' p
  end.

(** [r] and [p] do not overlap: neither can an occurrence of one begin
    inside the other. *)
Definition apart (r p : jsstring) : bool := no_start r p && no_start p r.

(** The origin and the host of the request do not overlap the
    placeholders that are replaced after they have been inserted. *)
Definition host_apart (origin host : jsstring) : bool :=
  apart origin placeholder_friendly && apart origin full_backend
  && apart origin placeholder_backend
  && apart host full_backend && apart host placeholder_backend.

(** The replacement text holds no [$]. *)
Definition no_dollar (rep : jsstring) : bool :=
  forallb (fun c => negb (N.eqb c 36)) rep.

(** [s.replace(/pat/g, rep)] when [rep] holds no [$]. *)
Fixpoint replace_scan (pat rep : jsstring) (skip : nat) (s : jsstring)
  : jsstring :=
  match s with
  | [] => []
  | c :: s' =>
      match skip with
      | S k => replace_scan pat rep k s'
      | O =>
          if startsWith s pat
          then rep ++ replace_scan pat rep (length pat - 1) s'
          else c :: replace_scan pat rep 0 s'
      end
  end.

(** A backend that answers with a page naming both placeholders. *)
Definition backend_page : jsstring :=
  str "a: https://api.v1.mk/foo b: api.v1.mk c: https://bulianglin2023.dev/x".
Definition backend_page_swapped : jsstring :=
  str "b: api.v1.mk a: https://api.v1.mk/foo c: https://bulianglin2023.dev/x".

(** The four passes of [rewrite_domains] when the replacements hold no
    [$]. *)
Definition four_passes (origin host body : jsstring) : jsstring :=
  replace_scan placeholder_backend host 0
    (replace_scan full_backend origin 0
       (replace_scan placeholder_friendly host 0
          (replace_scan full_friendly origin 0 body))).

(** A process whose backend answers every [fetch] with [content]. *)
Definition backend_answers (content : jsstring) : world :=
  World ∅ [] 0 0 [] (fun n => n)
        (fun _ _ _ => Return (Response 200
                                [(str "content-type", str "text/plain")]
                                (Return content))).

(** [GET https://{host}/sub?url=vmess://abc&target=clash] *)
Definition forward_request (host : jsstring) : request :=
  Request (Url (str "https:") host (str "/sub")
             (str "?url=vmess://abc&target=clash")
             [(str "url", str "vmess://abc"); (str "target", str "clash")])
          None.

(** * Further definitions for the properties of the code *)

(** Every code unit is whitespace for [trim]. *)
Definition all_space (s : jsstring) : Prop :=
  Forall (fun c => is_js_space c = true) s.

(** The [n] keys generated one after the other from the draw [start]. *)
Fixpoint next_keys (rnd : nat -> nat) (start n : nat) : list jsstring :=
  match n with
  | O => []
  | S n' => random_key_from rnd start 16 [] :: next_keys rnd (start + 16) n'
  end.

(** A segment that the resolver handles without decoding it: a URL or a
    node link. *)
Definition plain_segment (u : jsstring) : Prop :=
  is_url u = true \/ nodeLink_test u = true.

(** Only the separator [|] and whitespace. *)
Definition only_separators (s : jsstring) : Prop :=
  Forall (fun c => c = 124 \/ is_js_space c = true) s.

(** Every key of [w] is still a key of [w']. *)
Definition keeps_entries (w w' : world) : Prop :=
  forall k, is_Some (memoryCache w !! k) -> is_Some (memoryCache w' !! k).

Definition subscription_request (path : jsstring) : request :=
  Request (Url (str "https:") (str "example.com") path [] []) None.

(** A process whose store holds one content without a headers entry. *)
Definition bare_entry : world :=
  World (<[str "abcdefghijklmnop" := Lit (str "vmess://abc")]> ∅) [] 0 0 []
        (fun n => n) (fun _ _ _ => Throw (FetchError (str "fetch failed"))).

(** A fresh process after one node link has been stored. *)
Definition one_stored : world :=
  stored (str "https://example.com") (str "abcdefghijklmnop")
    (str "vmess://abc") text_plain offline.

(** The origin and the host of the request do not overlap the bare
    placeholder domains. *)
Definition host_clear (origin host : jsstring) : bool :=
  apart host placeholder_friendly && apart origin placeholder_friendly
  && apart host placeholder_backend.

(** A process whose backend answers every [fetch] with the status [st]. *)
Definition backend_status (st : Z) : world :=
  World ∅ [] 0 0 [] (fun n => n)
        (fun _ _ _ => Return (Response st [] (Return (str "upstream says no")))).

(** [e] is a base64 text of [s]: the characters [core] of its sextets
    [vs], followed by the padding. *)
Definition encodes (e s : jsstring) : Prop :=
  exists core pad vs,
    e = core ++ pad
    /\ (pad = [] \/ pad = [61] \/ pad = [61; 61])
    /\ (length e mod 4 = 0)%nat /\ (length core mod 4 <> 1)%nat
    /\ Forall (fun c => c <> 61 /\ is_ascii_whitespace c = false) core
    /\ b64_values core = Some vs
    /\ (forall fuel, (length vs <= fuel)%nat -> b64_bytes fuel vs = s).

(** * The format classifier *)

Lemma startsWith_In (p s : jsstring) (c : N) :
  startsWith s p = true -> In c p -> In c s.
Proof.
  revert s. induction p as [|x p IH]; intros s Hs Hc; [destruct Hc|].
  destruct s as [|y s]; simpl in Hs; [discriminate|].
  apply andb_true_iff in Hs as [Hxy Hs]. apply N.eqb_eq in Hxy. subst y.
  destruct Hc as [->|Hc]; [now left|right; eauto].
Qed.

Lemma includes_In (s p : jsstring) (c : N) :
  includes s p = true -> In c p -> In c s.
Proof.
  induction s as [|y s IH]; simpl; intros H Hc.
  - destruct p; [destruct Hc|discriminate].
  - apply orb_true_iff in H as [H|H].
    + eapply (startsWith_In p (y :: s)); eauto.
    + right. auto.
Qed.

Lemma base64Pattern_no_colon (t : jsstring) :
  base64Pattern_test t = true -> ~ In 58 t.
Proof.
  intros Ht Hin. destruct t as [|c t]; [discriminate|].
  unfold base64Pattern_test in Ht.
  rewrite forallb_forall in Ht. specialize (Ht _ Hin). discriminate.
Qed.

(** A text of the base64 alphabet holds no [:], so the checks that
    follow a failed decoding all fail: it is classified [unknown]. *)
Lemma classify_rest_base64Pattern (t : jsstring) :
  base64Pattern_test t = true ->
  classify_rest t = Payload unknown (JStr t).
Proof.
  intros Ht. pose proof (base64Pattern_no_colon t Ht) as Hno.
  unfold classify_rest.
  destruct (includes t (str "proxies:")) eqn:E1.
  { exfalso. apply Hno. eapply includes_In; [exact E1|]. vm_compute. tauto. }
  destruct (includes t (str "Proxy:")) eqn:E2.
  { exfalso. apply Hno. eapply includes_In; [exact E2|]. vm_compute. tauto. }
  simpl. destruct (nodeLink_test t) eqn:E3; [|reflexivity].
  exfalso. apply Hno. unfold nodeLink_test in E3.
  apply existsb_exists in E3 as (sch & _ & Hsw).
  eapply startsWith_In; [exact Hsw|].
  apply in_or_app. right. vm_compute. tauto.
Qed.

Lemma parseData_string (s : jsstring) :
  parseData (JStr s) =
  match try_base64 (trim s) with
  | Return (Some p) => Return p
  | Return None => Return (classify_rest (trim s))
  | Throw _ => Return (Payload unknown (JStr s))
  end.
Proof.
  unfold parseData. simpl. destruct (try_base64 (trim s)) as [[p|]|e]; reflexivity.
Qed.

Lemma try_base64_returns (t : jsstring) :
  exists r, try_base64 t = Return r.
Proof.
  unfold try_base64.
  destruct (base64Pattern_test t && (20 <? length t)%nat); [|eauto].
  destruct (atob (remove_spaces t)) as [d|e]; simpl; [|eauto].
  destruct (includes d (str "://")); eauto.
Qed.

Lemma try_base64_links (t d : jsstring) :
  decodes_to_links t d ->
  try_base64 t = Return (Some (Payload base64 (JStr d))).
Proof.
  intros (Hp & Hl & Ha & Hi). unfold try_base64.
  rewrite Hp. apply Nat.ltb_lt in Hl. rewrite Hl. simpl.
  rewrite Ha. simpl. rewrite Hi. reflexivity.
Qed.

Lemma try_base64_falls_through (t : jsstring) :
  (forall d, ~ decodes_to_links t d) -> try_base64 t = Return None.
Proof.
  intros Hno. unfold try_base64.
  destruct (base64Pattern_test t) eqn:Hp; [|reflexivity].
  destruct (20 <? length t)%nat eqn:Hl; [|reflexivity]. simpl.
  destruct (atob (remove_spaces t)) as [d|e] eqn:Ha; simpl; [|reflexivity].
  destruct (includes d (str "://")) eqn:Hi; [|reflexivity].
  exfalso. apply (Hno d). apply Nat.ltb_lt in Hl. repeat split; assumption.
Qed.

(** C1: [parseData] trims its input; when the trimmed text matches the
    base64 alphabet, is longer than 20 code units, decodes, and the
    decoded text contains [://], the result is [base64] with the decoded
    text; in every other case (the decoding fails, or [://] is missing)
    nothing is returned there and the yaml check, then the node-link
    check, then [unknown] decide, each on the trimmed text. *)
Theorem parseData_precedence (s : jsstring) :
  (forall d, decodes_to_links (trim s) d ->
     parseData (JStr s) = Return (Payload base64 (JStr d)))
  /\ ((forall d, ~ decodes_to_links (trim s) d) ->
      (yaml_check (trim s) = true ->
         parseData (JStr s) = Return (Payload yaml (JStr (trim s))))
      /\ (yaml_check (trim s) = false -> nodeLink_test (trim s) = true ->
         parseData (JStr s) = Return (Payload direct (JStr (trim s))))
      /\ (yaml_check (trim s) = false -> nodeLink_test (trim s) = false ->
         parseData (JStr s) = Return (Payload unknown (JStr (trim s))))).
Proof.
  split.
  - intros d Hd. rewrite parseData_string.
    rewrite (try_base64_links _ d Hd). reflexivity.
  - intros Hno. rewrite parseData_string.
    rewrite (try_base64_falls_through _ Hno).
    unfold classify_rest, yaml_check.
    repeat split.
    + intros ->. reflexivity.
    + intros -> ->. reflexivity.
    + intros -> ->. reflexivity.
Qed.

(** The four outcomes: a padded base64 text of two links, the same kind
    of text without [://] once decoded, a Clash configuration and a
    node link. *)
Lemma parseData_precedence_witness :
  parseData (JStr (str "  dm1lc3M6Ly9hYmMKdmxlc3M6Ly94eXo= "))
  = Return (Payload base64
              (JStr (str (String.append "vmess://abc"
                           (String "010" "vless://xyz")))))
  /\ parseData (JStr (str " aGVsbG8gd29ybGQsIGhlbGxvIHdvcmxk "))
     = Return (Payload unknown (JStr (str "aGVsbG8gd29ybGQsIGhlbGxvIHdvcmxk")))
  /\ parseData (JStr (str " port: 7890 proxies: [] "))
     = Return (Payload yaml (JStr (str "port: 7890 proxies: []")))
  /\ parseData (JStr (str "trojan://pw@host:443 "))
     = Return (Payload direct (JStr (str "trojan://pw@host:443"))).
Proof.
  split; [|split; [|split]].
  - refine (proj1 (parseData_precedence
              (str "  dm1lc3M6Ly9hYmMKdmxlc3M6Ly94eXo= ")) _ _).
    vm_compute. repeat split; reflexivity || lia.
  - refine (proj2 (proj2 (proj2 (parseData_precedence
              (str " aGVsbG8gd29ybGQsIGhlbGxvIHdvcmxk ")) _)) eq_refl eq_refl).
    intros d (_ & _ & Ha & Hi). vm_compute in Ha.
    injection Ha as <-. vm_compute in Hi. discriminate.
  - refine (proj1 (proj2 (parseData_precedence
              (str " port: 7890 proxies: [] ")) _) eq_refl).
    intros d (Hp & _). vm_compute in Hp. discriminate.
  - refine (proj1 (proj2 (proj2 (parseData_precedence
              (str "trojan://pw@host:443 ")) _)) eq_refl eq_refl).
    intros d (Hp & _). vm_compute in Hp. discriminate.
Defined.

Lemma try_base64_raises (t : jsstring) (e : exn) :
  decoding_raises t e -> try_base64 t = Return None.
Proof.
  intros (Hp & Hl & Ha). unfold try_base64.
  rewrite Hp. apply Nat.ltb_lt in Hl. rewrite Hl. simpl.
  rewrite Ha. reflexivity.
Qed.

Lemma parseData_returns (v : jsval) : exists p, parseData v = Return p.
Proof.
  destruct v as [s| | | |]; try (eexists; reflexivity).
  rewrite parseData_string.
  destruct (try_base64_returns (trim s)) as [[p|] ->]; eauto.
Qed.

(** C3, as stated, fails: an exception of the decoding does not yield
    the untrimmed input.  On [" AAAAAAAAAAAAAAAAAAAAA"] (21 letters after
    a space) [atob] raises and the data returned is the trimmed text. *)
Lemma parseData_decoding_error_counterexample :
  ~ (forall s e, decoding_raises (trim s) e ->
       parseData (JStr s) = Return (Payload unknown (JStr s))).
Proof.
  intros H.
  specialize (H (str " AAAAAAAAAAAAAAAAAAAAA") InvalidCharacterError).
  assert (Hr : decoding_raises (trim (str " AAAAAAAAAAAAAAAAAAAAA"))
                 InvalidCharacterError).
  { vm_compute. repeat split; reflexivity || lia. }
  specialize (H Hr). vm_compute in H. discriminate.
Qed.

(** C3, amended: [parseData] never throws and returns one of the four
    format tags; an exception of the base64 decoding is caught by the
    inner handler and the result is [unknown] with the trimmed text; an
    exception raised outside it ([data.trim()] on a value that is not a
    string) is caught by the outer handler and the result is [unknown]
    with the input itself. *)
Theorem parseData_total (v : jsval) :
  (exists p, parseData v = Return p
     /\ (fmt p = base64 \/ fmt p = yaml \/ fmt p = direct \/ fmt p = unknown))
  /\ (forall s e, v = JStr s -> decoding_raises (trim s) e ->
        parseData v = Return (Payload unknown (JStr (trim s))))
  /\ (forall e, call_trim v = Throw e ->
        parseData v = Return (Payload unknown v)).
Proof.
  split; [|split].
  - destruct (parseData_returns v) as [p Hp]. exists p. split; [exact Hp|].
    destruct (fmt p); tauto.
  - intros s e -> Hr. rewrite parseData_string.
    rewrite (try_base64_raises _ e Hr).
    destruct Hr as (Hp & _). now rewrite classify_rest_base64Pattern.
  - intros e He. unfold parseData. rewrite He. reflexivity.
Qed.

Lemma parseData_total_witness :
  parseData (JStr (str " AAAAAAAAAAAAAAAAAAAAA"))
  = Return (Payload unknown (JStr (str "AAAAAAAAAAAAAAAAAAAAA")))
  /\ parseData JNull = Return (Payload unknown JNull).
Proof.
  split.
  - refine (proj1 (proj2 (parseData_total
              (JStr (str " AAAAAAAAAAAAAAAAAAAAA")))) _
              InvalidCharacterError eq_refl _).
    vm_compute. repeat split; reflexivity || lia.
  - refine (proj2 (proj2 (parseData_total JNull)) TypeError eq_refl).
Defined.

(** ** The anchors of the pattern do not matter

    A text with a code unit outside the base64 alphabet and the
    whitespace is never decoded by [atob], so the first step is the same
    whether the pattern has to match the whole text or a part of it. *)

Lemma b64_values_foreign (s : jsstring) (c : N) :
  In c s -> b64_value c = None -> b64_values s = None.
Proof.
  induction s as [|x s IH]; intros Hin Hc; [destruct Hin|].
  cbn [b64_values]. destruct Hin as [->|Hin].
  - now rewrite Hc.
  - rewrite (IH Hin Hc). now destruct (b64_value x).
Qed.

Lemma strip_padding_keeps (s : jsstring) (c : N) :
  In c s -> c <> 61 -> In c (strip_padding s).
Proof.
  intros Hin Hc. unfold strip_padding.
  destruct (Nat.eqb (length s mod 4) 0); [|exact Hin].
  assert (Hrev : In c (rev s)) by now apply in_rev in Hin.
  destruct (rev s) as [|x r]; [exact Hin|].
  destruct (N.eqb_spec x 61) as [->|Hx]; [|exact Hin].
  destruct Hrev as [E|Hr]; [congruence|].
  destruct r as [|y r']; [destruct Hr|].
  destruct (N.eqb_spec y 61) as [->|Hy].
  - destruct Hr as [E|Hr]; [congruence|]. apply in_rev in Hr. exact Hr.
  - apply in_rev in Hr. exact Hr.
Qed.

Lemma atob_foreign (t : jsstring) (c : N) :
  In c t -> base64_class c = false ->
  atob (remove_spaces t) = Throw InvalidCharacterError.
Proof.
  intros Hin Hc. unfold base64_class in Hc.
  apply orb_false_iff in Hc as [Hc Hsp].
  apply orb_false_iff in Hc as [Hc Heq].
  apply orb_false_iff in Hc as [Hc Hslash].
  apply orb_false_iff in Hc as [Hc Hplus].
  apply orb_false_iff in Hc as [Hc Hdig].
  apply orb_false_iff in Hc as [Hup Hlow].
  assert (H61 : c <> 61) by (intros ->; discriminate).
  assert (Hval : b64_value c = None).
  { unfold b64_value. rewrite Hup, Hlow, Hdig, Hplus, Hslash. reflexivity. }
  assert (Hws : is_ascii_whitespace c = false).
  { unfold is_ascii_whitespace. unfold is_js_space in Hsp.
    destruct (N.eqb_spec c 9) as [->|]; [discriminate|].
    destruct (N.eqb_spec c 10) as [->|]; [discriminate|].
    destruct (N.eqb_spec c 12) as [->|]; [discriminate|].
    destruct (N.eqb_spec c 13) as [->|]; [discriminate|].
    destruct (N.eqb_spec c 32) as [->|]; [discriminate|]. reflexivity. }
  assert (H1' : In c (remove_spaces t)).
  { unfold remove_spaces. apply list_elem_of_In, list_elem_of_filter.
    split; [assumption|now apply list_elem_of_In]. }
  unfold atob.
  set (s1 := filter (fun c => is_ascii_whitespace c = false) (remove_spaces t)).
  assert (H2' : In c s1).
  { apply list_elem_of_In, list_elem_of_filter.
    split; [assumption|now apply list_elem_of_In]. }
  pose proof (strip_padding_keeps s1 c H2' H61) as H3'.
  destruct (Nat.eqb (length (strip_padding s1) mod 4) 1); [reflexivity|].
  now rewrite (b64_values_foreign _ c H3' Hval).
Qed.

(** The first step, with the pattern read as [/[A-Za-z0-9+/=\s]+/]
    (found somewhere in the text) instead of [/^[A-Za-z0-9+/=\s]+$/]. *)
Lemma decodes_to_links_unanchored (t d : jsstring) :
  decodes_to_links t d
  <-> existsb base64_class t = true /\ (20 < length t)%nat
      /\ atob (remove_spaces t) = Return d /\ includes d (str "://") = true.
Proof.
  unfold decodes_to_links. split.
  - intros (Hp & Hl & Ha & Hi). repeat split; try assumption.
    destruct t as [|c t]; [discriminate|].
    cbn [base64Pattern_test forallb existsb] in *.
    apply andb_true_iff in Hp as [-> _]. reflexivity.
  - intros (_ & Hl & Ha & Hi). repeat split; try assumption.
    destruct t as [|c t]; [cbn in Hl; lia|].
    unfold base64Pattern_test. apply forallb_forall. intros x Hx.
    destruct (base64_class x) eqn:E; [reflexivity|].
    rewrite (atob_foreign (c :: t) x Hx E) in Ha. discriminate.
Qed.

(** * The route dispatcher and [GET /subscription/{key}] *)

Ltac str_norm :=
  repeat match goal with
  | |- context [str ?s] =>
      let v := eval vm_compute in (str s) in change (str s) with v
  end.

Lemma startsWith_app (p s : jsstring) : startsWith (p ++ s) p = true.
Proof.
  induction p as [|c p IH]; simpl; [reflexivity|].
  now rewrite N.eqb_refl.
Qed.

Lemma replace_first_prefix (p s rep : jsstring) :
  p <> [] -> replace_first (p ++ s) p rep = rep ++ s.
Proof.
  intros Hp. destruct p as [|c p]; [congruence|].
  simpl. rewrite N.eqb_refl, startsWith_app. simpl.
  now rewrite skipn_app, skipn_all, Nat.sub_diag.
Qed.

Section Dispatch.

Variable JSON_parse_units : jsstring -> Exc object.
Variables rootEndpoint versionEndpoint : request -> M reply.
Variable BACKEND : jsstring.
Variable processSubscription : request -> URL -> jsstring -> M reply.

Local Abbreviation dispatch :=
  (handler JSON_parse_units rootEndpoint versionEndpoint BACKEND
     processSubscription).

Lemma handler_subscription (request : request) (key : jsstring) :
  url_pathname (req_url request) = subscription_path key ->
  dispatch request = subscriptionEndpoint JSON_parse_units (req_url request).
Proof.
  intros Hp. unfold handler. rewrite Hp.
  rewrite !bool_decide_eq_false_2
    by (unfold subscription_path; str_norm; discriminate).
  unfold subscription_path. rewrite startsWith_app. reflexivity.
Qed.

Lemma subscription_key (url : URL) (key : jsstring) :
  url_pathname url = subscription_path key ->
  replace_first (url_pathname url) (str "/subscription/") [] = key.
Proof.
  intros ->. unfold subscription_path.
  rewrite replace_first_prefix; [reflexivity|discriminate].
Qed.


End Dispatch.


(** * The fan-out resolver *)

Lemma bind_run {A B} (m : M A) (k : A -> M B) (w w' : world) (a : A) :
  m w = (Return a, w') -> bind m k w = k a w'.
Proof. intros H. unfold bind. now rewrite H. Qed.

Lemma generateRandomStr_from_run (len : nat) (result : jsstring) (w : world) :
  generateRandomStr_from len result w
  = (Return (random_key_from (Math_random w) (draws w) len result),
     drawn len w).
Proof.
  revert result w. induction len as [|len IH]; intros result w.
  - simpl. unfold ret, drawn. rewrite Nat.add_0_r. now destruct w.
  - simpl. unfold bind, random_index. rewrite IH. simpl.
    unfold drawn. simpl. do 3 f_equal. lia.
Qed.

Lemma generateRandomStr_run (w : world) :
  generateRandomStr 16 w = (Return (next_key w), drawn 16 w).
Proof. apply generateRandomStr_from_run. Qed.

Lemma charAt_chars (i : nat) :
  (i < 36)%nat -> exists c, charAt chars i = [c] /\ In c chars.
Proof.
  intros Hi. unfold charAt.
  destruct (nth_error chars i) as [c|] eqn:E.
  - exists c. split; [reflexivity|]. eapply nth_error_In; eauto.
  - apply nth_error_None in E. vm_compute in E. lia.
Qed.

Lemma random_key_from_shape (rnd : nat -> nat) (len start : nat)
    (result : jsstring) :
  exists k, random_key_from rnd start len result = result ++ k
            /\ length k = len /\ Forall (fun c => In c chars) k.
Proof.
  revert start result. induction len as [|len IH]; intros start result.
  - exists []. simpl. now rewrite app_nil_r.
  - cbn [random_key_from].
    destruct (charAt_chars (rnd start mod 36)%nat) as (c & Hc & Hin).
    { apply Nat.mod_upper_bound. lia. }
    destruct (IH (S start) (result ++ charAt chars (rnd start mod 36)%nat))
      as (k & Hk & Hlen & Hall).
    exists (c :: k). rewrite Hk, Hc, <- app_assoc. simpl.
    repeat split; [now rewrite Hlen|]. constructor; assumption.
Qed.

Lemma next_key_generated (w : world) : generated_key (next_key w).
Proof.
  unfold next_key.
  destruct (random_key_from_shape (Math_random w) 16 (draws w) [])
    as (k & -> & Hlen & Hall).
  split; assumption.
Qed.

Lemma generated_key_valid (k : jsstring) :
  generated_key k -> ~ invalid_key k.
Proof.
  intros [Hlen Hall] [->|[H|H]].
  - discriminate.
  - assert (In 47 k) by (eapply includes_In; [exact H|vm_compute; tauto]).
    rewrite Forall_forall in Hall. specialize (Hall 47).
    rewrite <- list_elem_of_In in H0. specialize (Hall H0).
    vm_compute in Hall. intuition discriminate.
  - assert (In 46 k) by (eapply includes_In; [exact H|vm_compute; tauto]).
    rewrite Forall_forall in Hall. specialize (Hall 46).
    rewrite <- list_elem_of_In in H0. specialize (Hall H0).
    vm_compute in Hall. intuition discriminate.
Qed.

Lemma store_one_run (host key content : jsstring) (hdrs : object) (w : world) :
  store_one host key content hdrs w = (Return tt, stored host key content hdrs w).
Proof. reflexivity. Qed.

Lemma catch_unit (m : M unit) (w : world) :
  snd (catch m (fun _ => ret tt) w) = snd (m w).
Proof. unfold catch. destruct (m w) as [[[]|e] w']; reflexivity. Qed.

Lemma fetch_run (u : jsstring) (hdrs : object) (w : world) :
  fetch u hdrs w = (network w (fetches w) u hdrs, fetched u hdrs w).
Proof. reflexivity. Qed.

Lemma for_of_links_run (host : jsstring) (links : list jsstring) (w : world) :
  for_of links (fun link =>
    nodeKey <- generateRandomStr 16 ;;
    cache_set nodeKey (Lit link) ;;
    cache_set (nodeKey ++ headers_suffix) (Stringified text_plain) ;;
    push (uri_of host nodeKey)) w
  = (Return tt, stored_links host links w).
Proof.
  revert w. induction links as [|link links IH]; intros w; [reflexivity|].
  cbn [for_of stored_links].
  rewrite (bind_run _ _ w
             (stored host (next_key w) link text_plain (drawn 16 w)) tt).
  - apply IH.
  - rewrite (bind_run _ _ w (drawn 16 w) (next_key w))
      by apply generateRandomStr_run.
    reflexivity.
Qed.

Lemma store_links_run (host d : jsstring) (w : world) :
  store_links host (JStr d) w = (Return tt, stored_links host (links_of d) w).
Proof. apply for_of_links_run. Qed.

Lemma stored_links_trace (host : jsstring) (links : list jsstring) (w : world) :
  exists delta, trace (stored_links host links w) = delta ++ trace w.
Proof.
  revert w. induction links as [|link links IH]; intros w.
  - exists []. reflexivity.
  - cbn [stored_links].
    destruct (IH (stored host (next_key w) link text_plain (drawn 16 w)))
      as [delta ->].
    eexists (delta ++ [_; _; _]). rewrite <- app_assoc. reflexivity.
Qed.

Lemma store_links_trace (host : jsstring) (v : jsval) (w : world) :
  exists delta, trace (snd (store_links host v w)) = delta ++ trace w.
Proof.
  destruct v as [d| | | |]; try (exists []; reflexivity).
  rewrite store_links_run. apply stored_links_trace.
Qed.

Lemma segment_url (request : request) (host u : jsstring) (w : world) :
  is_url u = true ->
  Part001.segment request host u w
  = Part001.url_segment request host (next_key w) u (drawn 16 w).
Proof.
  intros Hu. unfold Part001.segment, bind. rewrite generateRandomStr_run.
  unfold is_url in Hu. now rewrite Hu.
Qed.

Lemma finish_empty (w : world) :
  replacedURIs w = [] -> finish w = (Return all_invalid, w).
Proof. intros H. unfold finish, bind, read_replacedURIs. now rewrite H. Qed.

Lemma finish_nonempty (w : world) :
  replacedURIs w <> [] -> fst (finish w) <> Return all_invalid.
Proof.
  intros H. unfold finish, bind, read_replacedURIs.
  destruct (replacedURIs w) as [|u us]; [congruence|]. simpl.
  unfold lift. destruct (btoa _); simpl; discriminate.
Qed.

Lemma failed_fetch_run (request : request) (host u : jsstring) (w : world) :
  is_url u = true -> fetch_fails request u w ->
  Part001.segment request host u w
  = (Return tt, fetched u (subscription_fetch_headers request) (drawn 16 w)).
Proof.
  intros Hu Hfail. rewrite segment_url by exact Hu.
  unfold Part001.url_segment, catch, bind, fetch, fetch_fails in *.
  cbn [network fetches drawn].
  destruct (network w (fetches w) u (subscription_fetch_headers request))
    as [r|e]; [|reflexivity].
  destruct Hfail as [Hok|Htext].
  - rewrite Hok. reflexivity.
  - destruct (resp_ok r); [|reflexivity]. cbn [negb].
    unfold lift. destruct (resp_text r) as [content|e]; [|reflexivity].
    rewrite Htext. reflexivity.
Qed.



Lemma for_of_unreachable (request : request) (host : jsstring)
    (l : list jsstring) (w : world) :
  Forall (fun u => is_url u = true) l ->
  (forall n u h, exists e, network w n u h = Throw e) ->
  exists w', for_of l (Part001.segment request host) w = (Return tt, w')
             /\ replacedURIs w' = replacedURIs w.
Proof.
  intros Hl. revert w. induction Hl as [|u l Hu Hl IH]; intros w Hnet.
  - exists w. split; reflexivity.
  - assert (Hf : fetch_fails request u w).
    { unfold fetch_fails.
      destruct (Hnet (fetches w) u (subscription_fetch_headers request))
        as [e ->]. exact I. }
    cbn [for_of].
    rewrite (bind_run _ _ _ _ _ (failed_fetch_run request host u w Hu Hf)).
    destruct (IH (fetched u (subscription_fetch_headers request) (drawn 16 w)))
      as (w' & Hrun & Hsame); [exact Hnet|].
    exists w'. split; [exact Hrun|]. now rewrite Hsame.
Qed.

(** When every segment is a URL that cannot be reached, the request is
    answered with [AllLinksInvalid]. *)
Lemma all_unreachable (request : request) (url : URL) (backend : jsstring)
    (targetUrl : jsstring) (w : world) :
  searchParams_get url (str "url") = Some targetUrl ->
  urlParts_of targetUrl <> [] ->
  Forall (fun u => is_url u = true) (urlParts_of targetUrl) ->
  (forall n u h, exists e, network w n u h = Throw e) ->
  fst (Part001.processSubscription request url backend w) = Return all_invalid.
Proof.
  intros Hget Hne Hall Hnet. unfold Part001.processSubscription.
  rewrite Hget. destruct targetUrl as [|c t].
  { exfalso. apply Hne. reflexivity. }
  destruct (urlParts_of (c :: t)) as [|u l] eqn:E; [congruence|].
  cbn [length Nat.eqb]. unfold bind at 1. cbn [new_replacedURIs].
  unfold bind at 1.
  destruct (for_of_unreachable request (getHost request) (u :: l)
              (World (memoryCache w) [] (draws w) (fetches w) (trace w)
                     (Math_random w) (network w)) Hall Hnet)
    as (w' & -> & Huris).
  rewrite finish_empty; [reflexivity|exact Huris].
Qed.

Lemma segment_other (request : request) (host u : jsstring) (w : world) :
  is_url u = false -> nodeLink_test u = false ->
  Part001.segment request host u w
  = Part001.other_segment host (next_key w) u (drawn 16 w).
Proof.
  intros Hu Hn. unfold Part001.segment, bind. rewrite generateRandomStr_run.
  unfold is_url in Hu. now rewrite Hu, Hn.
Qed.

Lemma segment_node (request : request) (host u : jsstring) (w : world) :
  is_url u = false -> nodeLink_test u = true ->
  Part001.segment request host u w
  = (Return tt, stored host (next_key w) u text_plain (drawn 16 w)).
Proof.
  intros Hu Hn. unfold Part001.segment, bind. rewrite generateRandomStr_run.
  unfold is_url in Hu. now rewrite Hu, Hn.
Qed.

(** A segment that [atob] decodes to a text that [parseData] does not
    classify as [base64] leaves the branch without a store and without
    an output URI. *)
Lemma other_segment_dropped (host key u decoded : jsstring) (p : payload)
    (w : world) :
  atob (remove_spaces u) = Return decoded ->
  parseData (JStr decoded) = Return p -> fmt p <> base64 ->
  Part001.other_segment host key u w = (Return tt, w).
Proof.
  intros Ha Hp Hf. unfold Part001.other_segment, catch, bind, lift.
  rewrite Ha, Hp. destruct (fmt p); try reflexivity. congruence.
Qed.

(** With a [url] parameter that has a segment, [processSubscription] is
    the loop followed by the final answer. *)
Lemma processSubscription_run (request : request) (url : URL)
    (backend targetUrl : jsstring) (w : world) :
  searchParams_get url (str "url") = Some targetUrl ->
  urlParts_of targetUrl <> [] ->
  Part001.processSubscription request url backend w
  = (for_of (urlParts_of targetUrl) (Part001.segment request (getHost request)) ;;
     finish) (fresh_list w).
Proof.
  intros Hget Hne. unfold Part001.processSubscription. rewrite Hget.
  destruct targetUrl as [|c t]; [exfalso; apply Hne; reflexivity|].
  destruct (urlParts_of (c :: t)) as [|u l]; [congruence|]. reflexivity.
Qed.

(** C2 does not hold of the code: the segment [dm1lc3M6Ly9hYmM=], which
    is [vmess://abc] in base64, is decoded, classified [direct] and then
    dropped; as the only segment it makes the request fail. *)
Theorem encoded_link_dropped (backend : jsstring) (w : world) :
  let rq := sub_request encoded_link in
  let out := Part001.processSubscription rq (req_url rq) backend w in
  is_url encoded_link = false /\ nodeLink_test encoded_link = false
  /\ atob (remove_spaces encoded_link) = Return (str "vmess://abc")
  /\ fst out = Return all_invalid
  /\ replacedURIs (snd out) = []
  /\ memoryCache (snd out) = memoryCache w
  /\ trace (snd out) = trace w.
Proof.
  intros rq out.
  split; [reflexivity|]. split; [reflexivity|]. split; [reflexivity|].
  assert (Hout : out = (Return all_invalid, drawn 16 (fresh_list w))).
  { unfold out.
    rewrite (processSubscription_run rq (req_url rq) backend encoded_link)
      by (reflexivity || discriminate).
    change (urlParts_of encoded_link) with [encoded_link].
    cbn [for_of]. unfold bind at 1. unfold bind at 1.
    rewrite segment_other by reflexivity.
    rewrite (other_segment_dropped _ _ _ (str "vmess://abc")
               (Payload direct (JStr (str "vmess://abc"))))
      by (reflexivity || discriminate).
    cbn [ret]. now rewrite finish_empty. }
  rewrite Hout. repeat split.
Qed.

(** * Round trip through the content store *)

Lemma key_headers_neq (k k' : jsstring) :
  length k = length k' -> k ++ headers_suffix <> k'.
Proof.
  intros Hl He. apply (f_equal (@length N)) in He.
  rewrite length_app in He. simpl in He. lia.
Qed.

Lemma headers_key_inj (k k' : jsstring) :
  k ++ headers_suffix = k' ++ headers_suffix -> k = k'.
Proof. apply app_inv_tail. Qed.

Lemma jsstring_eqb_eq (x y : jsstring) : jsstring_eqb x y = true <-> x = y.
Proof.
  revert y. induction x as [|c x IH]; destruct y as [|d y]; cbn [jsstring_eqb];
    try (split; [discriminate|congruence || discriminate]); [tauto|].
  rewrite andb_true_iff, N.eqb_eq, IH. split.
  - intros [-> ->]. reflexivity.
  - intros [= -> ->]. tauto.
Qed.

Lemma obj_get_set_other (o : object) (k k' v : jsstring) :
  jsstring_eqb k k' = false -> obj_get (obj_set o k v) k' = obj_get o k'.
Proof.
  intros Hne. induction o as [|[a b] o IH]; cbn [obj_set obj_get].
  - now rewrite Hne.
  - destruct (jsstring_eqb a k) eqn:Ea; cbn [obj_get].
    + apply jsstring_eqb_eq in Ea. subst a. now rewrite Hne.
    + destruct (jsstring_eqb a k'); [reflexivity|exact IH].
Qed.

Section Served.

Variable JSON_parse_units : jsstring -> Exc object.
Variables rootEndpoint versionEndpoint : request -> M reply.
Variable BACKEND : jsstring.
Variable processSubscription : request -> URL -> jsstring -> M reply.

Local Abbreviation dispatch :=
  (handler JSON_parse_units rootEndpoint versionEndpoint BACKEND
     processSubscription).

(** What [GET /subscription/{key}] answers when the store holds a
    non-empty content and a headers entry for a well-formed key. *)
Lemma subscription_served (request : request) (key content : jsstring)
    (hdrs : object) (w : world) :
  url_pathname (req_url request) = subscription_path key ->
  ~ invalid_key key -> content <> [] ->
  memoryCache w !! key = Some (Lit content) ->
  memoryCache w !! (key ++ headers_suffix) = Some (Stringified hdrs) ->
  fst (dispatch request w)
  = Return (Reply 200 (Lit content) (served_headers hdrs)).
Proof.
  intros Hp Hok Hc Hk Hh. rewrite (handler_subscription _ _ _ _ _ _ key Hp).
  unfold subscriptionEndpoint. rewrite (subscription_key _ key Hp).
  assert (Hcond : bool_decide (key = []) || includes key (str "/")
                  || includes key (str "..") = false).
  { unfold invalid_key in Hok.
    destruct (includes key (str "/")); [tauto|].
    destruct (includes key (str "..")); [tauto|].
    rewrite bool_decide_eq_false_2; [reflexivity|tauto]. }
  rewrite Hcond. unfold bind, cache_get. cbn [memoryCache fst snd].
  rewrite Hk. destruct content as [|c content]; [congruence|].
  cbn [falsy]. cbv beta. rewrite Hh. reflexivity.
Qed.

End Served.

Lemma generated_keys_headers (k k' : jsstring) :
  generated_key k -> generated_key k' ->
  k ++ headers_suffix <> k' /\ k <> k' ++ headers_suffix.
Proof.
  intros [Hk _] [Hk' _]. split.
  - apply key_headers_neq. congruence.
  - intros H. symmetry in H. revert H. apply key_headers_neq. congruence.
Qed.

Lemma stored_lookup (host key content : jsstring) (hdrs : object) (w : world) :
  memoryCache (stored host key content hdrs w) !! key = Some (Lit content)
  /\ memoryCache (stored host key content hdrs w) !! (key ++ headers_suffix)
     = Some (Stringified hdrs).
Proof.
  unfold stored. cbn [memoryCache]. split.
  - rewrite lookup_insert_ne by (apply key_headers_neq; reflexivity).
    apply lookup_insert_eq.
  - apply lookup_insert_eq.
Qed.

Lemma stored_lookup_other (host key content : jsstring) (hdrs : object)
    (w : world) (k : jsstring) :
  k <> key -> k <> key ++ headers_suffix ->
  memoryCache (stored host key content hdrs w) !! k = memoryCache w !! k.
Proof.
  intros H1 H2. unfold stored. cbn [memoryCache].
  rewrite !lookup_insert_ne by congruence. reflexivity.
Qed.

(** The run of the resolver on [vmess://abc|vless://xyz]. *)
Lemma two_links_run (backend : jsstring) (w : world) :
  let rq := sub_request two_links in
  let host := str "https://example.com" in
  let w1 := stored host (next_key w) (str "vmess://abc") text_plain
              (drawn 16 (fresh_list w)) in
  snd (Part001.processSubscription rq (req_url rq) backend w)
  = stored host (next_key (drawn 16 w)) (str "vless://xyz") text_plain
      (drawn 16 w1).
Proof.
  intros rq host w1.
  rewrite (processSubscription_run rq (req_url rq) backend two_links)
    by (reflexivity || discriminate).
  change (urlParts_of two_links) with [str "vmess://abc"; str "vless://xyz"].
  assert (Hloop : for_of [str "vmess://abc"; str "vless://xyz"]
                    (Part001.segment rq (getHost rq)) (fresh_list w)
                  = (Return tt,
                     stored host (next_key (drawn 16 w)) (str "vless://xyz")
                       text_plain (drawn 16 w1))).
  { cbn [for_of].
    rewrite (bind_run _ _ _ w1 tt) by (now rewrite segment_node).
    rewrite (bind_run _ _ _ (stored host (next_key (drawn 16 w))
                               (str "vless://xyz") text_plain (drawn 16 w1)) tt)
      by (now rewrite segment_node).
    reflexivity. }
  rewrite (bind_run _ _ _ _ _ Hloop).
  unfold finish, bind, read_replacedURIs.
  cbn [replacedURIs stored drawn fresh_list app length Nat.eqb]. unfold lift.
  destruct (btoa _); reflexivity.
Qed.

(** C4, as stated, fails when the two generated keys collide: with a
    random source that always draws 0 both links are stored under
    [aaaaaaaaaaaaaaaa], both output URIs are the same, and the first one
    resolves to [vless://xyz] instead of [vmess://abc]. *)
Lemma colliding_keys_counterexample :
  let rq := sub_request two_links in
  let w' := snd (Part001.processSubscription rq (req_url rq) default_backend
                   colliding) in
  let uri := uri_of (str "https://example.com") (str "aaaaaaaaaaaaaaaa") in
  replacedURIs w' = [uri; uri]
  /\ fst (handler parse_nothing empty_page empty_page default_backend
            Part001.processSubscription
            (get_subscription (str "example.com") (str "aaaaaaaaaaaaaaaa")) w')
     = Return (Reply 200 (Lit (str "vless://xyz")) (served_headers text_plain))
  /\ Lit (str "vless://xyz") <> Lit (str "vmess://abc").
Proof.
  intros rq w' uri. split; [|split].
  - vm_compute. reflexivity.
  - vm_compute. reflexivity.
  - discriminate.
Qed.

Section RoundTrip.

Variable JSON_parse_units : jsstring -> Exc object.
Variables rootEndpoint versionEndpoint : request -> M reply.
Variable BACKEND : jsstring.

Local Abbreviation dispatch :=
  (handler JSON_parse_units rootEndpoint versionEndpoint BACKEND
     Part001.processSubscription).

(** C4, amended: a non-empty content stored under a generated key with
    its headers is what [GET /subscription/{key}] then answers, with the
    stored [Content-Type]; on [vmess://abc|vless://xyz] the resolver
    makes no [fetch] and appends exactly two URIs, and when the two
    generated keys differ each URI resolves to its own link. *)
Theorem store_round_trip :
  (forall (request : request) (host key content : jsstring) (hdrs : object)
          (w : world),
     url_pathname (req_url request) = subscription_path key ->
     generated_key key -> content <> [] ->
     fst (dispatch request (stored host key content hdrs w))
     = Return (Reply 200 (Lit content) (served_headers hdrs))
     /\ obj_get (served_headers hdrs) content_type = obj_get hdrs content_type)
  /\ (forall (backend : jsstring) (w : world),
      let rq := sub_request two_links in
      let host := str "https://example.com" in
      let w' := snd (Part001.processSubscription rq (req_url rq) backend w) in
      let k1 := next_key w in
      let k2 := next_key (drawn 16 w) in
      fetches w' = fetches w
      /\ trace w'
         = [EPush (uri_of host k2);
            ESet (k2 ++ headers_suffix) (Stringified text_plain);
            ESet k2 (Lit (str "vless://xyz"));
            EPush (uri_of host k1);
            ESet (k1 ++ headers_suffix) (Stringified text_plain);
            ESet k1 (Lit (str "vmess://abc"))] ++ trace w
      /\ replacedURIs w' = [uri_of host k1; uri_of host k2]
      /\ (k1 <> k2 ->
          fst (dispatch (get_subscription (str "example.com") k1) w')
          = Return (Reply 200 (Lit (str "vmess://abc"))
                      (served_headers text_plain))
          /\ fst (dispatch (get_subscription (str "example.com") k2) w')
             = Return (Reply 200 (Lit (str "vless://xyz"))
                         (served_headers text_plain)))).
Proof.
  split.
  - intros request host key content hdrs w Hp Hkey Hc.
    destruct (stored_lookup host key content hdrs w) as [Hk Hh]. split.
    + apply (subscription_served _ _ _ _ _ request key content hdrs);
        auto using generated_key_valid.
    + apply obj_get_set_other. reflexivity.
  - intros backend w rq host w' k1 k2.
    unfold w'. rewrite two_links_run. fold rq host k1 k2.
    split; [reflexivity|]. split; [reflexivity|]. split; [reflexivity|].
    intros Hne.
    assert (G1 : generated_key k1) by apply next_key_generated.
    assert (G2 : generated_key k2) by apply next_key_generated.
    destruct (generated_keys_headers k1 k2 G1 G2) as [N1 N2].
    set (w1 := stored host k1 (str "vmess://abc") text_plain
                 (drawn 16 (fresh_list w))).
    destruct (stored_lookup host k1 (str "vmess://abc") text_plain
                (drawn 16 (fresh_list w))) as [L1 L1h].
    destruct (stored_lookup host k2 (str "vless://xyz") text_plain
                (drawn 16 w1)) as [L2 L2h].
    split.
    + apply (subscription_served _ _ _ _ _ _ k1 (str "vmess://abc") text_plain);
        [reflexivity|now apply generated_key_valid|discriminate| |].
      * rewrite stored_lookup_other by congruence. exact L1.
      * rewrite stored_lookup_other; [exact L1h|congruence|].
        intros H. apply headers_key_inj in H. congruence.
    + apply (subscription_served _ _ _ _ _ _ k2 (str "vless://xyz") text_plain);
        [reflexivity|now apply generated_key_valid|discriminate|exact L2|exact L2h].
Qed.

End RoundTrip.

Lemma store_round_trip_witness :
  let h := handler parse_nothing empty_page empty_page default_backend
             Part001.processSubscription in
  let rq := sub_request two_links in
  let w' := snd (Part001.processSubscription rq (req_url rq) default_backend
                   offline) in
  fst (h (get_subscription (str "example.com") (str "abcdefghijklmnop")) w')
  = Return (Reply 200 (Lit (str "vmess://abc")) (served_headers text_plain))
  /\ fst (h (get_subscription (str "example.com") (str "qrstuvwxyz012345")) w')
     = Return (Reply 200 (Lit (str "vless://xyz")) (served_headers text_plain)).
Proof.
  intros h rq w'.
  refine (proj2 (proj2 (proj2 (proj2 (store_round_trip parse_nothing empty_page
            empty_page default_backend) default_backend offline))) _).
  vm_compute. discriminate.
Defined.

(** * The headers of a fetched subscription *)

(** C9, as stated, fails: the original headers of the fetched response
    are written under [key + '_headers'] and then overwritten, so the
    entry is served with [text/plain;charset=UTF-8] and not with the
    provider's [text/yaml] and [subscription-userinfo]. *)
Lemma original_headers_counterexample :
  let rq := sub_request provider_url in
  let w' := snd (Part001.processSubscription rq (req_url rq) default_backend
                   online) in
  let key := str "abcdefghijklmnop" in
  let original := Object_fromEntries (resp_headers provider_response) in
  replacedURIs w' = [uri_of (str "https://example.com") key]
  /\ fst (handler parse_nothing empty_page empty_page default_backend
            Part001.processSubscription
            (get_subscription (str "example.com") key) w')
     = Return (Reply 200 (Lit (str "proxies: []"))
                 (served_headers text_plain_utf8))
  /\ served_headers text_plain_utf8 <> served_headers original
  /\ memoryCache w' !! (key ++ headers_suffix)
     <> Some (Stringified original).
Proof.
  intros rq w' key original. split; [|split; [|split]].
  - vm_compute. reflexivity.
  - vm_compute. reflexivity.
  - vm_compute. discriminate.
  - vm_compute. discriminate.
Qed.

Section Headers.

Variable JSON_parse_units : jsstring -> Exc object.
Variables rootEndpoint versionEndpoint : request -> M reply.
Variable BACKEND : jsstring.

Local Abbreviation dispatch :=
  (handler JSON_parse_units rootEndpoint versionEndpoint BACKEND
     Part001.processSubscription).

(** C9, amended: for a URL segment whose fetch succeeds with a body that
    is not blank, the original response headers are captured and written
    under [key + '_headers']; when the body is not classified [base64]
    that entry is then overwritten with [text/plain;charset=UTF-8], which
    is what retrieving the entry serves; when it is classified [base64]
    nothing is stored under [key] by this branch, only the decoded lines
    under keys of their own. *)
Theorem original_headers_overwritten (request : request)
    (host key u content : jsstring) (r : response) (w : world) :
  network w (fetches w) u (subscription_fetch_headers request) = Return r ->
  resp_ok r = true -> resp_text r = Return content -> blank content = false ->
  let original := Object_fromEntries (resp_headers r) in
  let w1 := snd (cache_set (key ++ headers_suffix) (Stringified original)
                   (fetched u (subscription_fetch_headers request) w)) in
  let w' := snd (Part001.url_segment request host key u w) in
  exists p, parseData (JStr content) = Return p
  /\ In (ESet (key ++ headers_suffix) (Stringified original)) (trace w')
  /\ (fmt p <> base64 ->
      w' = stored host key content text_plain_utf8 w1
      /\ memoryCache w' !! key = Some (Lit content)
      /\ memoryCache w' !! (key ++ headers_suffix)
         = Some (Stringified text_plain_utf8)
      /\ (generated_key key ->
          fst (dispatch (get_subscription (url_host (req_url request)) key) w')
          = Return (Reply 200 (Lit content) (served_headers text_plain_utf8))))
  /\ (fmt p = base64 -> w' = snd (store_links host (data p) w1)).
Proof.
  intros Hnet Hok Htext Hblank original w1 w'.
  destruct (parseData_returns (JStr content)) as [p Hp].
  exists p. split; [exact Hp|].
  assert (Hw' : w' = snd (match fmt p with
                          | base64 => store_links host (data p)
                          | _ => store_one host key content text_plain_utf8
                          end w1)).
  { unfold w', Part001.url_segment. rewrite catch_unit.
    rewrite (bind_run _ _ w _ r) by (now rewrite fetch_run, Hnet).
    rewrite Hok. cbn [negb].
    rewrite (bind_run _ _ _ _ content) by (unfold lift; now rewrite Htext).
    rewrite Hblank.
    rewrite (bind_run _ _ _ _ p) by (unfold lift; now rewrite Hp).
    rewrite (bind_run _ _ _ w1 tt) by reflexivity.
    destruct (fmt p); reflexivity. }
  split; [|split].
  - rewrite Hw'.
    assert (Hin : In (ESet (key ++ headers_suffix) (Stringified original))
                     (trace w1)) by (left; reflexivity).
    destruct (fmt p); try (rewrite store_one_run; cbn; tauto).
    destruct (store_links_trace host (data p) w1) as [delta ->].
    apply in_or_app. now right.
  - intros Hf.
    assert (Hst : w' = stored host key content text_plain_utf8 w1).
    { rewrite Hw'. destruct (fmt p); try congruence; now rewrite store_one_run. }
    split; [exact Hst|]. rewrite Hst.
    destruct (stored_lookup host key content text_plain_utf8 w1) as [L1 L2].
    split; [exact L1|]. split; [exact L2|].
    intros Hgen.
    apply (subscription_served _ _ _ _ _ _ key content text_plain_utf8);
      [reflexivity|now apply generated_key_valid| |exact L1|exact L2].
    intros ->. discriminate.
  - intros Hf. rewrite Hw', Hf. reflexivity.
Qed.

End Headers.

Lemma original_headers_overwritten_witness :
  let rq := sub_request provider_url in
  let key := str "abcdefghijklmnop" in
  let w' := snd (Part001.url_segment rq (str "https://example.com") key
                   provider_url online) in
  memoryCache w' !! key = Some (Lit (str "proxies: []"))
  /\ memoryCache w' !! (key ++ headers_suffix)
     = Some (Stringified text_plain_utf8).
Proof.
  intros rq key w'.
  destruct (original_headers_overwritten parse_nothing empty_page empty_page
              default_backend rq (str "https://example.com") key provider_url
              (str "proxies: []") provider_response online
              eq_refl eq_refl eq_refl eq_refl)
    as (p & Hp & _ & Hother & _).
  assert (Hf : fmt p <> base64).
  { vm_compute in Hp. injection Hp as <-. discriminate. }
  destruct (Hother Hf) as (_ & L1 & L2 & _).
  split; [exact L1|exact L2].
Defined.

(** * The invariant of the fan-out loop *)

Lemma bind_throw {A B} (m : M A) (k : A -> M B) (w w' : world) (e : exn) :
  m w = (Throw e, w') -> bind m k w = (Throw e, w').
Proof. intros H. unfold bind. now rewrite H. Qed.

Lemma resolvable_same (host : jsstring) (w w' : world) (uri : jsstring) :
  memoryCache w' = memoryCache w -> resolvable host w uri -> resolvable host w' uri.
Proof.
  intros Hm (k & c & h & ? & ? & ? & ? & ?). exists k, c, h.
  rewrite Hm. auto.
Qed.

Lemma invariant_same (host : jsstring) (t0 : list event) (w w' : world) :
  memoryCache w' = memoryCache w -> replacedURIs w' = replacedURIs w ->
  trace w' = trace w ->
  fanout_invariant host t0 w -> fanout_invariant host t0 w'.
Proof.
  intros Hm Hu Ht [Htr Hres]. split.
  - now rewrite Ht.
  - rewrite Hu. eapply Forall_impl; [exact Hres|].
    intros uri. now apply resolvable_same.
Qed.

Lemma invariant_fetched (host : jsstring) (t0 : list event) (u : jsstring)
    (hdrs : object) (w : world) :
  fanout_invariant host t0 w -> fanout_invariant host t0 (fetched u hdrs w).
Proof.
  intros [(delta & Ht & Hb) Hres]. split.
  - exists (EFetch u hdrs :: delta). cbn [fetched trace]. rewrite Ht.
    split; [reflexivity|]. cbn [backed]. auto.
  - exact Hres.
Qed.

(** The first write of the URL branch: the headers of the response under
    [key + '_headers']. *)
Lemma invariant_set_headers (host : jsstring) (t0 : list event)
    (key : jsstring) (hdrs : object) (w : world) :
  generated_key key -> fanout_invariant host t0 w ->
  fanout_invariant host t0
    (snd (cache_set (key ++ headers_suffix) (Stringified hdrs) w)).
Proof.
  intros Hkey [(delta & Ht & Hb) Hres]. split.
  - exists (ESet (key ++ headers_suffix) (Stringified hdrs) :: delta).
    cbn [cache_set snd trace]. rewrite Ht. split; [reflexivity|].
    cbn [backed]. auto.
  - cbn [cache_set snd replacedURIs].
    eapply Forall_impl; [exact Hres|].
    intros uri (k & c & h & Hu & Hk & Hc & L1 & L2).
    unfold resolvable. cbn [memoryCache].
    destruct (generated_keys_headers key k Hkey Hk) as [N1 N2].
    destruct (decide (k = key)) as [->|Hne].
    + exists key, c, hdrs. do 3 (split; [assumption|]). split.
      * rewrite lookup_insert_ne by assumption. exact L1.
      * apply lookup_insert_eq.
    + exists k, c, h. do 3 (split; [assumption|]). split.
      * rewrite lookup_insert_ne by assumption. exact L1.
      * rewrite lookup_insert_ne; [exact L2|].
        intros H. apply headers_key_inj in H. congruence.
Qed.

Lemma invariant_stored (host : jsstring) (t0 : list event)
    (key content : jsstring) (hdrs : object) (w : world) :
  generated_key key -> content <> [] ->
  fanout_invariant host t0 w ->
  fanout_invariant host t0 (stored host key content hdrs w).
Proof.
  intros Hkey Hc [(delta & Ht & Hb) Hres].
  destruct (stored_lookup host key content hdrs w) as [S1 S2]. split.
  - exists (EPush (uri_of host key)
            :: ESet (key ++ headers_suffix) (Stringified hdrs)
            :: ESet key (Lit content) :: delta).
    cbn [stored trace]. rewrite Ht. split; [reflexivity|].
    cbn [backed]. repeat split; try assumption.
    exists key, content, hdrs. cbn [In]. do 3 (split; [auto|]). auto.
  - cbn [stored replacedURIs]. apply Forall_app. split.
    + eapply Forall_impl; [exact Hres|].
      intros uri (k & c & h & Hu & Hk & Hc' & L1 & L2).
      destruct (generated_keys_headers key k Hkey Hk) as [N1 N2].
      destruct (decide (k = key)) as [->|Hne].
      * exists key, content, hdrs. do 3 (split; [assumption|]). now split.
      * exists k, c, h. do 3 (split; [assumption|]). split.
        -- rewrite stored_lookup_other; auto.
        -- rewrite stored_lookup_other; auto.
           intros H. apply headers_key_inj in H. congruence.
    + constructor; [|constructor].
      exists key, content, hdrs. do 3 (split; [auto|]). now split.
Qed.

Lemma invariant_drawn (host : jsstring) (t0 : list event) (n : nat) (w : world) :
  fanout_invariant host t0 w -> fanout_invariant host t0 (drawn n w).
Proof. apply invariant_same; reflexivity. Qed.

Lemma invariant_stored_links (host : jsstring) (t0 : list event)
    (links : list jsstring) (w : world) :
  Forall (fun link => link <> []) links ->
  fanout_invariant host t0 w ->
  fanout_invariant host t0 (stored_links host links w).
Proof.
  intros Hl. revert w. induction Hl as [|link links Hne Hl IH]; intros w Hw.
  - exact Hw.
  - cbn [stored_links]. apply IH.
    apply invariant_stored.
    + apply next_key_generated.
    + exact Hne.
    + now apply invariant_drawn.
Qed.

Lemma links_of_nonempty (d : jsstring) :
  Forall (fun link => link <> []) (links_of d).
Proof.
  unfold links_of. apply Forall_forall. intros link Hin.
  apply list_elem_of_filter in Hin as [Ht _]. intros ->. now apply Ht.
Qed.

Lemma urlParts_nonempty (targetUrl : jsstring) :
  Forall (fun part => part <> []) (urlParts_of targetUrl).
Proof.
  unfold urlParts_of. apply Forall_forall. intros part Hin.
  apply list_elem_of_filter in Hin as [Ht _]. intros ->. now apply Ht.
Qed.

Lemma invariant_store_links (host : jsstring) (t0 : list event) (v : jsval)
    (w : world) :
  fanout_invariant host t0 w ->
  fanout_invariant host t0 (snd (store_links host v w)).
Proof.
  intros Hw. destruct v as [d| | | |]; try exact Hw.
  rewrite store_links_run. apply invariant_stored_links; [|exact Hw].
  apply links_of_nonempty.
Qed.

Lemma blank_false_nonempty (content : jsstring) :
  blank content = false -> content <> [].
Proof. intros H ->. discriminate. Qed.

Lemma snd_bind {A B} (m : M A) (k : A -> M B) (w : world) :
  snd (bind m k w)
  = match fst (m w) with
    | Return a => snd (k a (snd (m w)))
    | Throw _ => snd (m w)
    end.
Proof. unfold bind. destruct (m w) as [[a|e] w']; reflexivity. Qed.

Lemma snd_catch {A} (m : M A) (h : exn -> M A) (w : world) :
  snd (catch m h w)
  = match fst (m w) with
    | Return _ => snd (m w)
    | Throw e => snd (h e (snd (m w)))
    end.
Proof. unfold catch. destruct (m w) as [[a|e] w']; reflexivity. Qed.

Section Invariant.

Variables (request : request) (host : jsstring) (t0 : list event).

Lemma url_segment_invariant (key u : jsstring) (w : world) :
  generated_key key -> fanout_invariant host t0 w ->
  fanout_invariant host t0 (snd (Part001.url_segment request host key u w)).
Proof.
  intros Hkey Hw. unfold Part001.url_segment. rewrite catch_unit, snd_bind.
  rewrite fetch_run. cbn [fst snd].
  pose proof (invariant_fetched host t0 u (subscription_fetch_headers request)
                w Hw) as Hf.
  destruct (network w (fetches w) u (subscription_fetch_headers request))
    as [r|e]; [|exact Hf].
  destruct (resp_ok r); cbn [negb]; [|exact Hf].
  rewrite snd_bind. unfold lift at 1. cbn [fst snd].
  destruct (resp_text r) as [content|e]; [|exact Hf].
  destruct (blank content) eqn:Hblank; [exact Hf|].
  rewrite snd_bind. unfold lift at 1. cbn [fst snd].
  destruct (parseData (JStr content)) as [p|e]; [|exact Hf].
  rewrite snd_bind.
  pose proof (invariant_set_headers host t0 key
                (Object_fromEntries (resp_headers r)) _ Hkey Hf) as Hs.
  cbn [cache_set fst].
  assert (Hone : fanout_invariant host t0
                   (snd (store_one host key content text_plain_utf8
                      (snd (cache_set (key ++ headers_suffix)
                              (Stringified (Object_fromEntries (resp_headers r)))
                              (fetched u (subscription_fetch_headers request) w)))))).
  { rewrite store_one_run. apply invariant_stored; auto.
    now apply blank_false_nonempty. }
  destruct (fmt p); try exact Hone.
  now apply invariant_store_links.
Qed.

Lemma other_segment_invariant (key u : jsstring) (w : world) :
  generated_key key -> u <> [] -> fanout_invariant host t0 w ->
  fanout_invariant host t0 (snd (Part001.other_segment host key u w)).
Proof.
  intros Hkey Hu Hw. unfold Part001.other_segment. rewrite snd_catch.
  assert (Hstore : forall w1, fanout_invariant host t0 w1 ->
            fanout_invariant host t0 (snd (store_one host key u text_plain w1))).
  { intros w1 H1. rewrite store_one_run. now apply invariant_stored. }
  set (body := (decoded <- lift (atob (remove_spaces u)) ;;
                parsed <- lift (parseData (JStr decoded)) ;;
                match fmt parsed with
                | base64 => store_links host (data parsed)
                | _ => ret tt
                end)).
  assert (Hbody : fanout_invariant host t0 (snd (body w))).
  { unfold body. rewrite snd_bind. unfold lift at 1 2. cbn [fst snd].
    destruct (atob (remove_spaces u)) as [decoded|e]; [|exact Hw].
    rewrite snd_bind. unfold lift at 1 2. cbn [fst snd].
    destruct (parseData (JStr decoded)) as [p|e]; [|exact Hw].
    destruct (fmt p); try exact Hw.
    now apply invariant_store_links. }
  destruct (fst (body w)); [exact Hbody|now apply Hstore].
Qed.

Lemma segment_invariant (u : jsstring) (w : world) :
  u <> [] -> fanout_invariant host t0 w ->
  fanout_invariant host t0 (snd (Part001.segment request host u w)).
Proof.
  intros Hu Hw. unfold Part001.segment.
  rewrite (bind_run _ _ w (drawn 16 w) (next_key w))
    by apply generateRandomStr_run.
  pose proof (next_key_generated w) as Hkey.
  pose proof (invariant_drawn host t0 16 w Hw) as Hd.
  destruct (startsWith u (str "https://") || startsWith u (str "http://")).
  - now apply url_segment_invariant.
  - destruct (nodeLink_test u).
    + rewrite store_one_run. now apply invariant_stored.
    + now apply other_segment_invariant.
Qed.

Lemma for_of_invariant (l : list jsstring) (w : world) :
  Forall (fun u => u <> []) l -> fanout_invariant host t0 w ->
  fanout_invariant host t0 (snd (for_of l (Part001.segment request host) w)).
Proof.
  intros Hl. revert w. induction Hl as [|u l Hu Hl IH]; intros w Hw.
  - exact Hw.
  - cbn [for_of]. rewrite snd_bind.
    pose proof (segment_invariant u w Hu Hw) as Hs.
    destruct (fst (Part001.segment request host u w)); [now apply IH|exact Hs].
Qed.

End Invariant.

Lemma finish_snd (w : world) : snd (finish w) = w.
Proof.
  unfold finish, bind, read_replacedURIs, lift.
  destruct (Nat.eqb (length (replacedURIs w)) 0); [reflexivity|].
  destruct (btoa _); reflexivity.
Qed.

Lemma finish_success (w : world) (rep : reply) :
  fst (finish w) = Return rep -> status rep = 200%Z ->
  exists b, body rep = Lit b
            /\ btoa (join (replacedURIs w) crlf) = Return b.
Proof.
  unfold finish, bind, read_replacedURIs, lift. fold crlf.
  destruct (Nat.eqb (length (replacedURIs w)) 0).
  - cbn. intros [= <-]. discriminate.
  - destruct (btoa (join (replacedURIs w) crlf)) as [b|e]; cbn.
    + intros [= <-] _. eauto.
    + discriminate.
Qed.

Section Resolvable.

Variable JSON_parse_units : jsstring -> Exc object.
Variables rootEndpoint versionEndpoint : request -> M reply.
Variable BACKEND : jsstring.

Local Abbreviation dispatch :=
  (handler JSON_parse_units rootEndpoint versionEndpoint BACKEND
     Part001.processSubscription).

Lemma resolvable_resolves (host : jsstring) (w : world) (uri : jsstring) :
  resolvable host w uri -> resolves dispatch host w uri.
Proof.
  intros (key & content & hdrs & Hu & Hk & Hc & L1 & L2).
  exists key, content, hdrs. do 3 (split; [assumption|]).
  intros rq Hp.
  apply (subscription_served _ _ _ _ _ rq key content hdrs);
    auto using generated_key_valid.
Qed.

(** C10: in a run of [processSubscription], every URI pushed to the
    output list has the form [{host}/subscription/{key}] for a generated
    key of 16 code units, and a non-empty content and a headers entry
    were written under that key before the push; on the success path
    (status 200, the body being the base64 of the joined list) every URI
    of the list points at a non-empty content of the store with its
    headers and [GET /subscription/{key}] answers it. *)
Theorem fanout_uris_resolvable (request : request) (url : URL)
    (backend : jsstring) (w : world) :
  let host := getHost request in
  let out := Part001.processSubscription request url backend w in
  (exists delta, trace (snd out) = delta ++ trace w /\ backed host delta)
  /\ (forall rep, fst out = Return rep -> status rep = 200%Z ->
        (exists b, body rep = Lit b
                   /\ btoa (join (replacedURIs (snd out)) crlf) = Return b)
        /\ Forall (resolvable host (snd out)) (replacedURIs (snd out))
        /\ Forall (resolves dispatch host (snd out)) (replacedURIs (snd out))).
Proof.
  intros host out.
  assert (Htriv : forall rep0 w0, out = (Return rep0, w0) ->
            trace w0 = trace w -> status rep0 <> 200%Z ->
            (exists delta, trace (snd out) = delta ++ trace w
                           /\ backed host delta)
            /\ (forall rep, fst out = Return rep -> status rep = 200%Z ->
                  (exists b, body rep = Lit b
                     /\ btoa (join (replacedURIs (snd out)) crlf) = Return b)
                  /\ Forall (resolvable host (snd out)) (replacedURIs (snd out))
                  /\ Forall (resolves dispatch host (snd out))
                       (replacedURIs (snd out)))).
  { intros rep0 w0 -> Ht Hs. split.
    - exists []. split; [exact Ht|exact I].
    - intros rep [= <-] H. contradiction. }
  unfold out, Part001.processSubscription in *.
  destruct (searchParams_get url (str "url")) as [[|c t]|].
  1, 3: eapply Htriv; [reflexivity|reflexivity|discriminate].
  destruct (urlParts_of (c :: t)) as [|u l] eqn:Eparts.
  { eapply Htriv; [reflexivity|reflexivity|discriminate]. }
  clear Htriv. cbn [length Nat.eqb].
  rewrite (bind_run _ _ w (fresh_list w) tt) by reflexivity.
  assert (H0 : fanout_invariant host (trace w) (fresh_list w)).
  { split; [exists []; split; [reflexivity|exact I]|constructor]. }
  assert (Hl : Forall (fun part => part <> []) (u :: l)).
  { rewrite <- Eparts. apply urlParts_nonempty. }
  pose proof (for_of_invariant request host (trace w) (u :: l) (fresh_list w)
                Hl H0) as Hinv.
  destruct (for_of (u :: l) (Part001.segment request host) (fresh_list w))
    as [[[]|e] w2] eqn:Efor; cbn [snd] in Hinv.
  - rewrite (bind_run _ _ _ _ _ Efor).
    rewrite finish_snd. split; [exact (proj1 Hinv)|].
    intros rep Hrep Hst. split; [now apply finish_success|].
    split; [exact (proj2 Hinv)|].
    eapply Forall_impl; [exact (proj2 Hinv)|].
    intros uri. apply resolvable_resolves.
  - rewrite (bind_throw _ _ _ _ _ Efor).
    cbn [fst snd]. split; [exact (proj1 Hinv)|]. discriminate.
Qed.

End Resolvable.

Lemma fanout_uris_resolvable_witness :
  let rq := sub_request two_links in
  let w' := snd (Part001.processSubscription rq (req_url rq) default_backend
                   offline) in
  Forall (resolvable (str "https://example.com") w') (replacedURIs w')
  /\ Forall (resolves (handler parse_nothing empty_page empty_page
                         default_backend Part001.processSubscription)
               (str "https://example.com") w') (replacedURIs w').
Proof.
  intros rq w'.
  destruct (fanout_uris_resolvable parse_nothing empty_page empty_page
              default_backend rq (req_url rq) default_backend offline)
    as [_ H].
  refine (proj2 (H (Reply 200 _ _) _ eq_refl)).
  vm_compute. reflexivity.
Defined.

(** * [/sub] with a [target]: the backend forwarder *)

Lemma forwardToBackend_world (request : request) (url : URL)
    (backend host dir : jsstring) (w : world) :
  snd (Part000.forwardToBackend request url backend host dir w)
  = fetched (backendUrl_of backend url) (backend_fetch_headers request) w.
Proof.
  unfold Part000.forwardToBackend. rewrite snd_catch, snd_bind, fetch_run.
  fold (backendUrl_of backend url). fold (backend_fetch_headers request).
  unfold bind at 1. rewrite fetch_run. cbn [fst snd].
  destruct (network w (fetches w) (backendUrl_of backend url)
              (backend_fetch_headers request)) as [r|e]; [|reflexivity].
  destruct (resp_ok r); cbn [negb].
  - unfold bind, lift. destruct (resp_text r); reflexivity.
  - unfold lift. destruct (new_Response _ _ _); reflexivity.
Qed.

(** C6, as stated, fails.  In [part_000] a [target] parameter that is
    present but empty is not forwarded: the link is stored by the
    resolver and no [fetch] is made.  In [part_001] the [target]
    parameter is never read: with [target=clash] the resolver runs. *)
Lemma target_counterexample :
  let h0 := handler parse_nothing empty_page empty_page default_backend
              Part000.processSubscription in
  let h1 := handler parse_nothing empty_page empty_page default_backend
              Part001.processSubscription in
  let uri := uri_of (str "https://example.com") (str "abcdefghijklmnop") in
  (searchParams_get (req_url (target_request [])) (str "target") = Some []
   /\ replacedURIs (snd (h0 (target_request []) offline)) = [uri]
   /\ fetches (snd (h0 (target_request []) offline)) = 0%nat
   /\ fst (h0 (target_request []) offline)
      <> fst (Part000.forwardToBackend (target_request [])
                (req_url (target_request [])) default_backend
                (str "https://example.com") subDir offline))
  /\ (searchParams_get (req_url (target_request (str "clash"))) (str "target")
      = Some (str "clash")
      /\ replacedURIs (snd (h1 (target_request (str "clash")) offline)) = [uri]
      /\ fetches (snd (h1 (target_request (str "clash")) offline)) = 0%nat).
Proof.
  intros h0 h1 uri. split; [split; [|split; [|split]]|split; [|split]].
  - reflexivity.
  - vm_compute. reflexivity.
  - vm_compute. reflexivity.
  - vm_compute. discriminate.
  - reflexivity.
  - vm_compute. reflexivity.
  - vm_compute. reflexivity.
Qed.

Section Forward.

Variable JSON_parse_units : jsstring -> Exc object.
Variables rootEndpoint versionEndpoint : request -> M reply.
Variable BACKEND : jsstring.

Local Abbreviation dispatch :=
  (handler JSON_parse_units rootEndpoint versionEndpoint BACKEND
     Part000.processSubscription).

(** C6, amended: in the variant with the forwarder ([part_000]), for
    every request to [/sub] whose [url] and [target] parameters are
    present and not empty, the handler is [forwardToBackend]: it makes
    one [fetch], of the backend base followed by the path and the query
    string of the request as they are, and it neither draws a key nor
    writes to the store nor appends an output URI. *)
Theorem target_forwarded (request : request) (targetUrl target : jsstring)
    (w : world) :
  let url := req_url request in
  url_pathname url = str "/sub" ->
  searchParams_get url (str "url") = Some targetUrl -> targetUrl <> [] ->
  searchParams_get url (str "target") = Some target -> target <> [] ->
  let out := dispatch request w in
  out = Part000.forwardToBackend request url BACKEND (getHost request) subDir w
  /\ trace (snd out)
     = EFetch (BACKEND ++ url_pathname url ++ url_search url)
         (backend_fetch_headers request) :: trace w
  /\ memoryCache (snd out) = memoryCache w
  /\ draws (snd out) = draws w
  /\ replacedURIs (snd out) = replacedURIs w.
Proof.
  intros url Hpath Hurl Hne Htarget Hnt out.
  assert (Hout : out = Part000.forwardToBackend request url BACKEND
                         (getHost request) subDir w).
  { unfold out, handler. fold url. rewrite Hpath.
    change (bool_decide (str "/sub" = str "/")) with false.
    change (bool_decide (str "/sub" = [])) with false.
    change (bool_decide (str "/sub" = str "/version")) with false.
    change (startsWith (str "/sub") (str "/subscription/")) with false.
    change (bool_decide (str "/sub" = str "/sub")) with true.
    cbn [orb]. unfold Part000.processSubscription.
    rewrite Hurl, Htarget.
    destruct targetUrl as [|c t]; [congruence|].
    destruct target as [|c' t']; [congruence|]. reflexivity. }
  split; [exact Hout|]. rewrite Hout, forwardToBackend_world.
  repeat split.
Qed.

End Forward.

Lemma target_forwarded_witness :
  let rq := target_request (str "clash") in
  handler parse_nothing empty_page empty_page default_backend
    Part000.processSubscription rq offline
  = Part000.forwardToBackend rq (req_url rq) default_backend
      (str "https://example.com") subDir offline.
Proof.
  intros rq.
  refine (proj1 (target_forwarded parse_nothing empty_page empty_page
                   default_backend rq (str "vmess://abc") (str "clash") offline
                   eq_refl eq_refl _ eq_refl _)); discriminate.
Defined.

(** * The rewriting of the backend domains *)

Lemma GetSubstitution_no_dollar (matched before after rep : jsstring) :
  no_dollar rep = true -> GetSubstitution matched before after rep = rep.
Proof.
  induction rep as [|c rep IH]; [reflexivity|].
  cbn [no_dollar forallb]. intros H. apply andb_true_iff in H as [Hc Hr].
  cbn [GetSubstitution]. apply negb_true_iff in Hc. rewrite Hc.
  f_equal. now apply IH.
Qed.

Lemma replace_all_from_scan (pat rep seen : jsstring) (skip : nat)
    (s : jsstring) :
  no_dollar rep = true ->
  replace_all_from pat rep seen skip s = replace_scan pat rep skip s.
Proof.
  intros Hd. revert seen skip.
  induction s as [|c s IH]; intros seen skip; [reflexivity|].
  cbn [replace_all_from replace_scan]. destruct skip as [|k]; [|apply IH].
  rewrite GetSubstitution_no_dollar by exact Hd.
  destruct (startsWith (c :: s) pat); now rewrite IH.
Qed.

Lemma replace_all_scan (s pat rep : jsstring) :
  no_dollar rep = true -> replace_all s pat rep = replace_scan pat rep 0 s.
Proof. apply replace_all_from_scan. Qed.

(** ** Equations of one pass *)

Lemma startsWith_split (s p : jsstring) :
  startsWith s p = true -> s = p ++ skipn (length p) s.
Proof.
  revert s. induction p as [|c p IH]; intros s H; [reflexivity|].
  destruct s as [|d s]; [discriminate|]. cbn [startsWith] in H.
  apply andb_true_iff in H as [Hc Hs]. apply N.eqb_eq in Hc. subst d.
  cbn [length skipn app]. f_equal. now apply IH.
Qed.

Lemma startsWith_app_cases (r x p : jsstring) :
  startsWith (r ++ x) p = true ->
  startsWith r p = true \/ startsWith p r = true.
Proof.
  revert p. induction r as [|c r IH]; intros p H.
  - right. now destruct p.
  - destruct p as [|d p]; [now left|].
    cbn [app startsWith] in *. apply andb_true_iff in H as [Hc Hs].
    apply N.eqb_eq in Hc. subst d. rewrite N.eqb_refl. cbn [andb].
    now apply IH.
Qed.

Lemma scan_skip (pat rep x t : jsstring) :
  replace_scan pat rep (length x) (x ++ t) = replace_scan pat rep 0 t.
Proof.
  induction x as [|c x IH]; [|exact IH].
  destruct t; reflexivity.
Qed.

Lemma scan_match (pat rep t : jsstring) :
  pat <> [] ->
  replace_scan pat rep 0 (pat ++ t) = rep ++ replace_scan pat rep 0 t.
Proof.
  intros Hp. destruct pat as [|c p]; [congruence|].
  pose proof (startsWith_app (c :: p) t) as Hs.
  cbn [app replace_scan] in *. rewrite Hs.
  replace (length (c :: p) - 1)%nat with (length p) by (cbn [length]; lia).
  now rewrite scan_skip.
Qed.

Section Pass.

Variables pat rep : jsstring.

Lemma scan_step (c : N) (t : jsstring) :
  startsWith (c :: t) pat = false ->
  replace_scan pat rep 0 (c :: t) = c :: replace_scan pat rep 0 t.
Proof. intros H. cbn [replace_scan]. now rewrite H. Qed.

(** No occurrence of the pattern begins inside [r]: the pass copies it. *)
Lemma scan_copy (r t : jsstring) :
  no_start r pat = true ->
  replace_scan pat rep 0 (r ++ t) = r ++ replace_scan pat rep 0 t.
Proof.
  induction r as [|c r IH]; [reflexivity|].
  cbn [no_start]. intros H.
  apply andb_true_iff in H as [H Hr]. apply andb_true_iff in H as [H1 H2].
  apply negb_true_iff in H1, H2.
  cbn [app]. rewrite scan_step.
  - f_equal. now apply IH.
  - destruct (startsWith (c :: r ++ t) pat) eqn:E; [|reflexivity].
    destruct (startsWith_app_cases (c :: r) t pat E); congruence.
Qed.

(** What the output of the pass begins with, the input began with, for
    a text [q] that the replacement does not overlap. *)
Lemma scan_begins (q t : jsstring) :
  no_start q rep = true ->
  startsWith (replace_scan pat rep 0 t) q = true -> startsWith t q = true.
Proof.
  revert q. induction t as [|c t IH]; intros q Hq H.
  - exact H.
  - destruct q as [|d q]; [reflexivity|].
    cbn [no_start] in Hq.
    apply andb_true_iff in Hq as [Hq Hq']. apply andb_true_iff in Hq as [H1 H2].
    apply negb_true_iff in H1, H2.
    cbn [replace_scan] in H. destruct (startsWith (c :: t) pat).
    + destruct (startsWith_app_cases _ _ _ H); congruence.
    + cbn [startsWith] in *. apply andb_true_iff in H as [Hc Hs].
      rewrite Hc. cbn [andb]. now apply IH.
Qed.

Lemma scan_step_begins (q : jsstring) (c : N) (t : jsstring) :
  no_start q rep = true ->
  startsWith (c :: replace_scan pat rep 0 t) q = true ->
  startsWith (c :: t) q = true.
Proof.
  intros Hq H. destruct q as [|d q]; [reflexivity|].
  cbn [startsWith] in *. apply andb_true_iff in H as [Hc Hs].
  rewrite Hc. cbn [andb]. apply scan_begins; [|exact Hs].
  cbn [no_start] in Hq. apply andb_true_iff in Hq. tauto.
Qed.

End Pass.

(** ** Equations of the single pass of the specification *)

Section Once.

Variables origin host : jsstring.

Lemma once_full_friendly (t : jsstring) :
  rewrite_once origin host 0 (full_friendly ++ t)
  = origin ++ rewrite_once origin host 0 t.
Proof. destruct t; reflexivity. Qed.

Lemma once_full_backend (t : jsstring) :
  rewrite_once origin host 0 (full_backend ++ t)
  = origin ++ rewrite_once origin host 0 t.
Proof. destruct t; reflexivity. Qed.

Lemma once_friendly (t : jsstring) :
  rewrite_once origin host 0 (placeholder_friendly ++ t)
  = host ++ rewrite_once origin host 0 t.
Proof. destruct t; reflexivity. Qed.

Lemma once_backend (t : jsstring) :
  rewrite_once origin host 0 (placeholder_backend ++ t)
  = host ++ rewrite_once origin host 0 t.
Proof. destruct t; reflexivity. Qed.

Lemma once_step (c : N) (t : jsstring) :
  startsWith (c :: t) full_friendly = false ->
  startsWith (c :: t) full_backend = false ->
  startsWith (c :: t) placeholder_friendly = false ->
  startsWith (c :: t) placeholder_backend = false ->
  rewrite_once origin host 0 (c :: t) = c :: rewrite_once origin host 0 t.
Proof. intros H1 H2 H3 H4. cbn [rewrite_once]. now rewrite H1, H2, H3, H4. Qed.

End Once.

(** ** The four passes are the single pass *)

Lemma placeholders_apart :
  no_start full_backend full_friendly = true
  /\ no_start full_backend placeholder_friendly = true
  /\ no_start placeholder_friendly full_friendly = true
  /\ no_start placeholder_backend full_friendly = true
  /\ no_start placeholder_backend placeholder_friendly = true
  /\ no_start placeholder_backend full_backend = true.
Proof. repeat split; vm_compute; reflexivity. Qed.

Lemma apart_both (r p : jsstring) :
  apart r p = true -> no_start r p = true /\ no_start p r = true.
Proof. unfold apart. apply andb_true_iff. Qed.

Lemma split_length (s p : jsstring) :
  startsWith s p = true -> p <> [] ->
  (length (skipn (length p) s) < length s)%nat.
Proof.
  intros H Hp. apply startsWith_split in H.
  apply (f_equal (@length N)) in H. rewrite length_app in H.
  destruct p; [congruence|]. cbn [length] in *. lia.
Qed.

Section FourPasses.

Variables origin host : jsstring.
Hypothesis Hapart : host_apart origin host = true.

Lemma four_passes_once (body : jsstring) :
  four_passes origin host body = rewrite_once origin host 0 body.
Proof.
  pose proof Hapart as A. unfold host_apart in A.
  apply andb_true_iff in A as [A A5]. apply andb_true_iff in A as [A A4].
  apply andb_true_iff in A as [A A3]. apply andb_true_iff in A as [A1 A2].
  destruct (apart_both _ _ A1) as [O1 O1'].
  destruct (apart_both _ _ A2) as [O2 O2'].
  destruct (apart_both _ _ A3) as [O3 O3'].
  destruct (apart_both _ _ A4) as [H2 H2'].
  destruct (apart_both _ _ A5) as [H3 H3'].
  clear A1 A2 A3 A4 A5.
  destruct placeholders_apart as (P1 & P2 & P3 & P4 & P5 & P6).
  induction body as [body IH] using (induction_ltof1 _ (@length N)).
  unfold ltof in IH.
  destruct body as [|c t]; [reflexivity|].
  destruct (startsWith (c :: t) full_friendly) eqn:E1.
  { pose proof (split_length _ _ E1 ltac:(discriminate)) as Hlt.
    apply startsWith_split in E1.
    remember (skipn (length full_friendly) (c :: t)) as t' eqn:Et.
    rewrite E1, once_full_friendly. unfold four_passes.
    rewrite scan_match by discriminate.
    rewrite !scan_copy by assumption. f_equal. now apply IH. }
  destruct (startsWith (c :: t) full_backend) eqn:E2.
  { pose proof (split_length _ _ E2 ltac:(discriminate)) as Hlt.
    apply startsWith_split in E2.
    remember (skipn (length full_backend) (c :: t)) as t' eqn:Et.
    rewrite E2, once_full_backend. unfold four_passes.
    rewrite !(scan_copy _ _ full_backend) by assumption.
    rewrite scan_match by discriminate.
    rewrite scan_copy by assumption. f_equal. now apply IH. }
  destruct (startsWith (c :: t) placeholder_friendly) eqn:E3.
  { pose proof (split_length _ _ E3 ltac:(discriminate)) as Hlt.
    apply startsWith_split in E3.
    remember (skipn (length placeholder_friendly) (c :: t)) as t' eqn:Et.
    rewrite E3, once_friendly. unfold four_passes.
    rewrite (scan_copy _ _ placeholder_friendly) by assumption.
    rewrite scan_match by discriminate.
    rewrite !scan_copy by assumption. f_equal. now apply IH. }
  destruct (startsWith (c :: t) placeholder_backend) eqn:E4.
  { pose proof (split_length _ _ E4 ltac:(discriminate)) as Hlt.
    apply startsWith_split in E4.
    remember (skipn (length placeholder_backend) (c :: t)) as t' eqn:Et.
    rewrite E4, once_backend. unfold four_passes.
    rewrite !(scan_copy _ _ placeholder_backend) by assumption.
    rewrite scan_match by discriminate. f_equal. now apply IH. }
  rewrite once_step by assumption.
  rewrite <- (IH t) by (cbn [length]; lia). unfold four_passes.
  rewrite (scan_step full_friendly origin c t E1).
  rewrite scan_step.
  2:{ apply not_true_is_false. intros E.
      apply scan_step_begins in E; [congruence|assumption]. }
  rewrite scan_step.
  2:{ apply not_true_is_false. intros E.
      apply scan_step_begins in E; [|assumption].
      apply scan_step_begins in E; [congruence|assumption]. }
  rewrite scan_step.
  2:{ apply not_true_is_false. intros E.
      apply scan_step_begins in E; [|assumption].
      apply scan_step_begins in E; [|assumption].
      apply scan_step_begins in E; [congruence|assumption]. }
  reflexivity.
Qed.

End FourPasses.

Lemma rewrite_domains_passes (origin host body : jsstring) :
  no_dollar origin = true -> no_dollar host = true ->
  rewrite_domains origin host body = four_passes origin host body.
Proof.
  intros Ho Hh. unfold rewrite_domains, four_passes.
  now rewrite !replace_all_scan.
Qed.

(** C7, as stated, fails for a request that arrives at a host which
    contains a placeholder domain: at [sub.api.v1.mk] the body
    [https://api.v1.mk/foo] becomes [https://sub.sub.api.v1.mk/foo],
    because the pass for the bare domain rewrites the origin that the
    pass before it has just inserted. *)
Lemma host_with_placeholder_counterexample :
  let rq := forward_request (str "sub.api.v1.mk") in
  let content := str "https://api.v1.mk/foo" in
  fst (Part000.forwardToBackend rq (req_url rq) default_backend (getHost rq)
         subDir (backend_answers content))
  = Return (Reply 200 (Lit (str "https://sub.sub.api.v1.mk/foo"))
              [(content_type, str "text/plain"); (allow_origin, str "*")])
  /\ rewrite_once (getHost rq) (str "sub.api.v1.mk") 0 content
     = str "https://sub.api.v1.mk/foo"
  /\ str "https://sub.sub.api.v1.mk/foo" <> str "https://sub.api.v1.mk/foo".
Proof.
  intros rq content. split; [|split].
  - vm_compute. reflexivity.
  - vm_compute. reflexivity.
  - vm_compute. discriminate.
Qed.

(** C7, amended: for every successful backend response the forwarder
    answers 200 with the body rewritten by its four global replacements;
    when the origin and the host of the request hold no [$] and do not
    overlap the placeholder literals, that body is the one in which every
    occurrence of [https://{domain}] has given way to the origin and
    every occurrence of the bare [{domain}] to the host, for both
    placeholder domains, wherever and in whatever order they occur. *)
Theorem backend_domains_rewritten (request : request) (url : URL)
    (backend host dir content : jsstring) (r : response) (w : world) :
  network w (fetches w) (backendUrl_of backend url)
    (backend_fetch_headers request) = Return r ->
  resp_ok r = true -> resp_text r = Return content ->
  fst (Part000.forwardToBackend request url backend host dir w)
  = Return (Reply 200 (Lit (rewrite_domains host (url_host url) content))
              [(content_type,
                or_else (Headers_get (resp_headers r) content_type)
                  (str "text/plain"));
               (allow_origin, str "*")])
  /\ (no_dollar host = true -> no_dollar (url_host url) = true ->
      host_apart host (url_host url) = true ->
      rewrite_domains host (url_host url) content
      = rewrite_once host (url_host url) 0 content).
Proof.
  intros Hnet Hok Htext. split.
  - unfold Part000.forwardToBackend, catch.
    fold (backendUrl_of backend url). fold (backend_fetch_headers request).
    rewrite (bind_run _ _ w _ r) by (now rewrite fetch_run, Hnet).
    rewrite Hok. cbn [negb].
    rewrite (bind_run _ _ _ _ content) by (unfold lift; now rewrite Htext).
    reflexivity.
  - intros Ho Hh Ha. rewrite rewrite_domains_passes by assumption.
    now apply four_passes_once.
Qed.

(** The example of the specification, with the literals in either
    order. *)
Lemma backend_domains_rewritten_witness :
  let rq := forward_request (str "example.com") in
  rewrite_domains (getHost rq) (str "example.com") backend_page
  = str "a: https://example.com/foo b: example.com c: https://example.com/x"
  /\ rewrite_domains (getHost rq) (str "example.com") backend_page_swapped
     = str "b: example.com a: https://example.com/foo c: https://example.com/x".
Proof.
  intros rq. split.
  - refine (eq_trans
              (proj2 (backend_domains_rewritten rq (req_url rq) default_backend
                        (getHost rq) subDir backend_page _
                        (backend_answers backend_page) eq_refl eq_refl eq_refl)
                 eq_refl eq_refl eq_refl) _).
    vm_compute. reflexivity.
  - refine (eq_trans
              (proj2 (backend_domains_rewritten rq (req_url rq) default_backend
                        (getHost rq) subDir backend_page_swapped _
                        (backend_answers backend_page_swapped)
                        eq_refl eq_refl eq_refl)
                 eq_refl eq_refl eq_refl) _).
    vm_compute. reflexivity.
Defined.

(** * Further properties: the key generator and the classifier *)

(** X1: [generateRandomStr(len)] returns exactly [len] code units, each
    one of [a-z0-9], and its only effect is to take [len] draws from the
    random source: the store, the trace and the fetch counter stay. *)
Theorem generateRandomStr_shape (len : nat) (w : world) :
  exists k, generateRandomStr len w = (Return k, drawn len w)
            /\ length k = len
            /\ Forall (fun c => is_lower c || is_digit c = true) k.
Proof.
  unfold generateRandomStr. rewrite generateRandomStr_from_run.
  destruct (random_key_from_shape (Math_random w) len (draws w) [])
    as (k & -> & Hlen & Hall).
  exists k. split; [reflexivity|]. split; [exact Hlen|].
  eapply Forall_impl; [exact Hall|].
  intros c Hc. cbn beta in Hc.
  assert (Hchars : forallb (fun c => is_lower c || is_digit c) chars = true)
    by (vm_compute; reflexivity).
  rewrite forallb_forall in Hchars. now apply Hchars.
Qed.

(** X2: what a result of [parseData] on a string says about the input:
    [base64] only for a text of the base64 alphabet, longer than 20, that
    [atob] decodes to a text with [://], which is the data; [yaml] only
    when the trimmed text holds [proxies:] or [Proxy:]; [direct] only
    when it does not and begins with a node-link scheme; and outside
    [base64] the data is the trimmed text. *)
Theorem parseData_sound (s : jsstring) (p : payload) :
  parseData (JStr s) = Return p ->
  match fmt p with
  | base64 => exists d, data p = JStr d /\ decodes_to_links (trim s) d
  | yaml => data p = JStr (trim s) /\ yaml_check (trim s) = true
  | direct => data p = JStr (trim s) /\ yaml_check (trim s) = false
              /\ nodeLink_test (trim s) = true
  | unknown => data p = JStr (trim s) /\ yaml_check (trim s) = false
               /\ nodeLink_test (trim s) = false
  end.
Proof.
  rewrite parseData_string. unfold try_base64.
  assert (Hrest : Return (classify_rest (trim s)) = Return p ->
            match fmt p with
            | base64 => exists d, data p = JStr d /\ decodes_to_links (trim s) d
            | yaml => data p = JStr (trim s) /\ yaml_check (trim s) = true
            | direct => data p = JStr (trim s) /\ yaml_check (trim s) = false
                        /\ nodeLink_test (trim s) = true
            | unknown => data p = JStr (trim s) /\ yaml_check (trim s) = false
                         /\ nodeLink_test (trim s) = false
            end).
  { unfold classify_rest. fold (yaml_check (trim s)).
    destruct (yaml_check (trim s)); [intros [= <-]; cbn; auto|].
    destruct (nodeLink_test (trim s)); intros [= <-]; cbn; auto. }
  destruct (base64Pattern_test (trim s)) eqn:Hp; cbn [andb]; [|exact Hrest].
  destruct (20 <? length (trim s))%nat eqn:Hl; [|exact Hrest].
  destruct (atob (remove_spaces (trim s))) as [d|e] eqn:Ha;
    cbn [try_catch exc_bind]; [|exact Hrest].
  destruct (includes d (str "://")) eqn:Hi; cbn [try_catch]; [|exact Hrest].
  intros [= <-]. cbn [fmt data]. exists d. split; [reflexivity|].
  apply Nat.ltb_lt in Hl. repeat split; assumption.
Qed.

Lemma parseData_sound_witness :
  yaml_check (trim (str " port: 7890 proxies: [] ")) = true.
Proof.
  exact (proj2 (parseData_sound (str " port: 7890 proxies: [] ")
                  (Payload yaml (JStr (str "port: 7890 proxies: []")))
                  eq_refl)).
Defined.

(** ** Whitespace around the input *)

Lemma trimStart_spaces (a s : jsstring) :
  all_space a -> trimStart (a ++ s) = trimStart s.
Proof.
  intros Ha. induction Ha as [|c a Hc Ha IH]; [reflexivity|].
  cbn [app trimStart]. now rewrite Hc.
Qed.

Lemma trimStart_nil_spaces (s : jsstring) : trimStart s = [] -> all_space s.
Proof.
  induction s as [|c s IH]; [constructor|].
  cbn [trimStart]. destruct (is_js_space c) eqn:E; [|discriminate].
  intros H. constructor; [exact E|exact (IH H)].
Qed.

Lemma trimStart_app (s b : jsstring) :
  trimStart s <> [] -> trimStart (s ++ b) = trimStart s ++ b.
Proof.
  induction s as [|c s IH]; [intros H; exfalso; now apply H|].
  cbn [app trimStart]. destruct (is_js_space c); [exact IH|reflexivity].
Qed.

Lemma all_space_rev (b : jsstring) : all_space b -> all_space (rev b).
Proof.
  unfold all_space. rewrite !Forall_forall. intros H c Hc.
  apply H. apply list_elem_of_In. apply list_elem_of_In in Hc.
  apply in_rev in Hc. exact Hc.
Qed.

Lemma trimEnd_spaces (s b : jsstring) :
  all_space b -> trimEnd (s ++ b) = trimEnd s.
Proof.
  intros Hb. unfold trimEnd. rewrite rev_app_distr.
  rewrite trimStart_spaces by now apply all_space_rev. reflexivity.
Qed.

Lemma trimEnd_all_space (b : jsstring) : all_space b -> trimEnd b = [].
Proof.
  intros Hb. rewrite <- (app_nil_l b). now rewrite trimEnd_spaces.
Qed.

Lemma trim_padded (a s b : jsstring) :
  all_space a -> all_space b -> trim (a ++ s ++ b) = trim s.
Proof.
  intros Ha Hb. unfold trim. rewrite trimStart_spaces by exact Ha.
  destruct (trimStart s) as [|c t] eqn:E.
  - apply trimStart_nil_spaces in E.
    assert (Hsb : all_space (s ++ b)) by now apply Forall_app.
    rewrite <- (app_nil_r (s ++ b)), trimStart_spaces by exact Hsb.
    reflexivity.
  - rewrite trimStart_app by congruence. rewrite E.
    now apply trimEnd_spaces.
Qed.

(** X3: whitespace before and after the text never changes the
    classification: the format and the data are those of the text
    itself. *)
Theorem parseData_ignores_padding (a s b : jsstring) :
  all_space a -> all_space b ->
  parseData (JStr (a ++ s ++ b)) = parseData (JStr s).
Proof.
  intros Ha Hb. rewrite !parseData_string, trim_padded by assumption.
  destruct (try_base64_returns (trim s)) as [r ->]. reflexivity.
Qed.

Lemma parseData_ignores_padding_witness :
  parseData (JStr (str "  " ++ str "trojan://pw@host:443"
                   ++ str (String "013" (String "010" ""))))
  = parseData (JStr (str "trojan://pw@host:443")).
Proof.
  apply parseData_ignores_padding.
  - repeat constructor.
  - repeat constructor.
Defined.

(** * Further properties: the segments of the resolver *)

Lemma stored_links_frame (host : jsstring) (links : list jsstring) (w : world) :
  fetches (stored_links host links w) = fetches w
  /\ Math_random (stored_links host links w) = Math_random w
  /\ network (stored_links host links w) = network w
  /\ draws (stored_links host links w) = (draws w + 16 * length links)%nat.
Proof.
  revert w. induction links as [|link links IH]; intros w.
  - cbn. repeat split. lia.
  - cbn [stored_links length].
    destruct (IH (stored host (next_key w) link text_plain (drawn 16 w)))
      as (-> & -> & -> & ->).
    cbn. repeat split. lia.
Qed.

Lemma stored_links_uris (host : jsstring) (links : list jsstring) (w : world) :
  replacedURIs (stored_links host links w)
  = replacedURIs w
    ++ map (uri_of host)
         (next_keys (Math_random w) (draws w) (length links)).
Proof.
  revert w. induction links as [|link links IH]; intros w.
  - cbn. now rewrite app_nil_r.
  - cbn [stored_links length next_keys map]. rewrite IH.
    cbn [stored drawn replacedURIs Math_random draws].
    now rewrite <- app_assoc.
Qed.

(** Each link is written under the key of its rank. *)
Lemma stored_links_written (host : jsstring) (links : list jsstring)
    (w : world) (i : nat) (link key : jsstring) :
  links !! i = Some link ->
  next_keys (Math_random w) (draws w) (length links) !! i = Some key ->
  In (ESet key (Lit link)) (trace (stored_links host links w))
  /\ In (ESet (key ++ headers_suffix) (Stringified text_plain))
        (trace (stored_links host links w)).
Proof.
  revert w i. induction links as [|l links IH]; intros w i Hl Hk;
    [discriminate|].
  cbn [stored_links length next_keys] in *.
  destruct i as [|i].
  - cbn in Hl, Hk. injection Hl as <-. injection Hk as <-.
    destruct (stored_links_trace host links
                (stored host (next_key w) l text_plain (drawn 16 w)))
      as [delta ->].
    split; apply in_or_app; right; cbn; auto.
  - cbn in Hl, Hk. apply (IH _ i); assumption.
Qed.

Lemma startsWith_comparable (u p q : jsstring) :
  startsWith u p = true -> startsWith u q = true ->
  startsWith p q = true \/ startsWith q p = true.
Proof.
  intros Hp Hq. apply startsWith_split in Hp. rewrite Hp in Hq.
  now apply startsWith_app_cases in Hq.
Qed.

Lemma nodeLink_not_url (u : jsstring) :
  nodeLink_test u = true -> is_url u = false.
Proof.
  unfold nodeLink_test, is_url. intros H.
  apply existsb_exists in H as (scheme & Hin & Hs).
  assert (Hapart : forall web,
            forallb (fun sch => negb (startsWith (sch ++ str "://") web)
                                && negb (startsWith web (sch ++ str "://")))
              node_schemes = true ->
            startsWith u web = false).
  { intros web Hall. rewrite forallb_forall in Hall.
    specialize (Hall scheme Hin). apply andb_true_iff in Hall as [H1 H2].
    apply negb_true_iff in H1, H2.
    destruct (startsWith u web) eqn:E; [|reflexivity].
    destruct (startsWith_comparable u _ _ Hs E); congruence. }
  rewrite !Hapart by (vm_compute; reflexivity). reflexivity.
Qed.

Lemma segment000_node (request : request) (host u : jsstring) (w : world) :
  is_url u = false -> nodeLink_test u = true ->
  Part000.segment request host u w
  = (Return tt, stored host (next_key w) u text_plain (drawn 16 w)).
Proof.
  intros Hu Hn. unfold Part000.segment, bind. rewrite generateRandomStr_run.
  unfold is_url in Hu. now rewrite Hu, Hn.
Qed.

Section NodeLinks.

Variable JSON_parse_units : jsstring -> Exc object.
Variables rootEndpoint versionEndpoint : request -> M reply.
Variable BACKEND : jsstring.
Variable processSubscription : request -> URL -> jsstring -> M reply.

Local Abbreviation dispatch :=
  (handler JSON_parse_units rootEndpoint versionEndpoint BACKEND
     processSubscription).

(** X4: in both variants a segment that is a node link is stored as it
    is under the next generated key with [Content-Type: text/plain],
    appends that key's URI, and makes no [fetch]; the entry is then
    served by [GET /subscription/{key}]. *)
Theorem node_link_stored (request : request) (host u : jsstring) (w : world) :
  nodeLink_test u = true ->
  let w' := stored host (next_key w) u text_plain (drawn 16 w) in
  Part001.segment request host u w = (Return tt, w')
  /\ Part000.segment request host u w = (Return tt, w')
  /\ fetches w' = fetches w
  /\ replacedURIs w' = replacedURIs w ++ [uri_of host (next_key w)]
  /\ (forall rq,
        url_pathname (req_url rq) = subscription_path (next_key w) ->
        fst (dispatch rq w')
        = Return (Reply 200 (Lit u) (served_headers text_plain))).
Proof.
  intros Hn w'. pose proof (nodeLink_not_url u Hn) as Hu.
  split; [now apply segment_node|].
  split; [now apply segment000_node|].
  split; [reflexivity|]. split; [reflexivity|].
  intros rq Hp.
  destruct (stored_lookup host (next_key w) u text_plain (drawn 16 w))
    as [L1 L2].
  apply (subscription_served _ _ _ _ _ rq (next_key w) u text_plain);
    auto using generated_key_valid, next_key_generated.
  intros ->. discriminate.
Qed.

End NodeLinks.

Lemma node_link_stored_witness :
  let rq := sub_request (str "trojan://pw@host:443") in
  Part001.segment rq (str "https://example.com") (str "trojan://pw@host:443")
    offline
  = (Return tt,
     stored (str "https://example.com") (str "abcdefghijklmnop")
       (str "trojan://pw@host:443") text_plain (drawn 16 offline)).
Proof.
  intros rq.
  exact (proj1 (node_link_stored parse_nothing empty_page empty_page
                  default_backend Part001.processSubscription rq
                  (str "https://example.com") (str "trojan://pw@host:443")
                  offline eq_refl)).
Defined.

Lemma other_segment_throws (host key u : jsstring) (e : exn) (w : world) :
  atob (remove_spaces u) = Throw e ->
  Part001.other_segment host key u w
  = (Return tt, stored host key u text_plain w).
Proof.
  intros Ha. unfold Part001.other_segment, catch, bind, lift.
  now rewrite Ha.
Qed.

(** X5: in [part_001] a segment that is neither a URL nor a node link
    and that [atob] rejects - in particular any segment with a code unit
    outside the base64 alphabet and the whitespace - is stored as it is
    under the next generated key with [Content-Type: text/plain] and
    appends one URI, without a [fetch]. *)
Theorem opaque_segment_stored (request : request) (host u : jsstring)
    (w : world) :
  is_url u = false -> nodeLink_test u = false ->
  (exists e, atob (remove_spaces u) = Throw e)
  \/ (exists c, In c u /\ base64_class c = false) ->
  let w' := stored host (next_key w) u text_plain (drawn 16 w) in
  Part001.segment request host u w = (Return tt, w')
  /\ fetches w' = fetches w
  /\ replacedURIs w' = replacedURIs w ++ [uri_of host (next_key w)]
  /\ memoryCache w' !! next_key w = Some (Lit u).
Proof.
  intros Hu Hn Hbad w'.
  assert (Ha : exists e, atob (remove_spaces u) = Throw e).
  { destruct Hbad as [H|(c & Hin & Hc)]; [exact H|].
    eexists. now apply (atob_foreign u c). }
  destruct Ha as [e Ha].
  split.
  - rewrite segment_other by assumption. now apply (other_segment_throws _ _ _ e).
  - split; [reflexivity|]. split; [reflexivity|].
    apply (stored_lookup host (next_key w) u text_plain (drawn 16 w)).
Qed.

Lemma opaque_segment_stored_witness :
  let rq := sub_request (str "hello, world!") in
  Part001.segment rq (str "https://example.com") (str "hello, world!") offline
  = (Return tt,
     stored (str "https://example.com") (str "abcdefghijklmnop")
       (str "hello, world!") text_plain (drawn 16 offline)).
Proof.
  intros rq.
  refine (proj1 (opaque_segment_stored rq (str "https://example.com")
                   (str "hello, world!") offline eq_refl eq_refl _)).
  right. exists 33. split; [|reflexivity]. vm_compute. tauto.
Defined.

Lemma segment000_other (request : request) (host u : jsstring) (w : world) :
  is_url u = false -> nodeLink_test u = false ->
  Part000.segment request host u w = (Return tt, drawn 16 w).
Proof.
  intros Hu Hn. unfold Part000.segment, bind. rewrite generateRandomStr_run.
  unfold is_url in Hu. now rewrite Hu, Hn.
Qed.

(** X6: in [part_000] a segment that is neither a URL nor a node link is
    dropped: a key is drawn, and nothing is stored, appended or
    fetched. *)
Theorem part000_other_segment_dropped (request : request) (host u : jsstring)
    (w : world) :
  is_url u = false -> nodeLink_test u = false ->
  Part000.segment request host u w = (Return tt, drawn 16 w)
  /\ memoryCache (drawn 16 w) = memoryCache w
  /\ replacedURIs (drawn 16 w) = replacedURIs w
  /\ fetches (drawn 16 w) = fetches w
  /\ trace (drawn 16 w) = trace w.
Proof.
  intros Hu Hn. split; [now apply segment000_other|]. repeat split.
Qed.

Lemma part000_other_segment_dropped_witness :
  Part000.segment (sub_request encoded_link) (str "https://example.com")
    encoded_link offline
  = (Return tt, drawn 16 offline).
Proof.
  exact (proj1 (part000_other_segment_dropped (sub_request encoded_link)
                  (str "https://example.com") encoded_link offline
                  eq_refl eq_refl)).
Defined.

Lemma store_links_fetches (host : jsstring) (v : jsval) (w : world) :
  fetches (snd (store_links host v w)) = fetches w.
Proof.
  destruct v as [d| | | |]; try reflexivity.
  rewrite store_links_run. apply stored_links_frame.
Qed.

(** X7: only a segment that begins with [https://] or [http://] can
    cause a network call: for any other segment neither variant makes a
    [fetch]. *)
Theorem non_url_never_fetches (request : request) (host u : jsstring)
    (w : world) :
  is_url u = false ->
  fetches (snd (Part001.segment request host u w)) = fetches w
  /\ fetches (snd (Part000.segment request host u w)) = fetches w.
Proof.
  intros Hu. split.
  - destruct (nodeLink_test u) eqn:Hn.
    + now rewrite segment_node.
    + rewrite segment_other by assumption.
      unfold Part001.other_segment. rewrite snd_catch.
      set (body := (decoded <- lift (atob (remove_spaces u)) ;;
                    parsed <- lift (parseData (JStr decoded)) ;;
                    match fmt parsed with
                    | base64 => store_links host (data parsed)
                    | _ => ret tt
                    end)).
      assert (Hbody : fetches (snd (body (drawn 16 w))) = fetches w).
      { unfold body. rewrite snd_bind. unfold lift at 1 2. cbn [fst snd].
        destruct (atob (remove_spaces u)) as [decoded|e]; [|reflexivity].
        rewrite snd_bind. unfold lift at 1 2. cbn [fst snd].
        destruct (parseData (JStr decoded)) as [p|e]; [|reflexivity].
        destruct (fmt p); try reflexivity.
        now rewrite store_links_fetches. }
      destruct (fst (body (drawn 16 w))); [exact Hbody|].
      rewrite store_one_run. exact Hbody.
  - destruct (nodeLink_test u) eqn:Hn.
    + now rewrite segment000_node.
    + now rewrite segment000_other.
Qed.

Lemma non_url_never_fetches_witness :
  fetches (snd (Part001.segment (sub_request encoded_link)
                  (str "https://example.com") encoded_link online))
  = 0%nat.
Proof.
  exact (proj1 (non_url_never_fetches (sub_request encoded_link)
                  (str "https://example.com") encoded_link online eq_refl)).
Defined.

(** ** The two variants on URLs and node links *)

Lemma url_segment_same (request : request) (host key u : jsstring) (w : world) :
  Part000.url_segment request host key u w
  = Part001.url_segment request host key u w.
Proof.
  unfold Part000.url_segment, Part001.url_segment, catch, bind.
  destruct (fetch u (subscription_fetch_headers request) w) as [[r|e] w1];
    [|reflexivity].
  destruct (negb (resp_ok r)); [reflexivity|].
  destruct (lift (resp_text r) w1) as [[content|e] w2]; [|reflexivity].
  destruct (blank content); [reflexivity|].
  destruct (lift (parseData (JStr content)) w2) as [[p|e] w3]; [|reflexivity].
  destruct (cache_set _ _ w3) as [[[]|e] w4]; [|reflexivity].
  destruct (fmt p); reflexivity.
Qed.

Lemma segment_same (request : request) (host u : jsstring) (w : world) :
  plain_segment u ->
  Part000.segment request host u w = Part001.segment request host u w.
Proof.
  intros Hu. unfold Part000.segment, Part001.segment, bind.
  rewrite generateRandomStr_run.
  destruct (startsWith u (str "https://") || startsWith u (str "http://"))
    eqn:E.
  - apply url_segment_same.
  - destruct Hu as [Hu|Hn]; [unfold is_url in Hu; congruence|].
    now rewrite Hn.
Qed.

Lemma for_of_ext {A} (l : list A) (f g : A -> M unit) :
  Forall (fun x => forall w, f x w = g x w) l ->
  forall w, for_of l f w = for_of l g w.
Proof.
  intros Hl. induction Hl as [|x l Hx Hl IH]; intros w; [reflexivity|].
  cbn [for_of]. unfold bind. rewrite Hx.
  destruct (g x w) as [[[]|e] w1]; [apply IH|reflexivity].
Qed.

(** X8: without a [target] (absent or empty), the two variants answer a
    request in the same way and leave the same world whenever every
    segment is a URL or a node link: they differ only on the segments
    that are neither. *)
Theorem variants_agree (request : request) (url : URL) (backend : jsstring)
    (w : world) :
  (searchParams_get url (str "target") = None
   \/ searchParams_get url (str "target") = Some []) ->
  (forall targetUrl, searchParams_get url (str "url") = Some targetUrl ->
     Forall plain_segment (urlParts_of targetUrl)) ->
  Part000.processSubscription request url backend w
  = Part001.processSubscription request url backend w.
Proof.
  intros Ht Hparts.
  unfold Part000.processSubscription, Part001.processSubscription.
  destruct (searchParams_get url (str "url")) as [[|c t]|] eqn:Eu;
    try reflexivity.
  specialize (Hparts (c :: t) eq_refl).
  assert (Hrun : forall w1,
            (if Nat.eqb (length (urlParts_of (c :: t))) 0
             then ret (Reply 400 (Lit (str "There are no valid links")) [])
             else for_of (urlParts_of (c :: t))
                    (Part000.segment request (getHost request)) ;; finish) w1
            = (if Nat.eqb (length (urlParts_of (c :: t))) 0
               then ret (Reply 400 (Lit (str "There are no valid links")) [])
               else for_of (urlParts_of (c :: t))
                      (Part001.segment request (getHost request)) ;; finish) w1).
  { intros w1. destruct (Nat.eqb (length (urlParts_of (c :: t))) 0);
      [reflexivity|].
    unfold bind. rewrite (for_of_ext _ _ (Part001.segment request (getHost request))).
    - reflexivity.
    - eapply Forall_impl; [exact Hparts|].
      intros u Hu w2. now apply segment_same. }
  unfold bind at 1 3. cbn [new_replacedURIs].
  destruct Ht as [-> | ->]; apply Hrun.
Qed.

Lemma variants_agree_witness :
  let rq := sub_request two_links in
  Part000.processSubscription rq (req_url rq) default_backend offline
  = Part001.processSubscription rq (req_url rq) default_backend offline.
Proof.
  intros rq.
  refine (variants_agree rq (req_url rq) default_backend offline _ _).
  - left. reflexivity.
  - intros targetUrl [= <-].
    change (urlParts_of two_links) with [str "vmess://abc"; str "vless://xyz"].
    repeat constructor; right; reflexivity.
Defined.

(** ** One URI per node, in order *)

Lemma for_of_node_links (request : request) (host : jsstring)
    (parts : list jsstring) (w : world) :
  Forall (fun u => nodeLink_test u = true) parts ->
  for_of parts (Part001.segment request host) w
  = (Return tt, stored_links host parts w).
Proof.
  intros Hp. revert w. induction Hp as [|u parts Hu Hp IH]; intros w;
    [reflexivity|].
  cbn [for_of stored_links].
  rewrite (bind_run _ _ w
             (stored host (next_key w) u text_plain (drawn 16 w)) tt).
  - apply IH.
  - apply segment_node; [now apply nodeLink_not_url|exact Hu].
Qed.

(** X9: when every segment of the [url] parameter is a node link, the
    resolver makes no [fetch] and the output list is one URI per
    segment, in the order of the segments, each with the key generated
    from the next 16 draws; the request is not answered
    [AllLinksInvalid]. *)
Theorem node_links_resolved (request : request) (url : URL)
    (backend targetUrl : jsstring) (w : world) :
  searchParams_get url (str "url") = Some targetUrl ->
  urlParts_of targetUrl <> [] ->
  Forall (fun u => nodeLink_test u = true) (urlParts_of targetUrl) ->
  let out := Part001.processSubscription request url backend w in
  replacedURIs (snd out)
  = map (uri_of (getHost request))
      (next_keys (Math_random w) (draws w) (length (urlParts_of targetUrl)))
  /\ fetches (snd out) = fetches w
  /\ fst out <> Return all_invalid.
Proof.
  intros Hget Hne Hall out. unfold out.
  rewrite (processSubscription_run request url backend targetUrl)
    by assumption.
  rewrite (bind_run _ _ _ _ _
             (for_of_node_links request (getHost request) _ (fresh_list w) Hall)).
  rewrite finish_snd.
  destruct (stored_links_frame (getHost request) (urlParts_of targetUrl)
              (fresh_list w)) as (Hf & _ & _ & _).
  split; [|split].
  - now rewrite stored_links_uris.
  - exact Hf.
  - apply finish_nonempty. rewrite stored_links_uris.
    destruct (urlParts_of targetUrl); [congruence|discriminate].
Qed.

Lemma node_links_resolved_witness :
  let rq := sub_request two_links in
  replacedURIs (snd (Part001.processSubscription rq (req_url rq)
                       default_backend offline))
  = [uri_of (str "https://example.com") (str "abcdefghijklmnop");
     uri_of (str "https://example.com") (str "qrstuvwxyz012345")].
Proof.
  intros rq.
  refine (proj1 (node_links_resolved rq (req_url rq) default_backend two_links
                   offline eq_refl _ _)).
  - discriminate.
  - change (urlParts_of two_links) with [str "vmess://abc"; str "vless://xyz"].
    constructor; [reflexivity|]. constructor; [reflexivity|]. constructor.
Defined.

(** X10: when the body fetched from a URL segment is classified
    [base64], the branch appends one URI per non-blank line of the
    decoded text, in the order of the lines, each under a key of its
    own, and writes the line itself under that key with
    [Content-Type: text/plain]; the segment costs exactly one [fetch]. *)
Theorem base64_body_exploded (request : request)
    (host key u content d : jsstring) (r : response) (w : world) :
  network w (fetches w) u (subscription_fetch_headers request) = Return r ->
  resp_ok r = true -> resp_text r = Return content -> blank content = false ->
  parseData (JStr content) = Return (Payload base64 (JStr d)) ->
  let w' := snd (Part001.url_segment request host key u w) in
  let keys := next_keys (Math_random w) (draws w) (length (links_of d)) in
  replacedURIs w' = replacedURIs w ++ map (uri_of host) keys
  /\ length keys = length (links_of d)
  /\ (forall i link k, links_of d !! i = Some link -> keys !! i = Some k ->
        In (ESet k (Lit link)) (trace w')
        /\ In (ESet (k ++ headers_suffix) (Stringified text_plain)) (trace w'))
  /\ fetches w' = S (fetches w).
Proof.
  intros Hnet Hok Htext Hblank Hp w' keys.
  set (w1 := snd (cache_set (key ++ headers_suffix)
                    (Stringified (Object_fromEntries (resp_headers r)))
                    (fetched u (subscription_fetch_headers request) w))).
  assert (Hw' : w' = stored_links host (links_of d) w1).
  { unfold w', Part001.url_segment. rewrite catch_unit.
    rewrite (bind_run _ _ w _ r) by (now rewrite fetch_run, Hnet).
    rewrite Hok. cbn [negb].
    rewrite (bind_run _ _ _ _ content) by (unfold lift; now rewrite Htext).
    rewrite Hblank.
    rewrite (bind_run _ _ _ _ _) by (unfold lift; now rewrite Hp).
    rewrite (bind_run _ _ _ w1 tt) by reflexivity.
    cbn [fmt data]. now rewrite store_links_run. }
  rewrite Hw'.
  destruct (stored_links_frame host (links_of d) w1) as (Hf & _ & _ & _).
  split; [|split; [|split]].
  - rewrite stored_links_uris. reflexivity.
  - unfold keys. generalize (draws w). induction (length (links_of d));
      intros n0; cbn [next_keys length]; [reflexivity|]. now rewrite IHn.
  - intros i link k Hl Hk.
    apply (stored_links_written host (links_of d) w1 i link k Hl Hk).
  - rewrite Hf. reflexivity.
Qed.

Lemma base64_body_exploded_witness :
  let w := World ∅ [] 16 0 [] (fun n => n)
             (fun _ _ _ =>
                Return (Response 200 []
                          (Return (str "dm1lc3M6Ly9hYmMKdmxlc3M6Ly94eXo=")))) in
  replacedURIs
    (snd (Part001.url_segment (sub_request provider_url)
            (str "https://example.com") (str "abcdefghijklmnop") provider_url w))
  = [uri_of (str "https://example.com") (str "qrstuvwxyz012345");
     uri_of (str "https://example.com") (str "6789abcdefghijkl")].
Proof.
  intros w.
  refine (proj1 (base64_body_exploded (sub_request provider_url)
                   (str "https://example.com") (str "abcdefghijklmnop")
                   provider_url (str "dm1lc3M6Ly9hYmMKdmxlc3M6Ly94eXo=")
                   (str (String.append "vmess://abc"
                           (String "010" "vless://xyz")))
                   _ w eq_refl eq_refl eq_refl eq_refl eq_refl)).
Defined.

(** * Further properties: requests without segments, and what persists *)

Lemma trim_all_space (s : jsstring) : all_space s -> trim s = [].
Proof.
  intros Hs. unfold trim.
  rewrite <- (app_nil_r s), trimStart_spaces by exact Hs. reflexivity.
Qed.

Lemma split_on_pieces (sep : N) (s : jsstring) (P : N -> Prop) :
  Forall (fun c => c = sep \/ P c) s ->
  Forall (Forall P) (split_on sep s).
Proof.
  intros Hs. induction Hs as [|c s Hc Hs IH].
  - repeat constructor.
  - cbn [split_on]. destruct (N.eqb_spec c sep) as [->|Hne].
    + constructor; [constructor|exact IH].
    + destruct Hc as [Hc|Hc]; [congruence|].
      destruct (split_on sep s) as [|cur rest].
      * repeat constructor. exact Hc.
      * inversion IH; subst. constructor; [constructor|]; assumption.
Qed.

Lemma urlParts_only_separators (targetUrl : jsstring) :
  only_separators targetUrl -> urlParts_of targetUrl = [].
Proof.
  intros Hs. unfold urlParts_of.
  pose proof (split_on_pieces 124 targetUrl _ Hs) as Hp.
  induction Hp as [|piece l Hpiece Hp IH]; [reflexivity|].
  rewrite filter_cons_False; [exact IH|].
  intros Hne. apply Hne. now apply trim_all_space.
Qed.

Lemma only_separators_check (s : jsstring) :
  forallb (fun c => N.eqb c 124 || is_js_space c) s = true ->
  only_separators s.
Proof.
  intros H. rewrite forallb_forall in H. apply Forall_forall.
  intros c Hc. apply list_elem_of_In in Hc. specialize (H c Hc).
  apply orb_true_iff in H as [H|H]; [left; now apply N.eqb_eq|now right].
Qed.

(** X11: a request without a [url] parameter, or with an empty one, is
    answered 400 [Missing url parameter] by both variants and nothing
    else happens - in [part_000] even when a [target] is given, so the
    backend is not contacted; in [part_001] a [url] parameter made only
    of [|] and whitespace is answered 400 [There are no valid links]
    without a key being drawn, a fetch or a store write. *)
Theorem no_segments_rejected (request : request) (url : URL)
    (backend : jsstring) (w : world) :
  (searchParams_get url (str "url") = None
   \/ searchParams_get url (str "url") = Some [] ->
   let missing := Reply 400 (Lit (str "Missing url parameter")) [] in
   Part001.processSubscription request url backend w = (Return missing, w)
   /\ Part000.processSubscription request url backend w = (Return missing, w))
  /\ (forall targetUrl,
        searchParams_get url (str "url") = Some targetUrl ->
        targetUrl <> [] -> only_separators targetUrl ->
        Part001.processSubscription request url backend w
        = (Return (Reply 400 (Lit (str "There are no valid links")) []),
           fresh_list w)).
Proof.
  split.
  - intros H missing.
    unfold Part001.processSubscription, Part000.processSubscription.
    destruct H as [-> | ->]; split; reflexivity.
  - intros targetUrl Hget Hne Hsep. unfold Part001.processSubscription.
    rewrite Hget. destruct targetUrl as [|c t]; [congruence|].
    rewrite (urlParts_only_separators _ Hsep). reflexivity.
Qed.

Lemma no_segments_rejected_witness :
  let rq := sub_request (str " | ||  ") in
  Part001.processSubscription rq (req_url rq) default_backend offline
  = (Return (Reply 400 (Lit (str "There are no valid links")) []),
     fresh_list offline).
Proof.
  intros rq.
  refine (proj2 (no_segments_rejected rq (req_url rq) default_backend offline)
            (str " | ||  ") eq_refl _ _).
  - discriminate.
  - apply only_separators_check. reflexivity.
Defined.

(** ** What a run of the resolver preserves *)

Section Preserved.

(** A property of the world that the four effects keep. *)
Variable P : world -> Prop.
Hypothesis P_drawn : forall n w, P w -> P (drawn n w).
Hypothesis P_fetched : forall u h w, P w -> P (fetched u h w).
Hypothesis P_set : forall k v w, P w -> P (snd (cache_set k v w)).
Hypothesis P_push : forall uri w, P w -> P (snd (push uri w)).

Lemma stored_preserved (host key content : jsstring) (hdrs : object)
    (w : world) :
  P w -> P (stored host key content hdrs w).
Proof.
  intros Hw.
  apply (P_push (uri_of host key)
           (snd (cache_set (key ++ headers_suffix) (Stringified hdrs)
                   (snd (cache_set key (Lit content) w))))).
  now apply P_set, P_set.
Qed.

Lemma stored_links_preserved (host : jsstring) (links : list jsstring)
    (w : world) :
  P w -> P (stored_links host links w).
Proof.
  revert w. induction links as [|l links IH]; intros w Hw; [exact Hw|].
  cbn [stored_links]. apply IH, stored_preserved, P_drawn, Hw.
Qed.

Lemma store_links_preserved (host : jsstring) (v : jsval) (w : world) :
  P w -> P (snd (store_links host v w)).
Proof.
  intros Hw. destruct v as [d| | | |]; try exact Hw.
  rewrite store_links_run. now apply stored_links_preserved.
Qed.

Lemma url_segment_preserved (request : request) (host key u : jsstring)
    (w : world) :
  P w -> P (snd (Part001.url_segment request host key u w)).
Proof.
  intros Hw. unfold Part001.url_segment. rewrite catch_unit, snd_bind.
  rewrite fetch_run. cbn [fst snd].
  pose proof (P_fetched u (subscription_fetch_headers request) w Hw) as Hf.
  destruct (network w (fetches w) u (subscription_fetch_headers request))
    as [r|e]; [|exact Hf].
  destruct (resp_ok r); cbn [negb]; [|exact Hf].
  rewrite snd_bind. unfold lift at 1. cbn [fst snd].
  destruct (resp_text r) as [content|e]; [|exact Hf].
  destruct (blank content); [exact Hf|].
  rewrite snd_bind. unfold lift at 1. cbn [fst snd].
  destruct (parseData (JStr content)) as [p|e]; [|exact Hf].
  rewrite snd_bind. cbn [cache_set fst].
  pose proof (P_set (key ++ headers_suffix)
                (Stringified (Object_fromEntries (resp_headers r))) _ Hf) as Hs.
  destruct (fmt p); try (rewrite store_one_run; now apply stored_preserved).
  now apply store_links_preserved.
Qed.

Lemma other_segment_preserved (host key u : jsstring) (w : world) :
  P w -> P (snd (Part001.other_segment host key u w)).
Proof.
  intros Hw. unfold Part001.other_segment. rewrite snd_catch.
  set (body := (decoded <- lift (atob (remove_spaces u)) ;;
                parsed <- lift (parseData (JStr decoded)) ;;
                match fmt parsed with
                | base64 => store_links host (data parsed)
                | _ => ret tt
                end)).
  assert (Hbody : P (snd (body w))).
  { unfold body. rewrite snd_bind. unfold lift at 1 2. cbn [fst snd].
    destruct (atob (remove_spaces u)) as [decoded|e]; [|exact Hw].
    rewrite snd_bind. unfold lift at 1 2. cbn [fst snd].
    destruct (parseData (JStr decoded)) as [p|e]; [|exact Hw].
    destruct (fmt p); try exact Hw. now apply store_links_preserved. }
  destruct (fst (body w)); [exact Hbody|].
  rewrite store_one_run. now apply stored_preserved.
Qed.

Lemma segment_preserved (request : request) (host u : jsstring) (w : world) :
  P w ->
  P (snd (Part001.segment request host u w))
  /\ P (snd (Part000.segment request host u w)).
Proof.
  intros Hw. unfold Part001.segment, Part000.segment.
  rewrite !(bind_run _ _ w (drawn 16 w) (next_key w))
    by apply generateRandomStr_run.
  pose proof (P_drawn 16 w Hw) as Hd.
  destruct (startsWith u (str "https://") || startsWith u (str "http://")).
  - split; now apply (url_segment_preserved request host (next_key w) u).
  - destruct (nodeLink_test u).
    + split;
        now apply (stored_preserved host (next_key w) u text_plain (drawn 16 w)).
    + split; [now apply other_segment_preserved|exact Hd].
Qed.

Lemma for_of_preserved (request : request) (host : jsstring)
    (l : list jsstring) (w : world) :
  P w ->
  P (snd (for_of l (Part001.segment request host) w))
  /\ P (snd (for_of l (Part000.segment request host) w)).
Proof.
  revert w. induction l as [|u l IH]; intros w Hw; [now split|].
  cbn [for_of]. rewrite !snd_bind.
  destruct (segment_preserved request host u w Hw) as [H1 H0].
  split.
  - destruct (fst (Part001.segment request host u w));
      [exact (proj1 (IH _ H1))|exact H1].
  - destruct (fst (Part000.segment request host u w));
      [exact (proj2 (IH _ H0))|exact H0].
Qed.

Hypothesis P_fresh : forall w, P w -> P (fresh_list w).

Lemma processSubscription_preserved (request : request) (url : URL)
    (backend : jsstring) (w : world) :
  P w ->
  P (snd (Part001.processSubscription request url backend w))
  /\ P (snd (Part000.processSubscription request url backend w)).
Proof.
  intros Hw. unfold Part001.processSubscription, Part000.processSubscription.
  destruct (searchParams_get url (str "url")) as [[|c t]|]; try now split.
  assert (Hloop : forall seg,
            P (snd (for_of (urlParts_of (c :: t)) seg (fresh_list w))) ->
            P (snd ((new_replacedURIs ;;
                     (if Nat.eqb (length (urlParts_of (c :: t))) 0
                      then ret (Reply 400 (Lit (str "There are no valid links")) [])
                      else for_of (urlParts_of (c :: t)) seg ;; finish)) w))).
  { intros seg Hseg.
    rewrite (bind_run _ _ w (fresh_list w) tt) by reflexivity.
    destruct (Nat.eqb (length (urlParts_of (c :: t))) 0);
      [now apply P_fresh|].
    rewrite snd_bind.
    destruct (fst (for_of (urlParts_of (c :: t)) seg (fresh_list w)));
      [now rewrite finish_snd|exact Hseg]. }
  destruct (for_of_preserved request (getHost request) (urlParts_of (c :: t))
              (fresh_list w) (P_fresh w Hw)) as [H1 H0].
  split; [now apply Hloop|].
  destruct (searchParams_get url (str "target")) as [[|c' t']|];
    try now apply Hloop.
  rewrite forwardToBackend_world. now apply P_fetched.
Qed.

End Preserved.

(** X12: the store only grows: whatever a request to [/sub] does, in
    either variant, every key that had an entry before still has one
    afterwards (its value may have been overwritten by a colliding
    key). *)
Theorem store_only_grows (request : request) (url : URL) (backend : jsstring)
    (w : world) :
  keeps_entries w (snd (Part001.processSubscription request url backend w))
  /\ keeps_entries w (snd (Part000.processSubscription request url backend w)).
Proof.
  apply (processSubscription_preserved (keeps_entries w)); try (intros; assumption).
  - intros k v w1 H key Hkey. cbn [cache_set snd memoryCache].
    destruct (decide (k = key)) as [->|Hne].
    + rewrite lookup_insert_eq. eauto.
    + rewrite lookup_insert_ne by assumption. now apply H.
  - intros key Hkey. exact Hkey.
Qed.

(** * Further properties: the dispatcher and [GET /subscription/{key}] *)

Section Routes.

Variable JSON_parse_units : jsstring -> Exc object.
Variables rootEndpoint versionEndpoint : request -> M reply.
Variable BACKEND : jsstring.
Variable processSubscription : request -> URL -> jsstring -> M reply.

Local Abbreviation dispatch :=
  (handler JSON_parse_units rootEndpoint versionEndpoint BACKEND
     processSubscription).

Lemma subscriptionEndpoint_world (url : URL) (w : world) :
  let w' := snd (subscriptionEndpoint JSON_parse_units url w) in
  memoryCache w' = memoryCache w /\ replacedURIs w' = replacedURIs w
  /\ draws w' = draws w /\ fetches w' = fetches w.
Proof.
  unfold subscriptionEndpoint.
  destruct (bool_decide _ || includes _ (str "/") || includes _ (str ".."));
    [repeat split|].
  unfold bind, cache_get. cbn [fst snd memoryCache].
  destruct (memoryCache w !! _) as [c|]; [|repeat split].
  destruct (falsy c); [repeat split|].
  destruct (memoryCache w !! _) as [h|]; [|repeat split].
  destruct (falsy h); [repeat split|].
  unfold lift. destruct (JSON_parse JSON_parse_units h); repeat split.
Qed.

(** X13: [GET /subscription/{key}] only reads: whatever the key and the
    store, the store, the output list, the random source and the fetch
    counter are as before. *)
Theorem subscription_read_only (request : request) (key : jsstring)
    (w : world) :
  url_pathname (req_url request) = subscription_path key ->
  let w' := snd (dispatch request w) in
  memoryCache w' = memoryCache w /\ replacedURIs w' = replacedURIs w
  /\ draws w' = draws w /\ fetches w' = fetches w.
Proof.
  intros Hp. rewrite (handler_subscription _ _ _ _ _ _ key Hp).
  apply subscriptionEndpoint_world.
Qed.

(** X14: a non-empty content whose headers entry is missing is served
    with the default [Content-Type: text/plain;charset=UTF-8]; and every
    entry that is served carries [Access-Control-Allow-Origin: *],
    whatever its stored headers say. *)
Theorem subscription_default_headers (request : request)
    (key content : jsstring) (w : world) :
  url_pathname (req_url request) = subscription_path key ->
  ~ invalid_key key -> content <> [] ->
  memoryCache w !! key = Some (Lit content) ->
  (memoryCache w !! (key ++ headers_suffix) = None ->
   fst (dispatch request w)
   = Return (Reply 200 (Lit content)
               [(content_type, str "text/plain;charset=UTF-8");
                (allow_origin, str "*")]))
  /\ (forall hdrs,
        memoryCache w !! (key ++ headers_suffix) = Some (Stringified hdrs) ->
        exists served,
          fst (dispatch request w) = Return (Reply 200 (Lit content) served)
          /\ obj_get served allow_origin = Some (str "*")).
Proof.
  intros Hp Hok Hc Hk. split.
  - intros Hnone. rewrite (handler_subscription _ _ _ _ _ _ key Hp).
    unfold subscriptionEndpoint. rewrite (subscription_key _ key Hp).
    assert (Hcond : bool_decide (key = []) || includes key (str "/")
                    || includes key (str "..") = false).
    { unfold invalid_key in Hok.
      destruct (includes key (str "/")); [tauto|].
      destruct (includes key (str "..")); [tauto|].
      rewrite bool_decide_eq_false_2; [reflexivity|tauto]. }
    rewrite Hcond. unfold bind, cache_get. cbn [memoryCache fst snd].
    rewrite Hk. destruct content as [|c content]; [congruence|].
    cbn [falsy]. cbv beta. rewrite Hnone. reflexivity.
  - intros hdrs Hh. exists (served_headers hdrs). split.
    + now apply (subscription_served _ _ _ _ _ request key content hdrs).
    + unfold served_headers. clear.
      induction hdrs as [|[a b] hdrs IH]; [reflexivity|].
      cbn [obj_set]. destruct (jsstring_eqb a allow_origin) eqn:E;
        cbn [obj_get].
      * reflexivity.
      * rewrite E. exact IH.
Qed.

(** X15: the headers entries live in the same store as the contents:
    [GET /subscription/{key}_headers] for a stored entry answers 200
    with the JSON text of that entry's headers as the body. *)
Theorem headers_entry_exposed (request : request) (key : jsstring)
    (hdrs : object) (w : world) :
  url_pathname (req_url request) = subscription_path (key ++ headers_suffix) ->
  generated_key key ->
  memoryCache w !! (key ++ headers_suffix) = Some (Stringified hdrs) ->
  memoryCache w !! (key ++ headers_suffix ++ headers_suffix) = None ->
  fst (dispatch request w)
  = Return (Reply 200 (Stringified hdrs)
              (served_headers text_plain_utf8)).
Proof.
  intros Hp [Hlen Hall] Hh Hnone.
  rewrite (handler_subscription _ _ _ _ _ _ _ Hp).
  unfold subscriptionEndpoint. rewrite (subscription_key _ _ Hp).
  assert (Hin : forall c, In c (key ++ headers_suffix) ->
                          c <> 47 /\ c <> 46).
  { intros c Hc. apply in_app_or in Hc as [Hc|Hc].
    - rewrite Forall_forall in Hall. apply list_elem_of_In in Hc.
      specialize (Hall c Hc). split; intros ->; vm_compute in Hall;
        intuition discriminate.
    - split; intros ->; vm_compute in Hc; intuition discriminate. }
  assert (Hcond : bool_decide (key ++ headers_suffix = [])
                  || includes (key ++ headers_suffix) (str "/")
                  || includes (key ++ headers_suffix) (str "..") = false).
  { rewrite bool_decide_eq_false_2
      by (intros H; apply (f_equal (@length N)) in H;
          rewrite length_app in H; cbn in H; lia).
    destruct (includes _ (str "/")) eqn:E1.
    { exfalso. assert (In 47 (key ++ headers_suffix))
        by (eapply includes_In; [exact E1|vm_compute; tauto]).
      now destruct (Hin 47 H). }
    destruct (includes _ (str "..")) eqn:E2; [|reflexivity].
    exfalso. assert (In 46 (key ++ headers_suffix))
      by (eapply includes_In; [exact E2|vm_compute; tauto]).
    now destruct (Hin 46 H). }
  rewrite Hcond. unfold bind, cache_get. cbn [memoryCache fst snd].
  rewrite Hh. cbn [falsy]. cbv beta. rewrite <- app_assoc, Hnone.
  reflexivity.
Qed.

(** X16: the routes in the order of the tests: a path that begins with
    [/sub] but not with [/subscription/] - [/sub] itself, [/sub/],
    [/subscription] without the slash, [/subs] - is handled by
    [processSubscription]; a path that is not [/], not empty, not
    [/version] and does not begin with [/sub] is answered 404
    [Not found] and the world is left as it was. *)
Theorem routes (request : request) (w : world) :
  let path := url_pathname (req_url request) in
  (startsWith path (str "/sub") = true ->
   startsWith path (str "/subscription/") = false ->
   dispatch request w = processSubscription request (req_url request) BACKEND w)
  /\ (path <> str "/" -> path <> [] -> path <> str "/version" ->
      startsWith path (str "/sub") = false ->
      dispatch request w
      = (Return (Reply 404 (Lit (str "Not found")) []), w)).
Proof.
  intros path. split.
  - intros Hsub Hnot.
    assert (H1 : path <> str "/") by (intros E; rewrite E in Hsub; discriminate).
    assert (H2 : path <> []) by (intros E; rewrite E in Hsub; discriminate).
    assert (H3 : path <> str "/version")
      by (intros E; rewrite E in Hsub; discriminate).
    unfold handler. fold path.
    rewrite !bool_decide_eq_false_2 by assumption. cbn [orb].
    rewrite Hnot, Hsub. now rewrite orb_true_r.
  - intros H1 H2 H3 Hsub.
    assert (Hnot : startsWith path (str "/subscription/") = false).
    { destruct (startsWith path (str "/subscription/")) eqn:E; [|reflexivity].
      apply startsWith_split in E. rewrite E in Hsub.
      revert Hsub. generalize (skipn (length (str "/subscription/")) path).
      intros rest. discriminate. }
    assert (H4 : path <> str "/sub")
      by (intros E; rewrite E in Hsub; discriminate).
    unfold handler. fold path.
    rewrite !bool_decide_eq_false_2 by assumption. cbn [orb].
    now rewrite Hnot, Hsub.
Qed.

End Routes.

Lemma subscription_read_only_witness :
  memoryCache
    (snd (handler parse_nothing empty_page empty_page default_backend
            Part001.processSubscription
            (get_subscription (str "example.com") (str "abcdefghijklmnop"))
            one_stored))
  = memoryCache one_stored.
Proof.
  exact (proj1 (subscription_read_only parse_nothing empty_page empty_page
                  default_backend Part001.processSubscription
                  (get_subscription (str "example.com") (str "abcdefghijklmnop"))
                  (str "abcdefghijklmnop") one_stored eq_refl)).
Defined.

Lemma subscription_default_headers_witness :
  fst (handler parse_nothing empty_page empty_page default_backend
         Part001.processSubscription
         (get_subscription (str "example.com") (str "abcdefghijklmnop"))
         bare_entry)
  = Return (Reply 200 (Lit (str "vmess://abc"))
              [(content_type, str "text/plain;charset=UTF-8");
               (allow_origin, str "*")]).
Proof.
  refine (proj1 (subscription_default_headers parse_nothing empty_page
                   empty_page default_backend Part001.processSubscription
                   (get_subscription (str "example.com") (str "abcdefghijklmnop"))
                   (str "abcdefghijklmnop") (str "vmess://abc") bare_entry
                   eq_refl _ _ eq_refl) eq_refl).
  - intros [H|[H|H]]; vm_compute in H; discriminate.
  - discriminate.
Defined.

Lemma headers_entry_exposed_witness :
  fst (handler parse_nothing empty_page empty_page default_backend
         Part001.processSubscription
         (get_subscription (str "example.com")
            (str "abcdefghijklmnop" ++ headers_suffix))
         one_stored)
  = Return (Reply 200 (Stringified text_plain)
              (served_headers text_plain_utf8)).
Proof.
  refine (headers_entry_exposed parse_nothing empty_page empty_page
            default_backend Part001.processSubscription
            (get_subscription (str "example.com")
               (str "abcdefghijklmnop" ++ headers_suffix))
            (str "abcdefghijklmnop") text_plain one_stored
            eq_refl _ eq_refl eq_refl).
  split; [reflexivity|].
  apply Forall_forall. intros c Hc. apply list_elem_of_In in Hc.
  vm_compute in Hc. vm_compute. intuition.
Defined.

Lemma routes_witness :
  let h := handler parse_nothing empty_page empty_page default_backend
             Part001.processSubscription in
  h (subscription_request (str "/subscription")) offline
  = Part001.processSubscription (subscription_request (str "/subscription"))
      (req_url (subscription_request (str "/subscription"))) default_backend
      offline
  /\ h (subscription_request (str "/favicon.ico")) offline
     = (Return (Reply 404 (Lit (str "Not found")) []), offline).
Proof.
  intros h. split.
  - exact (proj1 (routes parse_nothing empty_page empty_page default_backend
                    Part001.processSubscription
                    (subscription_request (str "/subscription")) offline)
             eq_refl eq_refl).
  - refine (proj2 (routes parse_nothing empty_page empty_page default_backend
                     Part001.processSubscription
                     (subscription_request (str "/favicon.ico")) offline)
              _ _ _ eq_refl); discriminate.
Defined.

(** * Further properties: the backend forwarder *)

(** X17: how [forwardToBackend] fails: when the [fetch] throws, or the
    body cannot be read, the answer is 500 with the message of the error
    after [Error forwarding to backend: ]; when the backend answers with
    a status from 300 to 599 other than 304, the answer has that same
    status and the body [Backend error: ] followed by the status; in
    every case the only effect is the one [fetch]. *)
Theorem backend_failure_surfaced (request : request) (url : URL)
    (backend host dir : jsstring) (w : world) :
  let outcome := network w (fetches w) (backendUrl_of backend url)
                   (backend_fetch_headers request) in
  let out := Part000.forwardToBackend request url backend host dir w in
  let failed e := Reply 500
                    (Lit (str "Error forwarding to backend: " ++ message e)) [] in
  snd out = fetched (backendUrl_of backend url) (backend_fetch_headers request) w
  /\ (forall e, outcome = Throw e -> fst out = Return (failed e))
  /\ (forall r e, outcome = Return r -> resp_ok r = true ->
        resp_text r = Throw e -> fst out = Return (failed e))
  /\ (forall r, outcome = Return r ->
        (300 <= resp_status r <= 599)%Z -> resp_status r <> 304%Z ->
        fst out
        = Return (Reply (resp_status r)
                    (Lit (str "Backend error: "
                          ++ number_toString (resp_status r))) [])).
Proof.
  intros outcome out failed. split; [apply forwardToBackend_world|].
  unfold out, Part000.forwardToBackend, catch.
  fold (backendUrl_of backend url). fold (backend_fetch_headers request).
  split; [|split].
  - intros e He. rewrite (bind_throw _ _ w _ e) by (now rewrite fetch_run; fold outcome; rewrite He).
    reflexivity.
  - intros r e Hr Hok Ht.
    rewrite (bind_run _ _ w _ r) by (now rewrite fetch_run; fold outcome; rewrite Hr).
    rewrite Hok. cbn [negb].
    rewrite (bind_throw _ _ _ _ e) by (unfold lift; now rewrite Ht).
    reflexivity.
  - intros r Hr Hrange H304.
    rewrite (bind_run _ _ w _ r) by (now rewrite fetch_run; fold outcome; rewrite Hr).
    assert (Hok : resp_ok r = false).
    { unfold resp_ok. apply andb_false_iff. right. apply Z.leb_gt. lia. }
    rewrite Hok. cbn [negb]. unfold lift, new_Response.
    replace (resp_status r <? 200)%Z with false by (symmetry; apply Z.ltb_ge; lia).
    replace (599 <? resp_status r)%Z with false by (symmetry; apply Z.ltb_ge; lia).
    replace (resp_status r =? 204)%Z with false by (symmetry; apply Z.eqb_neq; lia).
    replace (resp_status r =? 205)%Z with false by (symmetry; apply Z.eqb_neq; lia).
    replace (resp_status r =? 304)%Z with false by (symmetry; apply Z.eqb_neq; lia).
    reflexivity.
Qed.

Lemma backend_failure_surfaced_witness :
  let rq := forward_request (str "example.com") in
  fst (Part000.forwardToBackend rq (req_url rq) default_backend (getHost rq)
         subDir offline)
  = Return (Reply 500
              (Lit (str "Error forwarding to backend: fetch failed")) [])
  /\ fst (Part000.forwardToBackend rq (req_url rq) default_backend (getHost rq)
            subDir (backend_status 404))
     = Return (Reply 404 (Lit (str "Backend error: 404")) []).
Proof.
  intros rq. split.
  - exact (proj1 (proj2 (backend_failure_surfaced rq (req_url rq)
                           default_backend (getHost rq) subDir offline))
             (FetchError (str "fetch failed")) eq_refl).
  - refine (proj2 (proj2 (proj2 (backend_failure_surfaced rq (req_url rq)
                     default_backend (getHost rq) subDir (backend_status 404))))
              _ eq_refl _ _).
    + cbn. lia.
    + cbn. lia.
Defined.

(** ** Bodies without a placeholder *)

Lemma includes_cons (c : N) (s p : jsstring) :
  includes (c :: s) p = false ->
  startsWith (c :: s) p = false /\ includes s p = false.
Proof. cbn [includes]. apply orb_false_iff. Qed.

Lemma replace_all_from_absent (pat rep seen s : jsstring) :
  includes s pat = false -> replace_all_from pat rep seen 0 s = s.
Proof.
  revert seen. induction s as [|c s IH]; intros seen H; [reflexivity|].
  apply includes_cons in H as [Hs Hi].
  cbn [replace_all_from]. rewrite Hs. f_equal. now apply IH.
Qed.

Lemma includes_prefixed (x t q : jsstring) :
  includes t q = true -> includes (x ++ t) q = true.
Proof.
  intros H. induction x as [|c x IH]; [exact H|].
  cbn [app includes]. rewrite IH. apply orb_true_r.
Qed.

Lemma includes_begins (s q : jsstring) :
  startsWith s q = true -> includes s q = true.
Proof. intros H. destruct s; cbn [includes]; now rewrite H. Qed.

Lemma includes_longer (s x q : jsstring) :
  includes s (x ++ q) = true -> includes s q = true.
Proof.
  induction s as [|c s IH]; intros H.
  - destruct x; [exact H|discriminate].
  - cbn [includes] in H. apply orb_true_iff in H as [H|H].
    + apply startsWith_split in H. rewrite H, <- app_assoc.
      apply includes_prefixed, includes_begins, startsWith_app.
    + cbn [includes]. rewrite (IH H). apply orb_true_r.
Qed.

(** X18: a body that mentions neither placeholder domain goes through
    the four replacements unchanged, whatever the origin and the host of
    the request are. *)
Theorem rewrite_domains_absent (origin host body : jsstring) :
  includes body placeholder_friendly = false ->
  includes body placeholder_backend = false ->
  rewrite_domains origin host body = body.
Proof.
  intros H1 H2.
  assert (F1 : includes body (str "https://" ++ placeholder_friendly) = false).
  { destruct (includes body (str "https://" ++ placeholder_friendly)) eqn:E;
      [|reflexivity].
    apply includes_longer in E. congruence. }
  assert (F2 : includes body (str "https://" ++ placeholder_backend) = false).
  { destruct (includes body (str "https://" ++ placeholder_backend)) eqn:E;
      [|reflexivity].
    apply includes_longer in E. congruence. }
  unfold rewrite_domains, replace_all.
  rewrite (replace_all_from_absent _ _ _ body F1).
  rewrite (replace_all_from_absent _ _ _ body H1).
  rewrite (replace_all_from_absent _ _ _ body F2).
  now rewrite (replace_all_from_absent _ _ _ body H2).
Qed.

Lemma rewrite_domains_absent_witness :
  rewrite_domains (str "https://a$&b.example") (str "a$&b.example")
    (str "proxies: [] # see https://example.org")
  = str "proxies: [] # see https://example.org".
Proof.
  exact (rewrite_domains_absent (str "https://a$&b.example")
           (str "a$&b.example") (str "proxies: [] # see https://example.org")
           eq_refl eq_refl).
Defined.

(** ** No placeholder is left *)

Lemma includes_app_no_start (r t q : jsstring) :
  no_start r q = true -> includes (r ++ t) q = true -> includes t q = true.
Proof.
  induction r as [|c r IH]; intros Hr H; [exact H|].
  cbn [no_start] in Hr.
  apply andb_true_iff in Hr as [Hr Hr']. apply andb_true_iff in Hr as [H1 H2].
  apply negb_true_iff in H1, H2.
  cbn [app includes] in H. apply orb_true_iff in H as [H|H].
  - destruct (startsWith_app_cases (c :: r) t q H); congruence.
  - now apply IH.
Qed.

Section Scan.

Variables pat rep : jsstring.

(** A pass does not bring in a text [q] that its replacement does not
    overlap. *)
Lemma scan_includes (q : jsstring) (skip : nat) (t : jsstring) :
  no_start q rep = true -> no_start rep q = true ->
  includes (replace_scan pat rep skip t) q = true -> includes t q = true.
Proof.
  intros Hq Hr. revert skip. induction t as [|c t IH]; intros skip H.
  - exact H.
  - cbn [replace_scan] in H. destruct skip as [|k].
    + destruct (startsWith (c :: t) pat) eqn:E.
      * apply includes_app_no_start in H; [|exact Hr].
        apply IH in H. cbn [includes]. rewrite H. apply orb_true_r.
      * cbn [includes] in H. apply orb_true_iff in H as [H|H].
        -- apply scan_step_begins in H; [|exact Hq].
           now apply includes_begins.
        -- apply IH in H. cbn [includes]. rewrite H. apply orb_true_r.
    + apply IH in H. cbn [includes]. rewrite H. apply orb_true_r.
Qed.

(** After a pass whose replacement does not overlap the pattern, the
    pattern occurs nowhere. *)
Lemma scan_removes (skip : nat) (t : jsstring) :
  pat <> [] -> no_start pat rep = true -> no_start rep pat = true ->
  includes (replace_scan pat rep skip t) pat = false.
Proof.
  intros Hne Hp Hr. revert skip. induction t as [|c t IH]; intros skip.
  - cbn. destruct pat; [congruence|reflexivity].
  - cbn [replace_scan]. destruct skip as [|k]; [|apply IH].
    destruct (startsWith (c :: t) pat) eqn:E.
    + apply not_true_is_false. intros H.
      apply includes_app_no_start in H; [|exact Hr].
      now rewrite IH in H.
    + cbn [includes]. rewrite IH, orb_false_r.
      apply not_true_is_false. intros H.
      apply scan_step_begins in H; [congruence|exact Hp].
Qed.

End Scan.

(** X19: when the origin and the host of the request hold no [$] and do
    not overlap the bare placeholder domains, the rewritten body
    mentions neither placeholder domain any more, in either form. *)
Theorem no_placeholder_left (origin host body : jsstring) :
  no_dollar origin = true -> no_dollar host = true ->
  host_clear origin host = true ->
  includes (rewrite_domains origin host body) placeholder_friendly = false
  /\ includes (rewrite_domains origin host body) placeholder_backend = false.
Proof.
  intros Ho Hh Hc. unfold host_clear in Hc.
  apply andb_true_iff in Hc as [Hc A3]. apply andb_true_iff in Hc as [A1 A2].
  destruct (apart_both _ _ A1) as [H1 H1'].
  destruct (apart_both _ _ A2) as [O1 O1'].
  destruct (apart_both _ _ A3) as [H2 H2'].
  rewrite rewrite_domains_passes by assumption. unfold four_passes. split.
  - apply not_true_is_false. intros H.
    apply scan_includes in H; [|assumption|assumption].
    apply scan_includes in H; [|assumption|assumption].
    rewrite scan_removes in H; [discriminate|discriminate|assumption|assumption].
  - apply scan_removes; [discriminate|assumption|assumption].
Qed.

Lemma no_placeholder_left_witness :
  includes (rewrite_domains (str "https://example.com") (str "example.com")
              backend_page) placeholder_friendly = false
  /\ includes (rewrite_domains (str "https://example.com") (str "example.com")
                 backend_page) placeholder_backend = false.
Proof.
  exact (no_placeholder_left (str "https://example.com") (str "example.com")
           backend_page eq_refl eq_refl eq_refl).
Defined.

(** * Further properties: [atob] undoes [btoa] *)

(** ** The 24 bits of a group *)

Ltac div_lia := zify; Z.to_euclidean_division_equations; lia.

Lemma lor_mul_add (x k y : N) :
  y < 2 ^ k -> N.lor (x * 2 ^ k) y = x * 2 ^ k + y.
Proof.
  intros Hy.
  assert (Hland : N.land (x * 2 ^ k) y = 0).
  { apply N.bits_inj. intros i. rewrite N.land_spec, N.bits_0.
    destruct (N.ltb_spec i k) as [Hi|Hi].
    - rewrite N.mul_pow2_bits_low by exact Hi. reflexivity.
    - rewrite <- (N.mod_small y (2 ^ k)) by exact Hy.
      rewrite N.mod_pow2_bits_high by exact Hi. apply andb_false_r. }
  rewrite <- N.lxor_lor by exact Hland.
  symmetry. now apply N.add_nocarry_lxor.
Qed.

Lemma land_63 (x : N) : N.land x 63 = x mod 64.
Proof. change 63 with (N.ones 6). now rewrite N.land_ones. Qed.

Lemma land_255 (x : N) : N.land x 255 = x mod 256.
Proof. change 255 with (N.ones 8). now rewrite N.land_ones. Qed.

Ltac to_arith :=
  rewrite ?N.shiftl_mul_pow2, ?N.shiftr_div_pow2, ?land_63, ?land_255;
  change (2 ^ 18) with 262144; change (2 ^ 16) with 65536;
  change (2 ^ 12) with 4096; change (2 ^ 10) with 1024;
  change (2 ^ 8) with 256; change (2 ^ 6) with 64; change (2 ^ 4) with 16;
  change (2 ^ 2) with 4.

Lemma lor_shiftl (x k y : N) :
  y < 2 ^ k -> N.lor (N.shiftl x k) y = x * 2 ^ k + y.
Proof. intros H. rewrite N.shiftl_mul_pow2. now apply lor_mul_add. Qed.

Lemma sextet_lt (x : N) : N.land x 63 < 64.
Proof. rewrite land_63. apply N.mod_lt. discriminate. Qed.

(** Three bytes make the number [a * 2^16 + b * 2^8 + c]. *)
Lemma pack3 (a b c : N) :
  a <= 255 -> b <= 255 -> c <= 255 ->
  N.lor (N.lor (N.shiftl a 16) (N.shiftl b 8)) c = a * 65536 + b * 256 + c.
Proof.
  intros Ha Hb Hc.
  replace (N.lor (N.shiftl a 16) (N.shiftl b 8)) with ((a * 256 + b) * 2 ^ 8).
  - rewrite lor_mul_add by (change (2 ^ 8) with 256; lia).
    change (2 ^ 8) with 256. lia.
  - rewrite (N.shiftl_mul_pow2 b).
    replace (N.shiftl a 16) with (a * 256 * 2 ^ 8)
      by (rewrite N.shiftl_mul_pow2; change (2 ^ 16) with 65536;
          change (2 ^ 8) with 256; lia).
    change (2 ^ 8) with 256.
    replace (a * 256 * 256) with (a * 2 ^ 16) by (change (2 ^ 16) with 65536; lia).
    rewrite lor_mul_add by (change (2 ^ 16) with 65536; lia).
    change (2 ^ 16) with 65536. lia.
Qed.

(** Four sextets make the number [s0 * 2^18 + s1 * 2^12 + s2 * 2^6 + s3]. *)
Lemma pack4 (s0 s1 s2 s3 : N) :
  s1 < 64 -> s2 < 64 -> s3 < 64 ->
  N.lor (N.lor (N.lor (N.shiftl s0 18) (N.shiftl s1 12)) (N.shiftl s2 6)) s3
  = s0 * 262144 + s1 * 4096 + s2 * 64 + s3.
Proof.
  intros H1 H2 H3.
  assert (E1 : N.lor (N.shiftl s0 18) (N.shiftl s1 12)
               = (s0 * 64 + s1) * 2 ^ 12).
  { rewrite (N.shiftl_mul_pow2 s1).
    replace (N.shiftl s0 18) with (s0 * 2 ^ 18) by (now rewrite N.shiftl_mul_pow2).
    rewrite lor_mul_add by (change (2 ^ 18) with 262144;
                            change (2 ^ 12) with 4096; lia).
    change (2 ^ 18) with 262144. change (2 ^ 12) with 4096. lia. }
  assert (E2 : N.lor ((s0 * 64 + s1) * 2 ^ 12) (N.shiftl s2 6)
               = ((s0 * 64 + s1) * 64 + s2) * 2 ^ 6).
  { rewrite (N.shiftl_mul_pow2 s2).
    rewrite lor_mul_add by (change (2 ^ 12) with 4096;
                            change (2 ^ 6) with 64; lia).
    change (2 ^ 12) with 4096. change (2 ^ 6) with 64. lia. }
  rewrite E1, E2, lor_mul_add by (change (2 ^ 6) with 64; lia).
  change (2 ^ 6) with 64. lia.
Qed.

Lemma sextets_sum (n : N) :
  n < 16777216 ->
  (n / 262144 mod 64) * 262144 + (n / 4096 mod 64) * 4096
  + (n / 64 mod 64) * 64 + n mod 64 = n.
Proof. intros H. div_lia. Qed.

Lemma bytes_of (a b c : N) :
  a <= 255 -> b <= 255 -> c <= 255 ->
  let n := a * 65536 + b * 256 + c in
  n / 65536 mod 256 = a /\ n / 256 mod 256 = b /\ n mod 256 = c
  /\ n < 16777216.
Proof. intros Ha Hb Hc n. unfold n. repeat split; div_lia. Qed.

Lemma pack3s (s0 s1 s2 : N) :
  s1 < 64 -> s2 < 64 ->
  N.lor (N.lor (N.shiftl s0 12) (N.shiftl s1 6)) s2
  = s0 * 4096 + s1 * 64 + s2.
Proof.
  intros H1 H2.
  assert (E1 : N.lor (N.shiftl s0 12) (N.shiftl s1 6) = (s0 * 64 + s1) * 2 ^ 6).
  { rewrite (N.shiftl_mul_pow2 s1).
    replace (N.shiftl s0 12) with (s0 * 2 ^ 12) by (now rewrite N.shiftl_mul_pow2).
    rewrite lor_mul_add by (change (2 ^ 12) with 4096;
                            change (2 ^ 6) with 64; lia).
    change (2 ^ 12) with 4096. change (2 ^ 6) with 64. lia. }
  rewrite E1, lor_mul_add by (change (2 ^ 6) with 64; lia).
  change (2 ^ 6) with 64. lia.
Qed.

Lemma shift_six (k : N) :
  (k * 64) / 262144 = k / 4096 /\ (k * 64) / 4096 = k / 64 /\ (k * 64) / 64 = k.
Proof. repeat split; div_lia. Qed.

Lemma sextets3_sum (k : N) :
  k < 262144 ->
  (k / 4096 mod 64) * 4096 + (k / 64 mod 64) * 64 + k mod 64 = k.
Proof. intros H. div_lia. Qed.

Lemma two_bytes_of (a b : N) :
  a <= 255 -> b <= 255 ->
  let k := a * 1024 + b * 4 in
  k / 1024 mod 256 = a /\ k / 4 mod 256 = b /\ k < 262144.
Proof. intros Ha Hb k. unfold k. repeat split; div_lia. Qed.

Lemma shift_twelve (k : N) :
  (k * 4096) / 262144 = k / 64 /\ (k * 4096) / 4096 = k.
Proof. split; div_lia. Qed.

Lemma sextets2_sum (k : N) :
  k < 4096 -> (k / 64 mod 64) * 64 + k mod 64 = k.
Proof. intros H. div_lia. Qed.

Lemma one_byte_of (a : N) :
  a <= 255 -> (a * 16) / 16 mod 256 = a /\ a * 16 < 4096.
Proof. intros Ha. split; div_lia. Qed.

(** ** Characters and sextets *)

Lemma b64_char_table (v : N) :
  v < 64 ->
  b64_value (b64_char v) = Some v /\ b64_char v <> 61
  /\ is_ascii_whitespace (b64_char v) = false.
Proof.
  intros Hv.
  assert (Hall : forallb (fun v =>
                   match b64_value (b64_char v) with
                   | Some v' => N.eqb v' v
                   | None => false
                   end
                   && negb (N.eqb (b64_char v) 61)
                   && negb (is_ascii_whitespace (b64_char v)))
                   (map N.of_nat (seq 0 64)) = true)
    by (vm_compute; reflexivity).
  rewrite forallb_forall in Hall.
  assert (Hin : In v (map N.of_nat (seq 0 64))).
  { rewrite <- (N2Nat.id v). apply in_map, in_seq. lia. }
  specialize (Hall v Hin).
  apply andb_true_iff in Hall as [Hall H3].
  apply andb_true_iff in Hall as [H1 H2].
  apply negb_true_iff in H2, H3. apply N.eqb_neq in H2.
  destruct (b64_value (b64_char v)) as [v'|]; [|discriminate].
  apply N.eqb_eq in H1. subst v'. auto.
Qed.

Lemma b64_bytes_nil (fuel : nat) : b64_bytes fuel [] = [].
Proof. destruct fuel; reflexivity. Qed.

(** Three bytes go to four sextets and back. *)
Lemma group_of_three (a b c : N) (fuel : nat) (vs : list N) :
  a <= 255 -> b <= 255 -> c <= 255 ->
  let n := N.lor (N.lor (N.shiftl a 16) (N.shiftl b 8)) c in
  b64_bytes (S fuel)
    (N.land (N.shiftr n 18) 63 :: N.land (N.shiftr n 12) 63
       :: N.land (N.shiftr n 6) 63 :: N.land n 63 :: vs)
  = a :: b :: c :: b64_bytes fuel vs.
Proof.
  intros Ha Hb Hc n. cbn [b64_bytes]. cbv zeta.
  rewrite pack4 by apply sextet_lt.
  unfold n. rewrite pack3 by assumption.
  destruct (bytes_of a b c Ha Hb Hc) as (E1 & E2 & E3 & Hn).
  to_arith. rewrite sextets_sum by exact Hn.
  cbv zeta in E1, E2, E3. now rewrite E1, E2, E3.
Qed.

(** Two bytes go to three sextets and back. *)
Lemma group_of_two (a b : N) (fuel : nat) :
  a <= 255 -> b <= 255 ->
  let n := N.lor (N.shiftl a 16) (N.shiftl b 8) in
  b64_bytes (S fuel)
    [N.land (N.shiftr n 18) 63; N.land (N.shiftr n 12) 63;
     N.land (N.shiftr n 6) 63]
  = [a; b].
Proof.
  intros Ha Hb n. cbn [b64_bytes]. cbv zeta.
  rewrite pack3s by apply sextet_lt.
  assert (Hn : n = (a * 1024 + b * 4) * 64).
  { unfold n. rewrite <- (N.lor_0_r (N.lor _ _)).
    rewrite pack3 by (assumption || lia). lia. }
  rewrite Hn. to_arith.
  destruct (shift_six (a * 1024 + b * 4)) as (-> & -> & ->).
  destruct (two_bytes_of a b Ha Hb) as (E1 & E2 & Hk). cbv zeta in E1, E2, Hk.
  rewrite sextets3_sum by exact Hk. now rewrite E1, E2.
Qed.

(** One byte goes to two sextets and back. *)
Lemma group_of_one (a : N) (fuel : nat) :
  a <= 255 ->
  let n := N.shiftl a 16 in
  b64_bytes (S fuel) [N.land (N.shiftr n 18) 63; N.land (N.shiftr n 12) 63]
  = [a].
Proof.
  intros Ha n. cbn [b64_bytes]. cbv zeta.
  rewrite lor_shiftl by (change (2 ^ 6) with 64; apply sextet_lt).
  assert (Hn : n = (a * 16) * 4096).
  { unfold n. rewrite N.shiftl_mul_pow2. change (2 ^ 16) with 65536. lia. }
  rewrite Hn. to_arith.
  destruct (shift_twelve (a * 16)) as (-> & ->).
  destruct (one_byte_of a Ha) as (E1 & Hk).
  rewrite sextets2_sum by exact Hk. now rewrite E1.
Qed.

(** ** Texts *)

Lemma mod4_add4 (n : nat) : (S (S (S (S n))) mod 4 = n mod 4)%nat.
Proof.
  replace (S (S (S (S n)))) with (n + 1 * 4)%nat by lia.
  apply Nat.Div0.mod_add.
Qed.

Lemma b64_encode_encodes (s : jsstring) :
  forall fuel, (length s <= fuel)%nat -> Forall (fun c => c <= 255) s ->
  encodes (b64_encode fuel s) s.
Proof.
  induction s as [s IH] using (induction_ltof1 _ (@length N)).
  unfold ltof in IH. intros fuel Hfuel Hs.
  destruct s as [|a [|b [|c rest]]].
  - exists [], [], [].
    replace (b64_encode fuel []) with (@nil N) by (destruct fuel; reflexivity).
    split; [reflexivity|]. split; [now left|]. split; [reflexivity|].
    split; [cbn; lia|]. split; [constructor|]. split; [reflexivity|].
    intros f _. apply b64_bytes_nil.
  - destruct fuel as [|fuel]; [cbn in Hfuel; lia|].
    inversion Hs as [|? ? Ha _]; subst.
    cbn [b64_encode]. cbv zeta.
    set (n := N.shiftl a 16).
    set (s0 := N.land (N.shiftr n 18) 63).
    set (s1 := N.land (N.shiftr n 12) 63).
    destruct (b64_char_table s0 (sextet_lt _)) as (V0 & E0 & W0).
    destruct (b64_char_table s1 (sextet_lt _)) as (V1 & E1 & W1).
    exists [b64_char s0; b64_char s1], [61; 61], [s0; s1].
    split; [reflexivity|]. split; [now right; right|]. split; [reflexivity|].
    split; [cbn; lia|].
    split; [repeat (constructor; [split; assumption|]); constructor|].
    split; [cbn [b64_values]; now rewrite V0, V1|].
    intros f Hf. destruct f as [|f]; [cbn in Hf; lia|].
    now apply group_of_one.
  - destruct fuel as [|fuel]; [cbn in Hfuel; lia|].
    inversion Hs as [|? ? Ha Hs']; subst.
    inversion Hs' as [|? ? Hb _]; subst.
    cbn [b64_encode]. cbv zeta.
    set (n := N.lor (N.shiftl a 16) (N.shiftl b 8)).
    set (s0 := N.land (N.shiftr n 18) 63).
    set (s1 := N.land (N.shiftr n 12) 63).
    set (s2 := N.land (N.shiftr n 6) 63).
    destruct (b64_char_table s0 (sextet_lt _)) as (V0 & E0 & W0).
    destruct (b64_char_table s1 (sextet_lt _)) as (V1 & E1 & W1).
    destruct (b64_char_table s2 (sextet_lt _)) as (V2 & E2 & W2).
    exists [b64_char s0; b64_char s1; b64_char s2], [61], [s0; s1; s2].
    split; [reflexivity|]. split; [now right; left|]. split; [reflexivity|].
    split; [cbn; lia|].
    split; [repeat (constructor; [split; assumption|]); constructor|].
    split; [cbn [b64_values]; now rewrite V0, V1, V2|].
    intros f Hf. destruct f as [|f]; [cbn in Hf; lia|].
    now apply group_of_two.
  - destruct fuel as [|fuel]; [cbn in Hfuel; lia|].
    inversion Hs as [|? ? Ha Hs1]; subst.
    inversion Hs1 as [|? ? Hb Hs2]; subst.
    inversion Hs2 as [|? ? Hc Hrest]; subst.
    destruct (IH rest ltac:(cbn [length]; lia) fuel
                ltac:(cbn [length] in Hfuel; lia) Hrest)
      as (core & pad & vs & He & Hpad & Hlen & Hcore & Hall & Hvs & Hbytes).
    cbn [b64_encode]. cbv zeta.
    set (n := N.lor (N.lor (N.shiftl a 16) (N.shiftl b 8)) c).
    set (s0 := N.land (N.shiftr n 18) 63).
    set (s1 := N.land (N.shiftr n 12) 63).
    set (s2 := N.land (N.shiftr n 6) 63).
    set (s3 := N.land n 63).
    destruct (b64_char_table s0 (sextet_lt _)) as (V0 & E0 & W0).
    destruct (b64_char_table s1 (sextet_lt _)) as (V1 & E1 & W1).
    destruct (b64_char_table s2 (sextet_lt _)) as (V2 & E2 & W2).
    destruct (b64_char_table s3 (sextet_lt _)) as (V3 & E3 & W3).
    exists (b64_char s0 :: b64_char s1 :: b64_char s2 :: b64_char s3 :: core),
      pad, (s0 :: s1 :: s2 :: s3 :: vs).
    split; [rewrite He; reflexivity|]. split; [exact Hpad|].
    split; [cbn [length]; now rewrite mod4_add4|].
    split; [cbn [length]; now rewrite mod4_add4|].
    split; [repeat (constructor; [split; assumption|]); exact Hall|].
    split; [cbn [b64_values]; now rewrite V0, V1, V2, V3, Hvs|].
    intros f Hf. destruct f as [|f]; [cbn in Hf; lia|].
    unfold s0, s1, s2, s3, n. rewrite group_of_three by assumption.
    do 3 f_equal. apply Hbytes. cbn [length] in Hf. lia.
Qed.

Lemma filter_keeps (P : N -> bool) (l : list N) :
  Forall (fun c => P c = false) l -> filter (fun c => P c = false) l = l.
Proof.
  induction 1 as [|c l Hc _ IH]; [reflexivity|].
  rewrite filter_cons_True by exact Hc. now rewrite IH.
Qed.

Lemma strip_padding_padded (core pad : jsstring) :
  pad = [] \/ pad = [61] \/ pad = [61; 61] ->
  (length (core ++ pad) mod 4 = 0)%nat ->
  Forall (fun c => c <> 61) core ->
  strip_padding (core ++ pad) = core.
Proof.
  intros Hpad Hlen Hcore. unfold strip_padding. rewrite Hlen. cbn [Nat.eqb].
  assert (Hlast : forall y r, rev core = y :: r -> N.eqb y 61 = false).
  { intros y r E. apply N.eqb_neq.
    apply (proj1 (Forall_forall _ core) Hcore).
    apply list_elem_of_In. apply in_rev. rewrite E. now left. }
  rewrite rev_app_distr.
  destruct Hpad as [->|[->| ->]]; cbn [rev app].
  - rewrite app_nil_r. destruct (rev core) as [|x r] eqn:E; [reflexivity|].
    now rewrite (Hlast x r eq_refl).
  - cbn [N.eqb Pos.eqb]. destruct (rev core) as [|y r] eqn:E.
    + rewrite <- (rev_involutive core), E. reflexivity.
    + rewrite (Hlast y r eq_refl). rewrite <- E. apply rev_involutive.
  - cbn [N.eqb Pos.eqb]. apply rev_involutive.
Qed.

Lemma encodes_atob (e s : jsstring) : encodes e s -> atob e = Return s.
Proof.
  intros (core & pad & vs & -> & Hpad & Hlen & Hcore & Hall & Hvs & Hbytes).
  unfold atob. cbv zeta.
  rewrite filter_keeps.
  - rewrite strip_padding_padded;
      [|exact Hpad|exact Hlen|eapply Forall_impl; [exact Hall|]; now intros c [H _]].
    destruct (Nat.eqb_spec (length core mod 4) 1) as [E|_]; [contradiction|].
    rewrite Hvs. f_equal. now apply Hbytes.
  - apply Forall_app. split.
    + eapply Forall_impl; [exact Hall|]. now intros c [_ H].
    + destruct Hpad as [->|[->| ->]]; repeat constructor.
Qed.

(** * Further properties: what a client reads in the answer of [/sub] *)

Lemma btoa_encodes (s e : jsstring) : btoa s = Return e -> encodes e s.
Proof.
  unfold btoa. destruct (forallb (fun c => c <=? 255) s) eqn:E; [|discriminate].
  intros [= <-]. apply b64_encode_encodes; [apply le_n|].
  apply Forall_forall. intros c Hc. apply list_elem_of_In in Hc.
  rewrite forallb_forall in E. apply N.leb_le. now apply E.
Qed.

(** X20: [atob] undoes [btoa]: whenever [btoa(s)] returns a text, its
    length is a multiple of four and [atob] of it returns [s]. *)
Theorem atob_btoa (s e : jsstring) :
  btoa s = Return e -> atob e = Return s /\ (length e mod 4 = 0)%nat.
Proof.
  intros H. apply btoa_encodes in H. split; [now apply encodes_atob|].
  destruct H as (core & pad & vs & _ & _ & Hlen & _). exact Hlen.
Qed.

Lemma atob_btoa_witness :
  atob (str "dm1lc3M6Ly9hYmM=") = Return (str "vmess://abc").
Proof.
  exact (proj1 (atob_btoa (str "vmess://abc") (str "dm1lc3M6Ly9hYmM=") eq_refl)).
Defined.

(** ** The body of a 200 answer *)

Lemma loop_then_finish (seg : jsstring -> M unit) (parts : list jsstring)
    (w : world) (rep : reply) :
  let out := (for_of parts seg ;; finish) w in
  fst out = Return rep -> status rep = 200%Z ->
  replacedURIs (snd out) <> []
  /\ exists b, body rep = Lit b
               /\ btoa (join (replacedURIs (snd out)) crlf) = Return b.
Proof.
  intros out. unfold out.
  destruct (for_of parts seg w) as [[[]|e] w2] eqn:Efor.
  - rewrite (bind_run _ _ _ _ _ Efor), finish_snd. intros Hrep Hst. split.
    + intros Hnil. rewrite (finish_empty _ Hnil) in Hrep.
      injection Hrep as <-. discriminate.
    + now apply finish_success.
  - rewrite (bind_throw _ _ _ _ _ Efor). discriminate.
Qed.

Lemma resolver_success (request : request) (url : URL) (backend : jsstring)
    (w : world) (rep : reply) :
  let out := Part001.processSubscription request url backend w in
  fst out = Return rep -> status rep = 200%Z ->
  replacedURIs (snd out) <> []
  /\ Forall (resolvable (getHost request) (snd out)) (replacedURIs (snd out))
  /\ exists b, body rep = Lit b
               /\ btoa (join (replacedURIs (snd out)) crlf) = Return b.
Proof.
  intros out. unfold out, Part001.processSubscription.
  destruct (searchParams_get url (str "url")) as [[|c t]|];
    try (intros [= <-]; discriminate).
  rewrite (bind_run _ _ w (fresh_list w) tt) by reflexivity.
  destruct (Nat.eqb (length (urlParts_of (c :: t))) 0);
    [intros [= <-]; discriminate|].
  intros Hrep Hst.
  destruct (loop_then_finish _ _ _ rep Hrep Hst) as [Hne Hb].
  split; [exact Hne|]. split; [|exact Hb].
  assert (H0 : fanout_invariant (getHost request) (trace w) (fresh_list w)).
  { split; [exists []; split; [reflexivity|exact I]|constructor]. }
  pose proof (for_of_invariant request (getHost request) (trace w)
                (urlParts_of (c :: t)) (fresh_list w)
                (urlParts_nonempty (c :: t)) H0) as [_ Hinv].
  rewrite snd_bind.
  destruct (fst (for_of (urlParts_of (c :: t))
                   (Part001.segment request (getHost request)) (fresh_list w)));
    [now rewrite finish_snd|exact Hinv].
Qed.

(** X21: a 200 answer of the resolver of [part_001] has a body that
    [atob] decodes to the output list joined by CR LF, and the list
    holds at least one URI; the same holds of [part_000] when no
    [target] is given. *)
Theorem answer_decodes (request : request) (url : URL) (backend : jsstring)
    (w : world) (rep : reply) :
  let decoded out :=
    replacedURIs (snd out) <> []
    /\ exists b, body rep = Lit b
                 /\ atob b = Return (join (replacedURIs (snd out)) crlf) in
  let out1 := Part001.processSubscription request url backend w in
  let out0 := Part000.processSubscription request url backend w in
  status rep = 200%Z ->
  (fst out1 = Return rep -> decoded out1)
  /\ (searchParams_get url (str "target") = None
      \/ searchParams_get url (str "target") = Some [] ->
      fst out0 = Return rep -> decoded out0).
Proof.
  intros decoded out1 out0 Hst. split.
  - intros Hrep.
    destruct (resolver_success request url backend w rep Hrep Hst)
      as (Hne & _ & b & Hb & Hbtoa).
    split; [exact Hne|]. exists b. split; [exact Hb|]. now apply encodes_atob, btoa_encodes.
  - intros Ht. unfold out0, Part000.processSubscription.
    destruct (searchParams_get url (str "url")) as [[|c t]|];
      try (intros [= <-]; discriminate).
    assert (Hrun : fst ((new_replacedURIs ;;
                     (if Nat.eqb (length (urlParts_of (c :: t))) 0
                      then ret (Reply 400 (Lit (str "There are no valid links")) [])
                      else for_of (urlParts_of (c :: t))
                             (Part000.segment request (getHost request)) ;;
                           finish)) w) = Return rep ->
                   decoded ((new_replacedURIs ;;
                     (if Nat.eqb (length (urlParts_of (c :: t))) 0
                      then ret (Reply 400 (Lit (str "There are no valid links")) [])
                      else for_of (urlParts_of (c :: t))
                             (Part000.segment request (getHost request)) ;;
                           finish)) w)).
    { rewrite (bind_run _ _ w (fresh_list w) tt) by reflexivity.
      destruct (Nat.eqb (length (urlParts_of (c :: t))) 0);
        [intros [= <-]; discriminate|].
      intros Hrep.
      destruct (loop_then_finish _ _ _ rep Hrep Hst) as (Hne & b & Hb & Hbtoa).
      split; [exact Hne|]. exists b. split; [exact Hb|]. now apply encodes_atob, btoa_encodes. }
    destruct Ht as [-> | ->]; exact Hrun.
Qed.

Lemma answer_decodes_witness :
  atob (str "aHR0cHM6Ly9leGFtcGxlLmNvbS9zdWJzY3JpcHRpb24vYWJjZGVmZ2hpamtsbW5vcA0KaHR0cHM6Ly9leGFtcGxlLmNvbS9zdWJzY3JpcHRpb24vcXJzdHV2d3h5ejAxMjM0NQ==")
  = Return (str "https://example.com/subscription/abcdefghijklmnop" ++ crlf
            ++ str "https://example.com/subscription/qrstuvwxyz012345").
Proof.
  destruct (proj1 (answer_decodes (sub_request two_links)
                     (req_url (sub_request two_links)) default_backend offline
                     (Reply 200
                        (Lit (str "aHR0cHM6Ly9leGFtcGxlLmNvbS9zdWJzY3JpcHRpb24vYWJjZGVmZ2hpamtsbW5vcA0KaHR0cHM6Ly9leGFtcGxlLmNvbS9zdWJzY3JpcHRpb24vcXJzdHV2d3h5ejAxMjM0NQ=="))
                        [(content_type, str "text/plain");
                         (allow_origin, str "*")])
                     eq_refl) eq_refl)
    as (_ & b & Hb & Hatob).
  injection Hb as <-. exact Hatob.
Defined.

(** ** The lines of the decoded body *)

Lemma split_lines_single (l : jsstring) :
  Forall (fun c => c <> 10 /\ c <> 13) l -> split_lines l = [l].
Proof.
  induction 1 as [|c l [H10 H13] _ IH]; [reflexivity|].
  cbn [split_lines]. rewrite IH.
  apply N.eqb_neq in H10, H13. now rewrite H10, H13.
Qed.

Lemma split_lines_crlf (l rest : jsstring) :
  Forall (fun c => c <> 10 /\ c <> 13) l ->
  split_lines (l ++ crlf ++ rest) = l :: split_lines rest.
Proof.
  induction 1 as [|c l [H10 H13] _ IH]; [reflexivity|].
  cbn [app split_lines]. rewrite IH.
  apply N.eqb_neq in H10, H13. now rewrite H10, H13.
Qed.

Lemma split_lines_join (uris : list jsstring) :
  uris <> [] -> Forall (Forall (fun c => c <> 10 /\ c <> 13)) uris ->
  split_lines (join uris crlf) = uris.
Proof.
  intros Hne Hall. induction Hall as [|x l Hx Hl IH]; [congruence|].
  destruct l as [|y l].
  - now apply split_lines_single.
  - change (join (x :: y :: l) crlf) with (x ++ crlf ++ join (y :: l) crlf).
    rewrite split_lines_crlf by exact Hx. f_equal. now apply IH.
Qed.

Lemma trimStart_all_space (s : jsstring) :
  all_space (trimStart s) -> trimStart s = [].
Proof.
  induction s as [|c s IH]; [reflexivity|].
  cbn [trimStart]. destruct (is_js_space c) eqn:E; [exact IH|].
  intros H. inversion H as [|? ? Hc _]; subst. congruence.
Qed.

Lemma trim_nil_spaces (s : jsstring) : trim s = [] -> all_space s.
Proof.
  unfold trim, trimEnd. intros H.
  apply (f_equal (@rev N)) in H. rewrite rev_involutive in H. cbn [rev] in H.
  apply trimStart_nil_spaces, all_space_rev in H.
  rewrite rev_involutive in H.
  now apply trimStart_nil_spaces, trimStart_all_space.
Qed.

Lemma chars_plain (c : N) :
  In c chars -> c <> 10 /\ c <> 13 /\ is_js_space c = false.
Proof.
  intros Hc.
  assert (H : forallb (fun c => negb (N.eqb c 10) && negb (N.eqb c 13)
                                && negb (is_js_space c)) chars = true)
    by (vm_compute; reflexivity).
  rewrite forallb_forall in H. specialize (H c Hc).
  apply andb_true_iff in H as [H H3]. apply andb_true_iff in H as [H1 H2].
  apply negb_true_iff in H1, H2, H3. apply N.eqb_neq in H1, H2. auto.
Qed.

Lemma uri_of_line (host key : jsstring) :
  Forall (fun c => c <> 10 /\ c <> 13) host -> generated_key key ->
  Forall (fun c => c <> 10 /\ c <> 13) (uri_of host key)
  /\ trim (uri_of host key) <> [].
Proof.
  intros Hhost [Hlen Hkey]. split.
  - unfold uri_of. apply Forall_app. split; [exact Hhost|].
    apply Forall_app. split; [repeat constructor; discriminate|].
    apply Forall_app. split; [repeat constructor; discriminate|].
    apply Forall_app. split; [repeat constructor; discriminate|].
    eapply Forall_impl; [exact Hkey|].
    intros c Hc. destruct (chars_plain c Hc) as (H1 & H2 & _). now split.
  - intros Hnil. apply trim_nil_spaces in Hnil.
    unfold uri_of, all_space in Hnil.
    apply Forall_app in Hnil as [_ Hnil].
    inversion Hnil as [|? ? Hslash _]. discriminate.
Qed.

(** X22: when the origin of the request holds no line break, the lines
    of the decoded body of a 200 answer - split at CR LF or LF, blank
    lines dropped, as [processSubscription] itself reads a base64
    subscription - are exactly the URIs of the output list, in order. *)
Theorem answer_lines (request : request) (url : URL) (backend : jsstring)
    (w : world) (rep : reply) :
  Forall (fun c => c <> 10 /\ c <> 13) (getHost request) ->
  let out := Part001.processSubscription request url backend w in
  fst out = Return rep -> status rep = 200%Z ->
  exists b d, body rep = Lit b /\ atob b = Return d
              /\ links_of d = replacedURIs (snd out).
Proof.
  intros Hhost out Hrep Hst.
  destruct (resolver_success request url backend w rep Hrep Hst)
    as (Hne & Hres & b & Hb & Hbtoa).
  fold out in Hne, Hres, Hbtoa.
  exists b, (join (replacedURIs (snd out)) crlf).
  split; [exact Hb|]. split; [now apply encodes_atob, btoa_encodes|].
  assert (Hlines : Forall (fun u => Forall (fun c => c <> 10 /\ c <> 13) u
                                    /\ trim u <> [])
                     (replacedURIs (snd out))).
  { eapply Forall_impl; [exact Hres|].
    intros u (key & content & hdrs & -> & Hkey & _). now apply uri_of_line. }
  unfold links_of. rewrite split_lines_join.
  - clear Hne Hres Hbtoa.
    induction Hlines as [|u l [_ Hu] _ IH]; [reflexivity|].
    rewrite filter_cons_True by exact Hu. now rewrite IH.
  - exact Hne.
  - eapply Forall_impl; [exact Hlines|]. now intros u [H _].
Qed.

Lemma answer_lines_witness :
  let rq := sub_request two_links in
  let out := Part001.processSubscription rq (req_url rq) default_backend
               offline in
  exists b d,
    fst out
    = Return (Reply 200 (Lit b)
                [(content_type, str "text/plain"); (allow_origin, str "*")])
    /\ atob b = Return d
    /\ links_of d = [str "https://example.com/subscription/abcdefghijklmnop";
                     str "https://example.com/subscription/qrstuvwxyz012345"].
Proof.
  intros rq out.
  assert (Hhost : Forall (fun c => c <> 10 /\ c <> 13) (getHost rq))
    by (repeat constructor; discriminate).
  destruct (answer_lines rq (req_url rq) default_backend offline
              (Reply 200
                 (Lit (str "aHR0cHM6Ly9leGFtcGxlLmNvbS9zdWJzY3JpcHRpb24vYWJjZGVmZ2hpamtsbW5vcA0KaHR0cHM6Ly9leGFtcGxlLmNvbS9zdWJzY3JpcHRpb24vcXJzdHV2d3h5ejAxMjM0NQ=="))
                 [(content_type, str "text/plain"); (allow_origin, str "*")])
              Hhost eq_refl eq_refl)
    as (b & d & Hb & Hatob & Hlinks).
  exists b, d. injection Hb as <-.
  split; [reflexivity|]. split; [exact Hatob|exact Hlinks].
Defined.

(** * Further properties: the answer of [/sub] is a base64 subscription *)

Lemma b64_value_plain (c v : N) :
  b64_value c = Some v -> base64_class c = true /\ is_js_space c = false.
Proof.
  intros H.
  assert (Hc : c < 123).
  { unfold b64_value, is_upper, is_lower, is_digit in H.
    destruct ((65 <=? c) && (c <=? 90)) eqn:E1;
      [apply andb_true_iff in E1 as [_ E]; apply N.leb_le in E; lia|].
    destruct ((97 <=? c) && (c <=? 122)) eqn:E2;
      [apply andb_true_iff in E2 as [_ E]; apply N.leb_le in E; lia|].
    destruct ((48 <=? c) && (c <=? 57)) eqn:E3;
      [apply andb_true_iff in E3 as [_ E]; apply N.leb_le in E; lia|].
    destruct (N.eqb_spec c 43) as [->|_]; [lia|].
    destruct (N.eqb_spec c 47) as [->|_]; [lia|discriminate]. }
  assert (Hall : forallb (fun c => match b64_value c with
                                   | Some _ => base64_class c
                                               && negb (is_js_space c)
                                   | None => true
                                   end) (map N.of_nat (seq 0 123)) = true)
    by (vm_compute; reflexivity).
  rewrite forallb_forall in Hall.
  assert (Hin : In c (map N.of_nat (seq 0 123))).
  { rewrite <- (N2Nat.id c). apply in_map, in_seq. lia. }
  specialize (Hall c Hin). rewrite H in Hall.
  apply andb_true_iff in Hall as [H1 H2]. apply negb_true_iff in H2. auto.
Qed.

Lemma b64_values_plain (core : jsstring) (vs : list N) :
  b64_values core = Some vs ->
  Forall (fun c => base64_class c = true /\ is_js_space c = false) core
  /\ length vs = length core.
Proof.
  revert vs. induction core as [|c core IH]; intros vs H.
  - injection H as <-. split; [constructor|reflexivity].
  - cbn [b64_values] in H.
    destruct (b64_value c) as [v|] eqn:Ev; [|discriminate].
    destruct (b64_values core) as [vs'|]; [|discriminate].
    injection H as <-. destruct (IH vs' eq_refl) as [Hall Hlen].
    split; [constructor; [now apply (b64_value_plain c v)|exact Hall]|].
    cbn [length]. now rewrite Hlen.
Qed.

Lemma b64_bytes_length (fuel : nat) (vs : list N) :
  (length (b64_bytes fuel vs) <= length vs)%nat.
Proof.
  revert vs. induction fuel as [|fuel IH]; intros vs; [cbn; lia|].
  destruct vs as [|a [|b [|c [|d rest]]]]; cbn [b64_bytes length]; try lia.
  specialize (IH rest). lia.
Qed.

(** A text that [btoa] returns has no whitespace, lies in the class of
    [base64Pattern] and is at least as long as what it encodes. *)
Lemma encodes_plain (e s : jsstring) :
  encodes e s ->
  Forall (fun c => base64_class c = true /\ is_js_space c = false) e
  /\ (length s <= length e)%nat.
Proof.
  intros (core & pad & vs & -> & Hpad & _ & _ & _ & Hvs & Hbytes).
  destruct (b64_values_plain core vs Hvs) as [Hall Hlen]. split.
  - apply Forall_app. split; [exact Hall|].
    destruct Hpad as [->|[->| ->]]; repeat constructor.
  - rewrite <- (Hbytes (length vs) (le_n _)), length_app.
    pose proof (b64_bytes_length (length vs) vs). lia.
Qed.

Lemma trimStart_plain (s : jsstring) :
  Forall (fun c => is_js_space c = false) s -> trimStart s = s.
Proof. intros H. destruct H as [|c s Hc _]; cbn [trimStart]; [|rewrite Hc]; reflexivity. Qed.

Lemma trim_plain (s : jsstring) :
  Forall (fun c => is_js_space c = false) s -> trim s = s.
Proof.
  intros H. unfold trim, trimEnd. rewrite (trimStart_plain s H).
  rewrite trimStart_plain; [apply rev_involutive|].
  apply Forall_forall. intros c Hc. apply list_elem_of_In, in_rev in Hc.
  rewrite Forall_forall in H. now apply H, list_elem_of_In.
Qed.

Lemma join_first (u : jsstring) (l : list jsstring) (sep : jsstring) :
  exists rest, join (u :: l) sep = u ++ rest.
Proof.
  destruct l as [|v l]; [exists []; cbn; now rewrite app_nil_r|].
  now exists (sep ++ join (v :: l) sep).
Qed.

(** X23: the answer closes the loop: when the protocol of the request
    ends with a colon, as the protocol of a URL does, [parseData]
    classifies the body of a 200 answer of [/sub] as [base64], the data
    being the output list joined by CR LF - so a [/sub] address of this
    service, used as a segment, is read as a base64 subscription. *)
Theorem answer_is_subscription (request : request) (url : URL)
    (backend : jsstring) (w : world) (rep : reply) :
  (exists scheme, url_protocol (req_url request) = scheme ++ str ":") ->
  let out := Part001.processSubscription request url backend w in
  fst out = Return rep -> status rep = 200%Z ->
  exists b, body rep = Lit b
            /\ parseData (JStr b)
               = Return (Payload base64
                           (JStr (join (replacedURIs (snd out)) crlf))).
Proof.
  intros [scheme Hscheme] out Hrep Hst.
  destruct (resolver_success request url backend w rep Hrep Hst)
    as (Hne & Hres & b & Hb & Hbtoa).
  fold out in Hne, Hres, Hbtoa. exists b. split; [exact Hb|].
  apply btoa_encodes in Hbtoa.
  destruct (encodes_plain _ _ Hbtoa) as [Hplain Hlen].
  assert (Hns : Forall (fun c => is_js_space c = false) b)
    by (eapply Forall_impl; [exact Hplain|]; now intros c [_ H]).
  destruct (replacedURIs (snd out)) as [|u l] eqn:Euris; [congruence|].
  inversion Hres as [|? ? (key & content & hdrs & Hu & [Hkey _] & _) _]; subst.
  destruct (join_first (uri_of (getHost request) key) l crlf) as [rest Hjoin].
  rewrite parseData_string, trim_plain by exact Hns.
  rewrite (try_base64_links b (join (uri_of (getHost request) key :: l) crlf));
    [reflexivity|].
  assert (Hlong : (20 < length b)%nat).
  { rewrite Hjoin in Hlen. unfold uri_of in Hlen.
    rewrite !length_app, Hkey in Hlen. cbn [length str] in Hlen.
    change (length subDir) with 12%nat in Hlen. lia. }
  split; [|split; [exact Hlong|split]].
  - unfold base64Pattern_test. destruct b as [|c b]; [cbn in Hlong; lia|].
    apply forallb_forall. intros x Hx.
    rewrite Forall_forall in Hplain. now apply Hplain, list_elem_of_In.
  - unfold remove_spaces. rewrite filter_keeps by exact Hns.
    now apply encodes_atob.
  - rewrite Hjoin. unfold uri_of, getHost. rewrite Hscheme.
    rewrite <- !app_assoc. apply includes_prefixed, includes_begins.
    apply (startsWith_app (str "://")).
Qed.

Lemma answer_is_subscription_witness :
  parseData
    (JStr (str "aHR0cHM6Ly9leGFtcGxlLmNvbS9zdWJzY3JpcHRpb24vYWJjZGVmZ2hpamtsbW5vcA0KaHR0cHM6Ly9leGFtcGxlLmNvbS9zdWJzY3JpcHRpb24vcXJzdHV2d3h5ejAxMjM0NQ=="))
  = Return (Payload base64
              (JStr (str "https://example.com/subscription/abcdefghijklmnop"
                     ++ crlf
                     ++ str "https://example.com/subscription/qrstuvwxyz012345"))).
Proof.
  destruct (answer_is_subscription (sub_request two_links)
              (req_url (sub_request two_links)) default_backend offline
              (Reply 200
                 (Lit (str "aHR0cHM6Ly9leGFtcGxlLmNvbS9zdWJzY3JpcHRpb24vYWJjZGVmZ2hpamtsbW5vcA0KaHR0cHM6Ly9leGFtcGxlLmNvbS9zdWJzY3JpcHRpb24vcXJzdHV2d3h5ejAxMjM0NQ=="))
                 [(content_type, str "text/plain"); (allow_origin, str "*")])
              (ex_intro _ (str "https") eq_refl) eq_refl eq_refl)
    as (b & Hb & Hp).
  injection Hb as <-. exact Hp.
Defined.
